(** * The vfkit machine driver (pkg/drivers/vfkit/vfkit.go)

    A shallow embedding of the driver's lifecycle code: the state queries
    (getVfkitState, getVmnetHelperState, GetState), the IP resolution loop
    (setupIP), the shutdown paths (stopVfkit, killVfkit, Stop, Kill), the
    control channel (SetVFKitState), the disk image builder
    (generateDiskImage) and the SSH wait loop (WaitForTCPWithDelay).

    The driver talks to the file system, the process table, a unix socket,
    the DHCP lease lookup and the host firewall.  Those collaborators are
    modelled as an explicit [World] that is threaded through every call,
    together with a record [Externals] of the answers the environment gives
    (injected faults, lookup results, HTTP responses).  Every external call
    is appended to a trace, so that "how often" and "in which order" can be
    stated about the code. *)

From Stdlib Require Import ZArith Lia List.
From Stdlib.Strings Require Import Byte.
From stdpp Require Import base gmap strings list pretty.

Local Open Scope Z_scope.
Local Open Scope string_scope.
Local Open Scope list_scope.

(** ** Go errors *)

(** An error value, with the shape the driver can observe: its message
    ([Error()]), whether [errors.Is(err, os.ErrNotExist)] holds along the
    unwrap chain, and whether it is the sentinel [os.ErrProcessDone]. *)
Inductive error : Type :=
| ErrNotExist (path : string)            (* *fs.PathError wrapping ENOENT *)
| ErrProcessDone                         (* os.ErrProcessDone *)
| ErrNew (msg : string)                  (* errors.New, fmt.Errorf without %w *)
| ErrWrap (msg : string) (cause : error) (* errors.Wrap(cause, msg) *).

Fixpoint Error (e : error) : string :=
  match e with
  | ErrNotExist path => "open " +:+ path +:+ ": no such file or directory"
  | ErrProcessDone => "os: process already finished"
  | ErrNew msg => msg
  | ErrWrap msg cause => msg +:+ ": " +:+ Error cause
  end.

(** [errors.Is(err, os.ErrNotExist)]: follows the unwrap chain. *)
Fixpoint errors_Is_ErrNotExist (e : error) : bool :=
  match e with
  | ErrNotExist _ => true
  | ErrWrap _ cause => errors_Is_ErrNotExist cause
  | _ => false
  end.

(** [err == os.ErrProcessDone]: identity with the sentinel, no unwrapping. *)
Definition is_ErrProcessDone (e : error) : bool :=
  match e with
  | ErrProcessDone => true
  | _ => false
  end.

Definition errors_Wrap (e : error) (msg : string) : error := ErrWrap msg e.

Inductive result (A : Type) : Type :=
| Ok (a : A)
| Err (e : error).
Arguments Ok {A} a.
Arguments Err {A} e.

(** ** strings.Contains *)

Fixpoint has_prefix (p s : string) : bool :=
  match p, s with
  | EmptyString, _ => true
  | String a p', String b s' => if Ascii.eqb a b then has_prefix p' s' else false
  | String _ _, EmptyString => false
  end.

Fixpoint strings_Contains (s substr : string) : bool :=
  if has_prefix substr s then true
  else match s with
       | EmptyString => false
       | String _ s' => strings_Contains s' substr
       end.

(** ** libmachine's state.State *)

Module state.
Inductive State : Type :=
| None | Running | Paused | Saved | Stopped | Stopping | Starting | Error | Timeout.
End state.

#[global] Instance state_eq_dec : EqDecision state.State.
Proof. solve_decision. Defined.

(** ** Constants of the package *)

Definition isoFilename := "boot2docker.iso".
Definition pidFileName := "vfkit.pid".
Definition sockFilename := "vfkit.sock".
Definition logFileName := "vfkit.log".
Definition serialFileName := "serial.log".
Definition defaultSSHUser := "docker".

(** [time.Second], in nanoseconds as in Go's [time.Duration]. *)
Definition time_Second : Z := 1000000000.

(** ** The driver struct *)

(** The non-nil [*vmnet.Helper] a driver may hold. Its process lives in the
    [World]; the pointer only carries configuration. *)
Record vmnet_Helper : Type := {
  MachineDir : string;
  InterfaceID : string;
}.

Record Driver : Type := {
  (* drivers.BaseDriver *)
  IPAddress : string;
  MachineName : string;
  SSHUser : string;
  SSHPort : Z;
  StorePath : string;
  (* Driver *)
  Boot2DockerURL : string;
  DiskSize : Z;
  CPU : Z;
  Memory : Z;
  ExtraDisks : Z;
  Network : string;
  MACAddress : string;
  VmnetHelper : option vmnet_Helper;
}.

Definition set_IPAddress (d : Driver) (ip : string) : Driver :=
  {| IPAddress := ip; MachineName := MachineName d; SSHUser := SSHUser d;
     SSHPort := SSHPort d; StorePath := StorePath d;
     Boot2DockerURL := Boot2DockerURL d; DiskSize := DiskSize d; CPU := CPU d;
     Memory := Memory d; ExtraDisks := ExtraDisks d; Network := Network d;
     MACAddress := MACAddress d; VmnetHelper := VmnetHelper d |}.

(** ** The world outside the driver *)

Inductive fsop : Type := OpRead | OpWrite | OpRemove | OpTruncate.
Inductive psop : Type := PsQuery | PsTerminate | PsKill.

(** What one probe of the SSH endpoint does: the dial fails, the dial
    succeeds and the one-byte read fails with an error other than io.EOF,
    the read reports io.EOF, or the read returns without error. *)
Inductive probe : Type :=
| DialFails (e : error)
| ReadFails (e : error)
| ReadEOF
| ReadOK.

(** What [httpc.Post] returns to its caller: an error, or a response with
    its status code. *)
Inductive post_result : Type :=
| PostErr (e : error)
| PostResp (status : Z).

(** The JSON document [{"state": s}] that [json.Marshal] produces for a
    [VMState]; kept structured, its bytes are never inspected. *)
Record VMState : Type := { State : string }.

Inductive json : Type :=
| JObject (fields : list (string * string)).

(** An HTTP request, as far as the client's redirect policy looks at it. *)
Record Request : Type := {
  Method : string;
  URL : string;
  Body : option json;
}.

(** The Location header of a response: absent, or its value together with
    the URL it resolves to against the URL of the request
    ([req.URL.Parse(loc)], which can fail). *)
Inductive location : Type :=
| NoLocation
| Location (header : string) (target : result string).

(** What the transport answers to one request sent on the unix socket: a
    failure (the socket cannot be dialled, the connection breaks), or the
    response of the hypervisor with its status code and Location header. *)
Inductive round_trip : Type :=
| RoundTripErr (e : error)
| Response (status : Z) (loc : location).

Module tar.
Definition TypeReg : byte := x30.   (* '0' *)
Definition TypeRegA : byte := x00.
Definition TypeDir : byte := x35.   (* '5' *)

Record Header : Type := {
  Typeflag : byte;
  Name : string;
  Size : Z;
  Mode : Z;
}.
End tar.

(** Every call the driver makes to the outside, in the order made. *)
Inductive event : Type :=
| EvReadPidfile (path : string)
| EvReadFile (path : string)
| EvWriteFile (path : string)
| EvTruncate (path : string) (size : Z)
| EvRemove (path : string)
| EvExists (pid : Z) (executable : string)
| EvTerminate (pid : Z) (executable : string)
| EvKill (pid : Z) (executable : string)
| EvPost (sock : string) (url : string) (body : json)
| EvLookup (mac : string)
| EvSleep (d : Z)
| EvUnblockBootpd
| EvHelperGetState
| EvHelperStop
| EvHelperKill
| EvDial (addr : string)
| EvConnRead (addr : string)
| EvConnClose (addr : string).

#[global] Instance json_eq_dec : EqDecision json.
Proof. solve_decision. Defined.
#[global] Instance event_eq_dec : EqDecision event.
Proof. solve_decision. Defined.

(** Modelled from the spec: vmnet.Helper (pkg/drivers/vmnet) is not part of
    this source file.  The spec consumes the network helper "only through an
    abstract start/stop/state/MAC-address contract" (section 1), with the
    process supervisor's contract of section 4.1: a state query reports
    Stopped, Running or Error, and stopping or killing a helper that is
    already stopped is a no-op success.  [helper_state] is what the query
    reports, [helper_query_err] makes the query fail, [helper_signal_err]
    makes a stop or kill of a running helper fail. *)
Record HelperProc : Type := {
  helper_state : state.State;
  helper_query_err : option error;
  helper_signal_err : option error;
}.

Record World : Type := {
  files : gmap string (list byte);   (* path -> content *)
  procs : gmap Z string;             (* live pid -> executable name *)
  helper : HelperProc;               (* the vmnet-helper process *)
  posts : nat;                       (* control-channel calls made so far *)
  lookups : nat;                     (* DHCP lease lookups made so far *)
  probes : nat;                      (* SSH endpoint probes made so far *)
  trace : list event;                (* external calls, oldest first *)
}.

(** The environment's answers.  Faults are injected per operation and path
    (or pid); lookups, posts and probes are indexed by how many were made
    before, so the answers may change over time.

    [write_progress] says how far an [os.WriteFile] that fails got:
    [None], the file could not be opened and nothing changed; [Some n], the
    file was created or emptied and at most [n] bytes reached it before the
    failure.

    [http_RoundTrip sock req n hop] is the answer to request [req], the
    [hop]-th request (counted from 0) that the [n]-th call of the client
    sends on the socket. *)
Record Externals : Type := {
  filepath_Join : list string -> string;
  fs_fault : fsop -> string -> option error;
  write_progress : string -> option nat;
  parse_pid : list byte -> result Z;
  ps_fault : psop -> Z -> option error;
  detect_NestedVM : bool;
  GetIPAddressByMACAddress : string -> nat -> string * option error;
  firewall_UnblockBootpd : option error;
  http_RoundTrip : string -> Request -> nat -> nat -> round_trip;
  net_probe : string -> nat -> probe;
  tar_block : tar.Header -> result (list byte);
}.

(** ** The monad of driver code: state, and process exit *)

(** [exit.Error(reason, msg, err)] (pkg/minikube/exit, not part of this
    source file) reports a fatal error and ends the process with the exit
    code of the reason; nothing after the call runs.  [Exit] records that
    together with the world at that point. *)
Inductive reason_Kind : Type := IfBootpdFirewall.

Inductive outcome (A : Type) : Type :=
| Ret (a : A) (w : World)
| Exit (r : reason_Kind) (msg : string) (e : error) (w : World).
Arguments Ret {A} a w.
Arguments Exit {A} r msg e w.

Definition M (A : Type) : Type := World -> outcome A.

Definition ret {A} (a : A) : M A := fun w => Ret a w.

Definition bind {A B} (m : M A) (k : A -> M B) : M B :=
  fun w => match m w with
           | Ret a w' => k a w'
           | Exit r msg e w' => Exit r msg e w'
           end.

Declare Scope go_scope.
Delimit Scope go_scope with go.
Notation "x <- c1 ;; c2" := (bind c1 (fun x => c2))
  (at level 100, c1 at next level, right associativity) : go_scope.
Notation "c1 ;;; c2" := (bind c1 (fun _ => c2))
  (at level 100, right associativity) : go_scope.
Local Open Scope go_scope.

Definition logged (ev : event) (w : World) : World :=
  {| files := files w; procs := procs w; helper := helper w;
     posts := posts w; lookups := lookups w; probes := probes w;
     trace := trace w ++ [ev] |}.

Definition log_event (ev : event) : M unit := fun w => Ret tt (logged ev w).

Definition set_files (f : gmap string (list byte)) : M unit := fun w =>
  Ret tt {| files := f; procs := procs w; helper := helper w;
            posts := posts w; lookups := lookups w; probes := probes w;
            trace := trace w |}.

Definition set_procs (p : gmap Z string) : M unit := fun w =>
  Ret tt {| files := files w; procs := p; helper := helper w;
            posts := posts w; lookups := lookups w; probes := probes w;
            trace := trace w |}.

Definition set_helper (h : HelperProc) : M unit := fun w =>
  Ret tt {| files := files w; procs := procs w; helper := h;
            posts := posts w; lookups := lookups w; probes := probes w;
            trace := trace w |}.

Definition tick_posts : M nat := fun w =>
  Ret (posts w) {| files := files w; procs := procs w; helper := helper w;
                   posts := S (posts w); lookups := lookups w;
                   probes := probes w; trace := trace w |}.

Definition tick_lookups : M nat := fun w =>
  Ret (lookups w) {| files := files w; procs := procs w; helper := helper w;
                     posts := posts w; lookups := S (lookups w);
                     probes := probes w; trace := trace w |}.

Definition probed (w : World) : World :=
  {| files := files w; procs := procs w; helper := helper w;
     posts := posts w; lookups := lookups w;
     probes := S (probes w); trace := trace w |}.

Definition get_world : M World := fun w => Ret w w.

Definition exit_Error {A} (r : reason_Kind) (msg : string) (e : error) : M A :=
  fun w => Exit r msg e w.

(** ** Errors of the HTTP client *)

Definition dquote : string := String (Ascii.ascii_of_nat 34) EmptyString.

Definition lower (a : Ascii.ascii) : Ascii.ascii :=
  let n := Ascii.nat_of_ascii a in
  if ((65 <=? n) && (n <=? 90))%nat then Ascii.ascii_of_nat (n + 32) else a.

Fixpoint strings_ToLower (s : string) : string :=
  match s with
  | EmptyString => EmptyString
  | String a s' => String (lower a) (strings_ToLower s')
  end.

(** [urlErrorOp]: the method with all but its first letter in lower case. *)
Definition urlErrorOp (method : string) : string :=
  match method with
  | EmptyString => "Get"
  | String a rest => String a (strings_ToLower rest)
  end.

(** [*url.Error]: its message is the operation, the quoted URL and the
    message of the cause (the %q of a URL without characters to escape);
    the cause is what it unwraps to. *)
Definition url_Error (op url : string) (cause : error) : error :=
  ErrWrap (op +:+ " " +:+ dquote +:+ url +:+ dquote) cause.

(** ** The driver, over a fixed environment *)

Section Driver.

Variable X : Externals.

(** *** Collaborators: os, process, vmnet, http, net *)

(** [os.ReadFile]: a missing file is reported as such; an existing file may
    be unreadable. *)
Definition os_ReadFile (path : string) : M (result (list byte)) :=
  log_event (EvReadFile path) ;;;
  w <- get_world ;;
  match files w !! path with
  | None => ret (Err (ErrNotExist path))
  | Some data =>
      match fs_fault X OpRead path with
      | Some e => ret (Err e)
      | None => ret (Ok data)
      end
  end.

(** [os.WriteFile]: opens the file with O_WRONLY|O_CREATE|O_TRUNC, writes
    the data and closes the file.  A failure of the open leaves everything
    as it was; a failure after the open leaves the file created or emptied,
    holding the bytes written before the failure. *)
Definition os_WriteFile (path : string) (data : list byte) : M (option error) :=
  log_event (EvWriteFile path) ;;;
  match fs_fault X OpWrite path with
  | Some e =>
      match write_progress X path with
      | None => ret (Some e)
      | Some n =>
          w <- get_world ;;
          set_files (<[path := take n data]> (files w)) ;;;
          ret (Some e)
      end
  | None =>
      w <- get_world ;;
      set_files (<[path := data]> (files w)) ;;;
      ret None
  end.

(** The content of a file after [truncate(2)] to [size] bytes: cut, or
    extended with zero bytes. *)
Definition truncated (size : Z) (data : list byte) : list byte :=
  take (Z.to_nat size) data ++ replicate (Z.to_nat size - length data) x00.

(** [os.Truncate]: a negative size is refused (EINVAL), a missing file is
    reported as such. *)
Definition os_Truncate (path : string) (size : Z) : M (option error) :=
  log_event (EvTruncate path size) ;;;
  match fs_fault X OpTruncate path with
  | Some e => ret (Some e)
  | None =>
      if (size <? 0)%Z then
        ret (Some (ErrNew ("truncate " +:+ path +:+ ": invalid argument")))
      else
        w <- get_world ;;
        match files w !! path with
        | None => ret (Some (ErrNotExist path))
        | Some data =>
            set_files (<[path := truncated size data]> (files w)) ;;;
            ret None
        end
  end.

(** [os.Remove]: may fail and then leaves the file in place. *)
Definition os_Remove (path : string) : M (option error) :=
  log_event (EvRemove path) ;;;
  w <- get_world ;;
  match files w !! path with
  | None => ret (Some (ErrNotExist path))
  | Some _ =>
      match fs_fault X OpRemove path with
      | Some e => ret (Some e)
      | None => set_files (delete path (files w)) ;;; ret None
      end
  end.

(** Modelled from the spec: process.ReadPidfile (pkg/minikube/process) is
    not part of this source file.  Section 4.1: "reads the PID file; absence
    of the file is Stopped (not an error); any other read failure is Error";
    the absence is passed on as an error that is os.ErrNotExist.  How the
    bytes spell a PID is left to [parse_pid]. *)
Definition process_ReadPidfile (path : string) : M (result Z) :=
  log_event (EvReadPidfile path) ;;;
  w <- get_world ;;
  match files w !! path with
  | None => ret (Err (ErrNotExist path))
  | Some data =>
      match fs_fault X OpRead path with
      | Some e => ret (Err e)
      | None => ret (parse_pid X data)
      end
  end.

(** Modelled from the spec: process.Exists (pkg/minikube/process) is not
    part of this source file.  Section 4.1: "checks whether a process with
    that PID and matching role/name is alive"; the query itself may fail. *)
Definition process_Exists (pid : Z) (executable : string) : M (bool * option error) :=
  log_event (EvExists pid executable) ;;;
  match ps_fault X PsQuery pid with
  | Some e => ret (true, Some e)
  | None =>
      w <- get_world ;;
      match procs w !! pid with
      | Some exe => ret (bool_decide (exe = executable), None)
      | None => ret (false, None)
      end
  end.

(** Modelled from the spec: the signal delivery behind process.Terminate and
    process.Kill (pkg/minikube/process), which are not part of this source
    file.  Section 4.1: the signal goes to the recorded PID of the expected
    role; "if the process is already gone" that is reported, as
    os.ErrProcessDone.  A delivered signal ends the process. *)
Definition process_signal (op : psop) (pid : Z) (executable : string) : M (option error) :=
  match ps_fault X op pid with
  | Some e => ret (Some e)
  | None =>
      w <- get_world ;;
      match procs w !! pid with
      | Some exe =>
          if bool_decide (exe = executable) then
            set_procs (delete pid (procs w)) ;;; ret None
          else ret (Some ErrProcessDone)
      | None => ret (Some ErrProcessDone)
      end
  end.

(** Modelled from the spec: process.Terminate (pkg/minikube/process) is not
    part of this source file.  Section 4.1: "sends a graceful termination
    signal to the recorded PID"; a process that is already gone is reported
    as os.ErrProcessDone, which the driver tests for. *)
Definition process_Terminate (pid : Z) (executable : string) : M (option error) :=
  log_event (EvTerminate pid executable) ;;;
  process_signal PsTerminate pid executable.

(** Modelled from the spec: process.Kill (pkg/minikube/process) is not part
    of this source file.  Section 4.1: "same as Terminate but sends a
    forceful termination signal". *)
Definition process_Kill (pid : Z) (executable : string) : M (option error) :=
  log_event (EvKill pid executable) ;;;
  process_signal PsKill pid executable.

(** Modelled from the spec: vmnet.Helper.GetState is not part of this source
    file.  It reports the helper's own state, or Error with an error. *)
Definition vmnet_Helper_GetState (h : vmnet_Helper) : M (state.State * option error) :=
  log_event EvHelperGetState ;;;
  w <- get_world ;;
  match helper_query_err (helper w) with
  | Some e => ret (state.Error, Some e)
  | None => ret (helper_state (helper w), None)
  end.

(** Modelled from the spec: the effect of vmnet.Helper.Stop and
    vmnet.Helper.Kill, which are not part of this source file.  Section 4.1:
    stopping what is already stopped "is a no-op success"; a running helper
    is stopped unless the request fails. *)
Definition vmnet_Helper_signal : M (option error) :=
  w <- get_world ;;
  let hp := helper w in
  if bool_decide (helper_state hp = state.Running) then
    match helper_signal_err hp with
    | Some e => ret (Some e)
    | None =>
        set_helper {| helper_state := state.Stopped;
                      helper_query_err := helper_query_err hp;
                      helper_signal_err := helper_signal_err hp |} ;;;
        ret None
    end
  else ret None.

(** Modelled from the spec: vmnet.Helper.Stop is not part of this source
    file.  Section 4.4: "stop the network helper if present (its own Stop
    contract)", with section 4.1: stopping what is already stopped is a
    no-op success. *)
Definition vmnet_Helper_Stop (h : vmnet_Helper) : M (option error) :=
  log_event EvHelperStop ;;;
  vmnet_Helper_signal.

(** Modelled from the spec: vmnet.Helper.Kill is not part of this source
    file.  Section 4.4: "then kills the network helper", with the contract
    of Stop. *)
Definition vmnet_Helper_Kill (h : vmnet_Helper) : M (option error) :=
  log_event EvHelperKill ;;;
  vmnet_Helper_signal.

(** [json.Marshal(&vmstate)]: a struct with one string field always
    marshals. *)
Definition json_Marshal (v : VMState) : result json :=
  Ok (JObject [("state", State v)]).

(** [redirectBehavior] of net/http's client: for these statuses the client
    follows the redirect, with which method, and whether with the body of
    the initial request.  The body of the driver's requests is a
    [*bytes.Reader], for which [GetBody] is set, so 307 and 308 are
    followed too. *)
Definition redirectBehavior (reqMethod : string) (status : Z) : option (string * bool) :=
  if ((status =? 301) || (status =? 302) || (status =? 303))%Z then
    Some (if String.eqb reqMethod "GET" || String.eqb reqMethod "HEAD"
          then reqMethod else "GET", false)
  else if ((status =? 307) || (status =? 308))%Z then Some (reqMethod, true)
  else None.

(** The loop of [Client.do] with the default redirect policy, for the
    [n]-th call of the client: [req] is the [hop]-th request of the call,
    [ireq] the initial one, and [left] redirects may still be followed.  A
    response that is no redirect to follow is returned, whatever its
    status; a followed redirect sends the next request; the redirect after
    the tenth request is refused with an error. *)
Fixpoint http_Client_do (left : nat) (sock : string) (ireq req : Request) (n hop : nat)
  : post_result :=
  match http_RoundTrip X sock req n hop with
  | RoundTripErr e => PostErr (url_Error (urlErrorOp (Method ireq)) (URL req) e)
  | Response status loc =>
      match redirectBehavior (Method req) status with
      | None => PostResp status
      | Some (redirectMethod, includeBody) =>
          match loc with
          | NoLocation => PostResp status
          | Location header (Err e) =>
              PostErr (url_Error (urlErrorOp (Method ireq)) (URL req)
                         (ErrNew ("failed to parse Location header " +:+ dquote +:+ header
                                  +:+ dquote +:+ ": " +:+ Error e)))
          | Location header (Ok u) =>
              match left with
              | O =>
                  PostErr (url_Error (urlErrorOp (Method ireq)) header
                             (ErrNew "stopped after 10 redirects"))
              | S left' =>
                  http_Client_do left' sock ireq
                    {| Method := redirectMethod; URL := u;
                       Body := if includeBody then Body ireq else None |}
                    n (S hop)
              end
          end
      end
  end.

(** [Client.Do]: the initial request and up to nine redirects. *)
Definition http_Client_Do (sock : string) (req : Request) (n : nat) : post_result :=
  http_Client_do 9 sock req req n 0.

(** What the [n]-th call of the client returns when it posts [body] to the
    state URL of the control channel. *)
Definition http_Post (sock : string) (body : json) (n : nat) : post_result :=
  http_Client_Do sock {| Method := "POST"; URL := "http://_/vm/state"; Body := Some body |} n.

(** [httpc.Post(url, contentType, body)] on the client that dials the unix
    socket at [sock].  The client has no CheckRedirect of its own, so it
    follows redirects as [http_Client_do] does. *)
Definition http_Client_Post (sock url contentType : string) (body : json) : M post_result :=
  log_event (EvPost sock url body) ;;;
  n <- tick_posts ;;
  ret (http_Client_Do sock {| Method := "POST"; URL := url; Body := Some body |} n).

Definition time_Sleep (d : Z) : M unit := log_event (EvSleep d).

(** *** Paths *)

Definition ResolveStorePath (d : Driver) (file : string) : string :=
  filepath_Join X [StorePath d; "machines"; MachineName d; file].

Definition GetMachineName (d : Driver) : string := MachineName d.

Definition sshKeyPath (d : Driver) : string :=
  let machineDir := filepath_Join X [StorePath d; "machines"; GetMachineName d] in
  filepath_Join X [machineDir; "id_rsa"].

Definition publicSSHKeyPath (d : Driver) : string := sshKeyPath d +:+ ".pub".

Definition diskPath (d : Driver) : string :=
  let machineDir := filepath_Join X [StorePath d; "machines"; GetMachineName d] in
  filepath_Join X [machineDir; "disk.img"].

Definition sockfilePath (d : Driver) : string :=
  let machineDir := filepath_Join X [StorePath d; "machines"; GetMachineName d] in
  filepath_Join X [machineDir; sockFilename].

Definition pidfilePath (d : Driver) : string :=
  let machineDir := filepath_Join X [StorePath d; "machines"; GetMachineName d] in
  filepath_Join X [machineDir; pidFileName].

(** *** State queries *)

Definition getVfkitState (d : Driver) : M (state.State * option error) :=
  let pidfile := pidfilePath d in
  r <- process_ReadPidfile pidfile ;;
  match r with
  | Err err =>
      if negb (errors_Is_ErrNotExist err) then ret (state.Error, Some err)
      else ret (state.Stopped, None)
  | Ok pid =>
      ee <- process_Exists pid "vfkit" ;;
      match ee with
      | (_, Some err) => ret (state.Error, Some err)
      | (exists_, None) =>
          if negb exists_ then
            (* No process, stale pidfile. *)
            os_Remove pidfile ;;;   (* a failure is only logged *)
            ret (state.Stopped, None)
          else ret (state.Running, None)
      end
  end.

Definition getVmnetHelperState (d : Driver) : M (state.State * option error) :=
  match VmnetHelper d with
  | None => ret (state.Stopped, None)
  | Some h => vmnet_Helper_GetState h
  end.

Definition GetState (d : Driver) : M (state.State * option error) :=
  r <- getVfkitState d ;;
  match r with
  | (_, Some err) => ret (state.Error, Some err)
  | (vfkitState, None) =>
      if bool_decide (vfkitState = state.Running) then ret (state.Running, None)
      else getVmnetHelperState d
  end.

(** *** The control channel *)

Definition SetVFKitState (d : Driver) (s : string) : M (option error) :=
  let httpc := sockfilePath d in
  let vmstate := {| State := s |} in
  match json_Marshal vmstate with
  | Err err => ret (Some err)
  | Ok data =>
      r <- http_Client_Post httpc "http://_/vm/state" "application/json" data ;;
      match r with
      | PostErr err => ret (Some err)
      | PostResp _ => ret None
      end
  end.

(** *** IP resolution *)

Definition isBootpdError (err : error) : bool :=
  strings_Contains (Error err) "could not find an IP address".

(** The closure [getIP] of setupIP: one lookup, whose string is stored in
    [d.IPAddress] whether or not the lookup failed. *)
Definition getIP (mac : string) (d : Driver) : M (Driver * option error) :=
  log_event (EvLookup mac) ;;;
  n <- tick_lookups ;;
  let r := GetIPAddressByMACAddress X mac n in
  let d := set_IPAddress d (fst r) in
  match snd r with
  | Some err => ret (d, Some (errors_Wrap err "failed to get IP address"))
  | None => ret (d, None)
  end.

(** The retry loop [for i := 0; i < 60*multiplier; i++], by the number
    [n = 60*multiplier - i] of iterations left; [err] is the variable of the
    enclosing function. *)
Fixpoint setupIP_loop (n : nat) (mac : string) (d : Driver) (err : option error)
  : M (Driver * option error) :=
  match n with
  | O => ret (d, err)
  | S n' =>
      r <- getIP mac d ;;
      match snd r with
      | None => ret (fst r, None)                     (* break *)
      | Some e =>
          time_Sleep (2 * time_Second) ;;;
          setupIP_loop n' mac (fst r) (Some e)
      end
  end.

Definition setupIP (d : Driver) (mac : string) : M (Driver * option error) :=
  let multiplier := if detect_NestedVM X then 3 else 1 in
  r <- setupIP_loop (Z.to_nat (60 * multiplier)) mac d None ;;
  match snd r with
  | None => ret (fst r, None)
  | Some err =>
      if negb (isBootpdError err) then
        ret (fst r, Some (errors_Wrap err "IP address never found in dhcp leases file"))
      else
        log_event EvUnblockBootpd ;;;
        match firewall_UnblockBootpd X with
        | Some unblockErr => exit_Error IfBootpdFirewall "ip not found" err
        | None => ret (fst r, Some (ErrNew ("ip not found: " +:+ Error err)))
        end
  end.

(** *** Stop and Kill *)

Definition stopVfkit (d : Driver) : M (option error) :=
  r <- SetVFKitState d "Stop" ;;
  match r with
  | Some _ =>
      (* vfkit may be already stopped, shutting down, or not listening. *)
      let pidfile := pidfilePath d in
      rp <- process_ReadPidfile pidfile ;;
      match rp with
      | Err err =>
          if negb (errors_Is_ErrNotExist err) then ret (Some err)
          else ret None                               (* No pidfile. *)
      | Ok pid =>
          rt <- process_Terminate pid "vfkit" ;;
          match rt with
          | Some err =>
              if negb (is_ErrProcessDone err) then ret (Some err)
              else
                (* No process, stale pidfile. *)
                os_Remove pidfile ;;;
                ret None
          | None => ret None
          end
      end
  | None => ret None
  end.

Definition stopVmnetHelper (d : Driver) : M (option error) :=
  match VmnetHelper d with
  | None => ret None
  | Some h => vmnet_Helper_Stop h
  end.

Definition Stop (d : Driver) : M (option error) :=
  r <- stopVfkit d ;;
  match r with
  | Some err => ret (Some err)
  | None => stopVmnetHelper d
  end.

Definition killVfkit (d : Driver) : M (option error) :=
  r <- SetVFKitState d "HardStop" ;;
  match r with
  | Some _ =>
      let pidfile := pidfilePath d in
      rp <- process_ReadPidfile pidfile ;;
      match rp with
      | Err err =>
          if negb (errors_Is_ErrNotExist err) then ret (Some err)
          else ret None                               (* No pidfile. *)
      | Ok pid =>
          rt <- process_Kill pid "vfkit" ;;
          match rt with
          | Some err =>
              if negb (is_ErrProcessDone err) then ret (Some err)
              else
                (* No process, stale pidfile. *)
                os_Remove pidfile ;;;
                ret None
          | None => ret None
          end
      end
  | None => ret None
  end.

Definition killVmnetHelper (d : Driver) : M (option error) :=
  match VmnetHelper d with
  | None => ret None
  | Some h => vmnet_Helper_Kill h
  end.

Definition Kill (d : Driver) : M (option error) :=
  r <- killVfkit d ;;
  match r with
  | Some err => ret (Some err)
  | None => killVmnetHelper d
  end.

(** *** The disk image *)

(** Go's archive/tar Writer over a bytes.Buffer, which never fails to take
    bytes.  [tw_nb] is what is left to write of the current entry, [tw_pad]
    the zero bytes owed after it to fill its last 512-byte block.  How a
    header is laid out in bytes (USTAR, PAX or GNU) is [tar_block]. *)
Record tar_Writer : Type := {
  tw_buf : list byte;
  tw_nb : Z;
  tw_pad : Z;
  tw_err : option error;
}.

Definition tar_ErrWriteTooLong : error := ErrNew "archive/tar: write too long".
Definition tar_ErrWriteAfterClose : error := ErrNew "archive/tar: write after close".

Definition tar_NewWriter : tar_Writer :=
  {| tw_buf := []; tw_nb := 0; tw_pad := 0; tw_err := None |}.

(** [blockPadding]: the distance to the next multiple of 512. *)
Definition tar_blockPadding (offset : Z) : Z := (- offset) mod 512.

Definition tar_isHeaderOnlyType (flag : byte) : bool :=
  match flag with
  | x31 | x32 | x33 | x34 | x35 | x36 => true   (* link, symlink, char, block, dir, fifo *)
  | _ => false
  end.

Fixpoint strings_HasSuffix (s suffix : string) : bool :=
  if String.eqb s suffix then true
  else match s with
       | EmptyString => false
       | String _ s' => strings_HasSuffix s' suffix
       end.

(** The legacy flag TypeRegA is promoted to TypeReg or TypeDir. *)
Definition tar_promote (hdr : tar.Header) : tar.Header :=
  if Byte.eqb (tar.Typeflag hdr) tar.TypeRegA then
    {| tar.Typeflag := if strings_HasSuffix (tar.Name hdr) "/" then tar.TypeDir else tar.TypeReg;
       tar.Name := tar.Name hdr; tar.Size := tar.Size hdr; tar.Mode := tar.Mode hdr |}
  else hdr.

Definition tar_Flush (tw : tar_Writer) : tar_Writer * option error :=
  match tw_err tw with
  | Some e => (tw, Some e)
  | None =>
      if (0 <? tw_nb tw)%Z then (tw, Some (ErrNew "archive/tar: missed writing bytes"))
      else ({| tw_buf := tw_buf tw ++ replicate (Z.to_nat (tw_pad tw)) x00;
               tw_nb := tw_nb tw; tw_pad := 0; tw_err := None |}, None)
  end.

Definition tar_WriteHeader (tw : tar_Writer) (hdr : tar.Header) : tar_Writer * option error :=
  match tar_Flush tw with
  | (tw, Some e) => (tw, Some e)
  | (tw, None) =>
      let hdr := tar_promote hdr in
      match tar_block X hdr with
      | Err e => (tw, Some e)
      | Ok blk =>
          let size := if tar_isHeaderOnlyType (tar.Typeflag hdr) then 0 else tar.Size hdr in
          ({| tw_buf := tw_buf tw ++ blk; tw_nb := size;
              tw_pad := tar_blockPadding size; tw_err := None |}, None)
      end
  end.

Definition tar_Write (tw : tar_Writer) (b : list byte) : tar_Writer * option error :=
  match tw_err tw with
  | Some e => (tw, Some e)
  | None =>
      let overwrite := (tw_nb tw <? Z.of_nat (length b))%Z in
      let b := if overwrite then take (Z.to_nat (tw_nb tw)) b else b in
      ({| tw_buf := tw_buf tw ++ b; tw_nb := tw_nb tw - Z.of_nat (length b);
          tw_pad := tw_pad tw; tw_err := None |},
       if overwrite then Some tar_ErrWriteTooLong else None)
  end.

(** [Close] flushes and writes the trailer of two zero blocks. *)
Definition tar_Close (tw : tar_Writer) : tar_Writer * option error :=
  match tw_err tw with
  | Some e => (tw, Some e)
  | None =>
      match tar_Flush tw with
      | (tw, Some e) => (tw, Some e)
      | (tw, None) =>
          ({| tw_buf := tw_buf tw ++ replicate 1024 x00; tw_nb := tw_nb tw;
              tw_pad := tw_pad tw; tw_err := Some tar_ErrWriteAfterClose |}, None)
      end
  end.

(** [if err := step; err != nil { return err }], then the rest. *)
Definition or_return {S : Type} (step : S * option error)
    (rest : S -> M (option error)) : M (option error) :=
  match step with
  | (_, Some err) => ret (Some err)
  | (s, None) => rest s
  end.

(** Go's int64 arithmetic wraps around. *)
Definition int64 (z : Z) : Z := (z + 2 ^ 63) mod 2 ^ 64 - 2 ^ 63.

Definition magicString : string := "boot2docker, please format-me".

(** Make a boot2docker VM disk image. *)
Definition generateDiskImage (d : Driver) (size : Z) : M (option error) :=
  let tw := tar_NewWriter in
  (* magicString first so the automount script knows to format the disk *)
  let file := {| tar.Typeflag := tar.TypeRegA; tar.Name := magicString;
                 tar.Size := Z.of_nat (String.length magicString); tar.Mode := 0 |} in
  or_return (tar_WriteHeader tw file) (fun tw =>
  or_return (tar_Write tw (String.list_byte_of_string magicString)) (fun tw =>
  (* .ssh/key.pub => authorized_keys *)
  let file := {| tar.Typeflag := tar.TypeDir; tar.Name := ".ssh";
                 tar.Size := 0; tar.Mode := 448 (* 0700 *) |} in
  or_return (tar_WriteHeader tw file) (fun tw =>
  r <- os_ReadFile (publicSSHKeyPath d) ;;
  match r with
  | Err err => ret (Some err)
  | Ok pubKey =>
      let file := {| tar.Typeflag := tar.TypeRegA; tar.Name := ".ssh/authorized_keys";
                     tar.Size := Z.of_nat (length pubKey); tar.Mode := 420 (* 0644 *) |} in
      or_return (tar_WriteHeader tw file) (fun tw =>
      or_return (tar_Write tw pubKey) (fun tw =>
      let file := {| tar.Typeflag := tar.TypeRegA; tar.Name := ".ssh/authorized_keys2";
                     tar.Size := Z.of_nat (length pubKey); tar.Mode := 420 (* 0644 *) |} in
      or_return (tar_WriteHeader tw file) (fun tw =>
      or_return (tar_Write tw pubKey) (fun tw =>
      or_return (tar_Close tw) (fun tw =>
      let rawFile := diskPath d in
      e <- os_WriteFile rawFile (tw_buf tw) ;;
      match e with
      | Some _ => ret None
      | None =>
          e <- os_Truncate rawFile (int64 (int64 size * int64 (1024 * 1024))) ;;
          match e with
          | Some _ => ret None
          | None => ret None
          end
      end)))))
  end))).

(** *** Waiting for the SSH endpoint *)

Fixpoint run_deferred (n : nat) (addr : string) (w : World) : World :=
  match n with
  | O => w
  | S n' => run_deferred n' addr (logged (EvConnClose addr) w)
  end.

(** The loop [for { ... }] of WaitForTCPWithDelay.  It has no exit but
    [break], so the model runs it for at most [fuel] iterations and answers
    [None] when it is still looping then.  [deferred] counts the
    [defer conn.Close()] calls pending, run when the function returns. *)
Fixpoint WaitForTCPWithDelay_loop (fuel : nat) (addr : string) (duration : Z)
    (deferred : nat) (w : World) : option (option error * World) :=
  match fuel with
  | O => None
  | S fuel' =>
      let w1 := probed (logged (EvDial addr) w) in
      match net_probe X addr (probes w) with
      | DialFails _ =>
          WaitForTCPWithDelay_loop fuel' addr duration deferred w1      (* continue *)
      | ReadFails _ =>
          let w2 := logged (EvSleep duration) (logged (EvConnRead addr) w1) in
          WaitForTCPWithDelay_loop fuel' addr duration (S deferred) w2  (* continue *)
      | ReadEOF | ReadOK =>
          let w2 := logged (EvConnRead addr) w1 in
          Some (None, run_deferred (S deferred) addr w2)                (* break *)
      end
  end.

Definition WaitForTCPWithDelay (fuel : nat) (addr : string) (duration : Z) (w : World)
  : option (option error * World) :=
  WaitForTCPWithDelay_loop fuel addr duration 0 w.

End Driver.

(** ** Observations on a run *)

(** The world a computation ends in, whether it returned or exited. *)
Definition final_world {A} (o : outcome A) : World :=
  match o with
  | Ret _ w => w
  | Exit _ _ _ w => w
  end.

(** The external calls made between two worlds of one run. *)
Definition new_events (w w' : World) : list event :=
  drop (length (trace w)) (trace w').

(** What the driver can see of the machine: files, processes, helper. *)
Definition same_state (w w' : World) : Prop :=
  files w = files w' /\ procs w = procs w' /\ helper w = helper w'.

(** The hypervisor PID file holds a PID, and the process query answers that
    no live process with that PID is a vfkit. *)
Definition stale_pidfile (X : Externals) (d : Driver) (w : World) : Prop :=
  exists data pid,
    files w !! pidfilePath X d = Some data /\
    fs_fault X OpRead (pidfilePath X d) = None /\
    parse_pid X data = Ok pid /\
    ps_fault X PsQuery pid = None /\
    procs w !! pid <> Some "vfkit".

(** ** A concrete environment *)

Module Sample.

(** Decimal digits, as a PID file spells a PID. *)
Fixpoint decimal (acc : Z) (l : list byte) : result Z :=
  match l with
  | [] => Ok acc
  | b :: l' =>
      let n := Z.of_N (Byte.to_N b) in
      if ((48 <=? n) && (n <=? 57))%Z then decimal (10 * acc + (n - 48)) l'
      else Err (ErrNew "invalid pid")
  end.

(** A host where nothing fails, the control channel is not listening,
    the first lease lookup already succeeds and SSH answers at once. *)
Definition calm : Externals :=
  {| filepath_Join := String.concat "/";
     fs_fault := fun _ _ => None;
     write_progress := fun _ => None;
     parse_pid := decimal 0;
     ps_fault := fun _ _ => None;
     detect_NestedVM := false;
     GetIPAddressByMACAddress := fun _ _ => ("192.168.64.2", None);
     firewall_UnblockBootpd := None;
     http_RoundTrip := fun _ _ _ _ => RoundTripErr (ErrNew "connection refused");
     net_probe := fun _ _ => ReadEOF;
     tar_block := fun hdr =>
       Ok (take 512 (String.list_byte_of_string (tar.Name hdr) ++ replicate 512 x00)) |}.

Definition with_fs_fault (f : fsop -> string -> option error) (X : Externals) : Externals :=
  {| filepath_Join := filepath_Join X; fs_fault := f;
     write_progress := write_progress X; parse_pid := parse_pid X;
     ps_fault := ps_fault X; detect_NestedVM := detect_NestedVM X;
     GetIPAddressByMACAddress := GetIPAddressByMACAddress X;
     firewall_UnblockBootpd := firewall_UnblockBootpd X;
     http_RoundTrip := http_RoundTrip X; net_probe := net_probe X;
     tar_block := tar_block X |}.

Definition with_write_progress (f : string -> option nat) (X : Externals) : Externals :=
  {| filepath_Join := filepath_Join X; fs_fault := fs_fault X;
     write_progress := f; parse_pid := parse_pid X;
     ps_fault := ps_fault X; detect_NestedVM := detect_NestedVM X;
     GetIPAddressByMACAddress := GetIPAddressByMACAddress X;
     firewall_UnblockBootpd := firewall_UnblockBootpd X;
     http_RoundTrip := http_RoundTrip X; net_probe := net_probe X;
     tar_block := tar_block X |}.

Definition with_lookup (f : string -> nat -> string * option error)
    (unblock : option error) (X : Externals) : Externals :=
  {| filepath_Join := filepath_Join X; fs_fault := fs_fault X;
     write_progress := write_progress X; parse_pid := parse_pid X;
     ps_fault := ps_fault X; detect_NestedVM := detect_NestedVM X;
     GetIPAddressByMACAddress := f;
     firewall_UnblockBootpd := unblock;
     http_RoundTrip := http_RoundTrip X; net_probe := net_probe X;
     tar_block := tar_block X |}.


Definition with_probe (f : string -> nat -> probe) (X : Externals) : Externals :=
  {| filepath_Join := filepath_Join X; fs_fault := fs_fault X;
     write_progress := write_progress X; parse_pid := parse_pid X;
     ps_fault := ps_fault X; detect_NestedVM := detect_NestedVM X;
     GetIPAddressByMACAddress := GetIPAddressByMACAddress X;
     firewall_UnblockBootpd := firewall_UnblockBootpd X;
     http_RoundTrip := http_RoundTrip X; net_probe := f; tar_block := tar_block X |}.

(** A driver for machine "minikube", without and with a network helper. *)
Definition d_nat : Driver :=
  {| IPAddress := ""; MachineName := "minikube"; SSHUser := defaultSSHUser;
     SSHPort := 22; StorePath := "/home/u/.minikube";
     Boot2DockerURL := ""; DiskSize := 20000; CPU := 2; Memory := 2048;
     ExtraDisks := 0; Network := "nat"; MACAddress := "5a:94:ef:e4:0c:ee";
     VmnetHelper := None |}.

Definition d_shared : Driver :=
  {| IPAddress := ""; MachineName := "minikube"; SSHUser := defaultSSHUser;
     SSHPort := 22; StorePath := "/home/u/.minikube";
     Boot2DockerURL := ""; DiskSize := 20000; CPU := 2; Memory := 2048;
     ExtraDisks := 0; Network := "vmnet-shared"; MACAddress := "";
     VmnetHelper := Some {| MachineDir := "/home/u/.minikube/machines/minikube";
                            InterfaceID := "" |} |}.

Definition helper_in (st : state.State) : HelperProc :=
  {| helper_state := st; helper_query_err := None; helper_signal_err := None |}.

Definition world (fs : gmap string (list byte)) (ps : gmap Z string) (h : HelperProc) : World :=
  {| files := fs; procs := ps; helper := h; posts := 0; lookups := 0; probes := 0;
     trace := [] |}.

Definition pidfile : string := "/home/u/.minikube/machines/minikube/vfkit.pid".
Definition pubkey : string := "/home/u/.minikube/machines/minikube/id_rsa.pub".
Definition disk : string := "/home/u/.minikube/machines/minikube/disk.img".

(** The PID file names PID 4242, and no such process is alive. *)
Definition stale_fs : gmap string (list byte) :=
  {[ pidfile := String.list_byte_of_string "4242" ]}.

(** The machine directory holds the public SSH key and nothing else. *)
Definition key_fs : gmap string (list byte) :=
  {[ pubkey := String.list_byte_of_string "ssh-rsa AAAAB3NzaC1yc2E docker@minikube" ]}.

End Sample.

(** ** Vocabulary of the statements *)

(** What a computation returned, if it returned. *)
Definition returned {A} (o : outcome A) : option A :=
  match o with
  | Ret a _ => Some a
  | Exit _ _ _ _ => None
  end.

(** The budget of lookups: [60*multiplier]. *)
Definition retry_budget (X : Externals) : nat :=
  Z.to_nat (60 * (if detect_NestedVM X then 3 else 1)).

(** What one failed attempt does: a lookup, then a sleep of two seconds. *)
Definition failed_attempt (mac : string) : list event :=
  [EvLookup mac; EvSleep (2 * time_Second)].

Definition failed_attempts (mac : string) (n : nat) : list event :=
  concat (replicate n (failed_attempt mac)).

(** The [j]-th lookup from world [w] on (counting from 0) fails. *)
Definition lookup_fails (X : Externals) (mac : string) (w : World) (j : nat) : Prop :=
  snd (GetIPAddressByMACAddress X mac (lookups w + j)) <> None.

Fixpoint count_event (ev : event) (evs : list event) : nat :=
  match evs with
  | [] => O
  | e :: evs' => (if bool_decide (e = ev) then 1 else 0) + count_event ev evs'
  end.

(** What reading the hypervisor PID file yields in a world. *)
Definition pidfile_read (X : Externals) (d : Driver) (w : World) : result Z :=
  match files w !! pidfilePath X d with
  | None => Err (ErrNotExist (pidfilePath X d))
  | Some data =>
      match fs_fault X OpRead (pidfilePath X d) with
      | Some e => Err e
      | None => parse_pid X data
      end
  end.

(** The request that SetVFKitState posts for a target state. *)
Definition state_request (X : Externals) (d : Driver) (s : string) : event :=
  EvPost (sockfilePath X d) "http://_/vm/state" (JObject [("state", s)]).



(** Whether the control channel answers the next request for [s]: the
    client's call ends in a response, not in an error. *)
Definition channel_answers (X : Externals) (d : Driver) (s : string) (w : World) : bool :=
  match http_Post X (sockfilePath X d) (JObject [("state", s)]) (posts w) with
  | PostResp _ => true
  | PostErr _ => false
  end.

(** The calls by which the hypervisor is shut down after the request: none
    when the channel answered; otherwise the PID file is read and, when it
    holds a PID, the signal is sent, followed at most by the removal of the
    stale PID file. *)
Definition fallback_shape (X : Externals) (d : Driver) (s : string) (w : World)
    (signal : Z -> string -> event) (fallback : list event) : Prop :=
  if channel_answers X d s w then fallback = []
  else exists rest,
      fallback = EvReadPidfile (pidfilePath X d) :: rest /\
      match pidfile_read X d w with
      | Err _ => rest = []
      | Ok pid => rest = [signal pid "vfkit"] \/
                  rest = [signal pid "vfkit"; EvRemove (pidfilePath X d)]
      end.

Inductive shutdown : Type := CallStop | CallKill.

Definition shutdown_call (X : Externals) (d : Driver) (c : shutdown) : M (option error) :=
  match c with
  | CallStop => Stop X d
  | CallKill => Kill X d
  end.

(** The world after a sequence of Stop and Kill calls that all returned
    nil; [None] when one of them returned an error. *)
Fixpoint shutdown_calls (X : Externals) (d : Driver) (cs : list shutdown) (w : World)
  : option World :=
  match cs with
  | [] => Some w
  | c :: cs' =>
      match shutdown_call X d c w with
      | Ret None w' => shutdown_calls X d cs' w'
      | _ => None
      end
  end.

(** A probe lets the loop break: the dial succeeded and the read reported
    no error, or io.EOF. *)
Definition probe_succeeds (p : probe) : bool :=
  match p with
  | ReadEOF | ReadOK => true
  | DialFails _ | ReadFails _ => false
  end.

(** The [j]-th probe from world [w] on (counting from 0) does not let the
    loop break. *)
Definition probe_fails (X : Externals) (addr : string) (w : World) (j : nat) : Prop :=
  probe_succeeds (net_probe X addr (probes w + j)) = false.

(** The four entries of the image, as the writer sees their headers. *)
Definition sentinel_header : tar.Header :=
  {| tar.Typeflag := tar.TypeReg; tar.Name := magicString;
     tar.Size := Z.of_nat (String.length magicString); tar.Mode := 0 |}.

Definition ssh_dir_header : tar.Header :=
  {| tar.Typeflag := tar.TypeDir; tar.Name := ".ssh"; tar.Size := 0;
     tar.Mode := 448 (* 0700 *) |}.

Definition authorized_keys_header (name : string) (pubKey : list byte) : tar.Header :=
  {| tar.Typeflag := tar.TypeReg; tar.Name := name;
     tar.Size := Z.of_nat (length pubKey); tar.Mode := 420 (* 0644 *) |}.

(** The tar layout of one entry: its header, its content, and zero bytes up
    to the next multiple of 512. *)
Definition tar_entry (blk data : list byte) : list byte :=
  blk ++ data ++ replicate (Z.to_nat (tar_blockPadding (Z.of_nat (length data)))) x00.

(** The tar layout of an archive: its entries in order, then the trailer of
    two zero blocks. *)
Definition tar_archive (entries : list (list byte * list byte)) : list byte :=
  concat (map (fun e => tar_entry (fst e) (snd e)) entries) ++ replicate 1024 x00.

(** ** The rest of the driver *)

Definition set_SSHPort (d : Driver) (port : Z) : Driver :=
  {| IPAddress := IPAddress d; MachineName := MachineName d; SSHUser := SSHUser d;
     SSHPort := port; StorePath := StorePath d;
     Boot2DockerURL := Boot2DockerURL d; DiskSize := DiskSize d; CPU := CPU d;
     Memory := Memory d; ExtraDisks := ExtraDisks d; Network := Network d;
     MACAddress := MACAddress d; VmnetHelper := VmnetHelper d |}.

Definition set_SSHUser (d : Driver) (user : string) : Driver :=
  {| IPAddress := IPAddress d; MachineName := MachineName d; SSHUser := user;
     SSHPort := SSHPort d; StorePath := StorePath d;
     Boot2DockerURL := Boot2DockerURL d; DiskSize := DiskSize d; CPU := CPU d;
     Memory := Memory d; ExtraDisks := ExtraDisks d; Network := Network d;
     MACAddress := MACAddress d; VmnetHelper := VmnetHelper d |}.

(** [NewDriver]: every field not named is Go's zero value. *)
Definition NewDriver (hostName storePath : string) : Driver :=
  {| IPAddress := ""; MachineName := hostName; SSHUser := defaultSSHUser;
     SSHPort := 0; StorePath := storePath;
     Boot2DockerURL := ""; DiskSize := 0; CPU := 0; Memory := 0; ExtraDisks := 0;
     Network := ""; MACAddress := ""; VmnetHelper := None |}.

Definition PreCreateCheck (d : Driver) : option error := None.

Definition DriverName (d : Driver) : string := "vfkit".

Definition GetSSHHostname (d : Driver) : string * option error := (IPAddress d, None).

(** [GetSSHPort] stores the default port in the driver when none is set;
    the driver after the call comes first. *)
Definition GetSSHPort (d : Driver) : Driver * (Z * option error) :=
  let d := if (SSHPort d =? 0)%Z then set_SSHPort d 22 else d in
  (d, (SSHPort d, None)).

Definition GetSSHUsername (d : Driver) : Driver * string :=
  let d := if String.eqb (SSHUser d) "" then set_SSHUser d defaultSSHUser else d in
  (d, SSHUser d).

Definition GetIP (d : Driver) : string * option error := (IPAddress d, None).

Definition StartDocker (d : Driver) : option error :=
  Some (ErrNew "hosts without a driver cannot start docker").

Definition StopDocker (d : Driver) : option error :=
  Some (ErrNew "hosts without a driver cannot stop docker").

Definition GetDockerConfigDir (d : Driver) : string := "".

Definition Upgrade (d : Driver) : option error :=
  Some (ErrNew "hosts without a driver cannot be upgraded").

(** [fmt.Sprintf] with the verb %d on an int. *)
Definition fmt_d (n : Z) : string := pretty n.

Section Lifecycle.

Variable X : Externals.

(** [os.Stat] may fail on a file that exists; [stat_fault] says when. *)
Variable stat_fault : string -> option error.

(** [runtime.GOARCH]. *)
Variable GOARCH : string.

(** [pkgdrivers.ExtraDiskPath(d.BaseDriver, i)], not part of this source
    file. *)
Variable ExtraDiskPath : Driver -> Z -> string.

Definition os_Stat (path : string) : M (option error) :=
  w <- get_world ;;
  match files w !! path with
  | None => ret (Some (ErrNotExist path))
  | Some _ => ret (stat_fault path)
  end.

Definition GetSSHKeyPath (d : Driver) : string := ResolveStorePath X d "id_rsa".

Definition kernelPath (d : Driver) : string := ResolveStorePath X d "bzimage".

Definition initrdPath (d : Driver) : string := ResolveStorePath X d "initrd".

Definition GetURL (d : Driver) : M (string * option error) :=
  st <- os_Stat (pidfilePath X d) ;;
  match st with
  | Some _ => ret ("", None)
  | None =>
      match GetIP d with
      | (_, Some err) => ret ("", Some err)
      | (ip, None) =>
          if String.eqb ip "" then ret ("", None)
          else ret ("tcp://" +:+ ip +:+ ":2376", None)
      end
  end.

Definition Remove (d : Driver) : M (option error) :=
  r <- GetState X d ;;
  match r with
  | (_, Some err) => ret (Some (errors_Wrap err "get state"))
  | (s, None) =>
      if bool_decide (s = state.Running) then
        e <- Kill X d ;;
        match e with
        | Some err => ret (Some (errors_Wrap err "kill"))
        | None => ret None
        end
      else ret None
  end.

(** The loop [for i := 0; i < d.ExtraDisks; i++] of startVfkit, by the
    number [n] of iterations left. *)
Fixpoint extra_disk_args (d : Driver) (n : nat) (i : Z) : list string :=
  match n with
  | O => []
  | S n' =>
      ["--device"; "virtio-blk,path=" +:+ ExtraDiskPath d i]
        ++ extra_disk_args d n' (i + 1)
  end.

(** The arguments that startVfkit builds in [startCmd] for the vfkit
    command. *)
Definition startCmd (d : Driver) (socketPath : string) : list string :=
  let machineDir := filepath_Join X [StorePath d; "machines"; GetMachineName d] in
  let startCmd :=
    ["--memory"; fmt_d (Memory d);
     "--cpus"; fmt_d (CPU d);
     "--restful-uri"; "unix://" +:+ sockfilePath X d;
     "--log-level"; "debug"] in
  let cmdline :=
    if String.eqb GOARCH "arm64" then "console=hvc0"
    else if String.eqb GOARCH "amd64" then "console=ttyS0"
    else "" in
  let startCmd := startCmd ++
    ["--bootloader";
     "linux,kernel=" +:+ kernelPath d +:+ ",initrd=" +:+ initrdPath d
       +:+ ",cmdline=" +:+ dquote +:+ cmdline +:+ dquote] in
  let startCmd :=
    if negb (String.eqb socketPath "") then
      startCmd ++ ["--device";
                   "virtio-net,unixSocketPath=" +:+ socketPath +:+ ",mac=" +:+ MACAddress d]
    else
      startCmd ++ ["--device"; "virtio-net,nat,mac=" +:+ MACAddress d] in
  let startCmd := startCmd ++ ["--device"; "virtio-rng"] in
  let isoPath := filepath_Join X [machineDir; isoFilename] in
  let startCmd := startCmd ++ ["--device"; "virtio-blk,path=" +:+ isoPath] in
  let startCmd := startCmd ++ ["--device"; "virtio-blk,path=" +:+ diskPath X d] in
  let startCmd := startCmd ++ extra_disk_args d (Z.to_nat (ExtraDisks d)) 0 in
  let serialPath := ResolveStorePath X d serialFileName in
  startCmd ++ ["--device"; "virtio-serial,logFilePath=" +:+ serialPath].

End Lifecycle.

(** The state that a shutdown call requests on the control channel, and the
    signal it falls back to. *)
Definition shutdown_target (c : shutdown) : string :=
  match c with
  | CallStop => "Stop"
  | CallKill => "HardStop"
  end.

Definition shutdown_signal (c : shutdown) : psop :=
  match c with
  | CallStop => PsTerminate
  | CallKill => PsKill
  end.

(** An event that belongs to a graceful shutdown only, or to a forced one
    only. *)
Definition graceful_only (ev : event) : bool :=
  match ev with
  | EvTerminate _ _ | EvHelperStop => true
  | EvPost _ _ body => bool_decide (body = JObject [("state", "Stop")])
  | _ => false
  end.

Definition forced_only (ev : event) : bool :=
  match ev with
  | EvKill _ _ | EvHelperKill => true
  | EvPost _ _ body => bool_decide (body = JObject [("state", "HardStop")])
  | _ => false
  end.

(** The hypervisor half of a shutdown call. *)
Definition shutdown_vfkit (X : Externals) (d : Driver) (c : shutdown) : M (option error) :=
  match c with
  | CallStop => stopVfkit X d
  | CallKill => killVfkit X d
  end.

(** The elements of a list at the even positions (first, third, ...) and at
    the odd positions. *)
Fixpoint evens {A : Type} (l : list A) : list A :=
  match l with
  | a :: _ :: l' => a :: evens l'
  | [a] => [a]
  | [] => []
  end.

Fixpoint odds {A : Type} (l : list A) : list A :=
  match l with
  | _ :: b :: l' => b :: odds l'
  | _ => []
  end.

(** The paths of the extra disks 0 .. n-1, counting from [i]. *)
Fixpoint extra_disk_paths (ExtraDiskPath : Driver -> Z -> string) (d : Driver)
    (n : nat) (i : Z) : list string :=
  match n with
  | O => []
  | S n' => ExtraDiskPath d i :: extra_disk_paths ExtraDiskPath d n' (i + 1)
  end.

(** ** Launching the machine *)

Definition set_MACAddress (d : Driver) (mac : string) : Driver :=
  {| IPAddress := IPAddress d; MachineName := MachineName d; SSHUser := SSHUser d;
     SSHPort := SSHPort d; StorePath := StorePath d;
     Boot2DockerURL := Boot2DockerURL d; DiskSize := DiskSize d; CPU := CPU d;
     Memory := Memory d; ExtraDisks := ExtraDisks d; Network := Network d;
     MACAddress := mac; VmnetHelper := VmnetHelper d |}.

Section Launch.

Variable X : Externals.
Variable GOARCH : string.
Variable ExtraDiskPath : Driver -> Z -> string.

(** What [cmd.Start()] answers for a command and its arguments: the PID of
    the new child process, or an error. *)
Variable exec_Start : string -> list string -> World -> result Z.

(** How process.WritePidfile spells a PID in the file. *)
Variable format_pid : Z -> list byte.

(** The network helper's socket path, whether its start fails, and the MAC
    address it reports once started. *)
Variable helper_SocketPath : vmnet_Helper -> string.
Variable helper_Start_err : vmnet_Helper -> string -> World -> option error.
Variable helper_MACAddress : vmnet_Helper -> World -> string.

(** [os.OpenFile(logfile, O_WRONLY|O_CREATE|O_TRUNC, 0o600)]: the file is
    created or emptied; the open file is stood for by its path. *)
Definition openLogfile (d : Driver) : M (result string) :=
  let logfile := ResolveStorePath X d logFileName in
  match fs_fault X OpWrite logfile with
  | Some e => ret (Err e)
  | None =>
      w <- get_world ;;
      set_files (<[logfile := []]> (files w)) ;;;
      ret (Ok logfile)
  end.

(** [exec.Command(name, args...)] and [cmd.Start()]: on success a child
    process with that executable name is alive under a new PID. *)
Definition exec_Cmd_Start (name : string) (args : list string) : M (result Z) :=
  w <- get_world ;;
  match exec_Start name args w with
  | Err e => ret (Err e)
  | Ok pid => set_procs (<[pid := name]> (procs w)) ;;; ret (Ok pid)
  end.

(** Modelled from the spec: process.WritePidfile (pkg/minikube/process) is
    not part of this source file.  Section 4.1: the launch "persists the
    resulting PID to pidFilePath" and fails when "the PID file cannot be
    written"; a PID file that cannot be written is left as it was. *)
Definition process_WritePidfile (path : string) (pid : Z) : M (option error) :=
  log_event (EvWriteFile path) ;;;
  match fs_fault X OpWrite path with
  | Some e => ret (Some e)
  | None =>
      w <- get_world ;;
      set_files (<[path := format_pid pid]> (files w)) ;;;
      ret None
  end.

(** Modelled from the spec: vmnet.Helper.Start is not part of this source
    file.  Section 4.4: "launch the network-helper process first"; a started
    helper reports Running. *)
Definition vmnet_Helper_Start (h : vmnet_Helper) (socketPath : string) : M (option error) :=
  w <- get_world ;;
  match helper_Start_err h socketPath w with
  | Some e => ret (Some e)
  | None =>
      set_helper {| helper_state := state.Running;
                    helper_query_err := helper_query_err (helper w);
                    helper_signal_err := helper_signal_err (helper w) |} ;;;
      ret None
  end.

(** Modelled from the spec: vmnet.Helper.GetMACAddress is not part of this
    source file.  Section 4.4: the start "capture[s] its MAC address". *)
Definition vmnet_Helper_GetMACAddress (h : vmnet_Helper) : M string :=
  w <- get_world ;;
  ret (helper_MACAddress h w).

(** startVfkit starts the vfkit child process. If socketPath is not empty,
    vfkit is connected to the vmnet network via the socket instead of "nat"
    network. *)
Definition startVfkit (d : Driver) (socketPath : string) : M (option error) :=
  let startCmd := startCmd X GOARCH ExtraDiskPath d socketPath in
  os_Remove X (sockfilePath X d) ;;;
  lf <- openLogfile d ;;
  match lf with
  | Err err => ret (Some (ErrWrap "failed to open vfkit logfile" err))
  | Ok logfile =>
      r <- exec_Cmd_Start "vfkit" startCmd ;;
      match r with
      | Err err => ret (Some err)
      | Ok pid => process_WritePidfile (pidfilePath X d) pid
      end
  end.

(** Start up to the wait for SSH: the helper, the hypervisor, the IP
    address.  It answers the driver as it is after these steps, and the
    error when one failed. *)
Definition Start_launch (d : Driver) : M (Driver * option error) :=
  r <- match VmnetHelper d with
       | Some h =>
           let socketPath := helper_SocketPath h in
           e <- vmnet_Helper_Start h socketPath ;;
           match e with
           | Some err => ret (d, socketPath, Some err)
           | None =>
               mac <- vmnet_Helper_GetMACAddress h ;;
               ret (set_MACAddress d mac, socketPath, None)
           end
       | None => ret (d, "", None)
       end ;;
  match r with
  | (d, _, Some err) => ret (d, Some err)
  | (d, socketPath, None) =>
      e <- startVfkit d socketPath ;;
      match e with
      | Some err => ret (d, Some err)
      | None => setupIP X d (MACAddress d)
      end
  end.

(** Start.  The wait for SSH is a loop without bound, so Start runs on
    [fuel] as WaitForTCPWithDelay does and answers [None] while still
    waiting. *)
Definition Start (fuel : nat) (d : Driver) (w : World)
  : option (outcome (Driver * option error)) :=
  match Start_launch d w with
  | Exit r msg e w' => Some (Exit r msg e w')
  | Ret (d', Some err) w' => Some (Ret (d', Some err) w')
  | Ret (d', None) w' =>
      match WaitForTCPWithDelay X fuel (IPAddress d' +:+ ":" +:+ fmt_d (SSHPort d'))
              time_Second w' with
      | None => None
      | Some (e, w'') => Some (Ret (d', e) w'')
      end
  end.

Definition Restart (fuel : nat) (d : Driver) (w : World)
  : option (outcome (Driver * option error)) :=
  match GetState X d w with
  | Exit r msg e w' => Some (Exit r msg e w')
  | Ret (_, Some err) w' => Some (Ret (d, Some err) w')
  | Ret (s, None) w' =>
      if bool_decide (s = state.Running) then
        match Stop X d w' with
        | Exit r msg e w'' => Some (Exit r msg e w'')
        | Ret (Some err) w'' => Some (Ret (d, Some err) w'')
        | Ret None w'' => Start fuel d w''
        end
      else Start fuel d w'
  end.

End Launch.

(** ** A host to launch on *)

Module Host.

Definition GOARCH : string := "arm64".

Definition ExtraDiskPath (d : Driver) (i : Z) : string :=
  StorePath d +:+ "/machines/" +:+ MachineName d +:+ "/" +:+ MachineName d
    +:+ "-" +:+ fmt_d i +:+ ".rawdisk".

(** Every command starts, under PID 4242. *)
Definition exec_Start (name : string) (args : list string) (w : World) : result Z :=
  Ok 4242.

(** No command starts. *)
Definition exec_missing (name : string) (args : list string) (w : World) : result Z :=
  Err (ErrNew "exec: vfkit: executable file not found in $PATH").

(** A PID is written in decimal. *)
Definition format_pid (pid : Z) : list byte := String.list_byte_of_string (fmt_d pid).

Definition helper_SocketPath (h : vmnet_Helper) : string :=
  MachineDir h +:+ "/vmnet-helper.sock".

Definition helper_Start_err (h : vmnet_Helper) (socketPath : string) (w : World)
  : option error := None.

Definition helper_MACAddress (h : vmnet_Helper) (w : World) : string :=
  "5a:94:ef:e4:0c:ee".

Definition logfile : string := "/home/u/.minikube/machines/minikube/vfkit.log".

(** A host where one path cannot be written. *)
Definition read_only (path : string) : Externals :=
  Sample.with_fs_fault
    (fun op p =>
       match op with
       | OpWrite => if String.eqb p path then Some (ErrNew "permission denied") else None
       | _ => None
       end) Sample.calm.

End Host.

(** ** Facts about the collaborators *)

Example strings_Contains_sample :
  strings_Contains "failed to get IP address: could not find an IP address for 5a:94"
    "could not find an IP address" = true /\
  strings_Contains "no entry in the leases file" "could not find an IP address" = false /\
  strings_Contains "" "" = true.
Proof. repeat split; reflexivity. Qed.

Example errors_Is_ErrNotExist_sample :
  errors_Is_ErrNotExist (ErrWrap "read pidfile" (ErrNotExist "vfkit.pid")) = true /\
  errors_Is_ErrNotExist (ErrNew "permission denied") = false /\
  is_ErrProcessDone (ErrWrap "signal" ErrProcessDone) = false.
Proof. repeat split; reflexivity. Qed.

Example int64_sample :
  int64 (20000 * 1048576) = 20971520000 /\ int64 (2 ^ 63) = - 2 ^ 63 /\
  int64 (2 ^ 44 * 1048576) = 0.
Proof. repeat split; reflexivity. Qed.

Example tar_blockPadding_sample :
  tar_blockPadding 29 = 483 /\ tar_blockPadding 0 = 0 /\ tar_blockPadding 512 = 0 /\
  tar_blockPadding 513 = 511.
Proof. repeat split; reflexivity. Qed.

Example truncated_sample :
  truncated 2 [x01; x02; x03] = [x01; x02] /\
  truncated 5 [x01; x02; x03] = [x01; x02; x03; x00; x00].
Proof. split; reflexivity. Qed.

Lemma new_events_app (w w' : World) (evs : list event) :
  trace w' = trace w ++ evs -> new_events w w' = evs.
Proof.
  intros H. unfold new_events. rewrite H. apply drop_app_length.
Qed.

Ltac run :=
  repeat (progress (
    unfold bind, ret, log_event, get_world, set_files, set_procs, set_helper,
           tick_posts, tick_lookups, exit_Error, time_Sleep in *;
    cbn beta iota delta [files procs helper posts lookups probes trace
                         logged probed fst snd negb final_world] in * )).

Ltac trace_eq :=
  apply new_events_app; cbn [trace logged probed];
  repeat rewrite <- app_assoc; reflexivity.

(** A stale PID file: the query answers Stopped, asks for the file to be
    removed, and touches neither the processes nor the helper. *)
Lemma getVfkitState_stale (X : Externals) (d : Driver) (w : World) :
  stale_pidfile X d w ->
  exists w',
    getVfkitState X d w = Ret (state.Stopped, None) w' /\
    procs w' = procs w /\ helper w' = helper w /\
    files w' = match fs_fault X OpRemove (pidfilePath X d) with
               | Some _ => files w
               | None => delete (pidfilePath X d) (files w)
               end /\
    exists pid, new_events w w' =
      [EvReadPidfile (pidfilePath X d); EvExists pid "vfkit"; EvRemove (pidfilePath X d)].
Proof.
  intros (data & pid & Hf & Hr & Hp & Hq & Hn).
  assert (Hex : match procs w !! pid with
                | Some exe => bool_decide (exe = "vfkit")
                | None => false end = false).
  { destruct (procs w !! pid) as [exe|] eqn:E; [|done].
    apply bool_decide_eq_false. congruence. }
  unfold getVfkitState, process_ReadPidfile, process_Exists, os_Remove.
  run. rewrite Hf, Hr. run. rewrite Hp. run. rewrite Hq. run.
  destruct (procs w !! pid) as [exe|] eqn:E; run; try rewrite Hex; run;
    rewrite Hf; destruct (fs_fault X OpRemove (pidfilePath X d)); run;
    (eexists; split; [reflexivity|]; cbn [files procs helper logged];
     repeat split; try reflexivity; exists pid; trace_eq).
Qed.

(** The hypervisor query never touches the helper process. *)
Lemma getVfkitState_helper (X : Externals) (d : Driver) (w : World) :
  helper (final_world (getVfkitState X d w)) = helper w.
Proof.
  unfold getVfkitState, process_ReadPidfile, process_Exists, os_Remove. run.
  destruct (files w !! pidfilePath X d) as [data|] eqn:Hf; run; [|reflexivity].
  destruct (fs_fault X OpRead (pidfilePath X d)); run.
  { destruct (errors_Is_ErrNotExist e); reflexivity. }
  destruct (parse_pid X data) as [pid|e]; run.
  2:{ destruct (errors_Is_ErrNotExist e); reflexivity. }
  destruct (ps_fault X PsQuery pid); run; [reflexivity|].
  destruct (procs w !! pid) as [exe|]; run.
  - destruct (bool_decide (exe = "vfkit")); run; [reflexivity|].
    rewrite Hf. destruct (fs_fault X OpRemove (pidfilePath X d)); reflexivity.
  - rewrite Hf. destruct (fs_fault X OpRemove (pidfilePath X d)); reflexivity.
Qed.

(** ** State queries *)

(** C1, as amended.  When the PID file holds a PID that the process query
    reports, without error, as no live vfkit process, getVfkitState returns
    Stopped with a nil error after calling os.Remove on the PID file; the
    file is gone afterwards unless that removal fails.  GetState then answers
    with the network helper's state query, which is Stopped when the driver
    has no helper. *)
Theorem getVfkitState_removes_stale_pidfile (X : Externals) (d : Driver) (w : World) :
  stale_pidfile X d w ->
  exists w',
    getVfkitState X d w = Ret (state.Stopped, None) w' /\
    In (EvRemove (pidfilePath X d)) (new_events w w') /\
    (fs_fault X OpRemove (pidfilePath X d) = None ->
       files w' !! pidfilePath X d = None) /\
    GetState X d w = getVmnetHelperState d w' /\
    (VmnetHelper d = None -> GetState X d w = Ret (state.Stopped, None) w').
Proof.
  intros Hs.
  destruct (getVfkitState_stale X d w Hs) as (w' & Hrun & _ & _ & Hfiles & pid & Hev).
  exists w'. split; [exact Hrun|]. split; [|split; [|split]].
  - rewrite Hev. cbn. tauto.
  - intros Hrm. rewrite Hfiles, Hrm. apply lookup_delete_eq.
  - unfold GetState, bind. rewrite Hrun. reflexivity.
  - intros Hh. unfold GetState, bind. rewrite Hrun. cbn.
    unfold getVmnetHelperState. rewrite Hh. reflexivity.
Qed.

Lemma getVfkitState_removes_stale_pidfile_witness :
  exists w',
    getVfkitState Sample.calm Sample.d_nat
      (Sample.world Sample.stale_fs ∅ (Sample.helper_in state.Stopped))
    = Ret (state.Stopped, None) w' /\
    files w' !! Sample.pidfile = None.
Proof.
  destruct (getVfkitState_removes_stale_pidfile Sample.calm Sample.d_nat
              (Sample.world Sample.stale_fs ∅ (Sample.helper_in state.Stopped)))
    as (w' & Hrun & _ & Hgone & _).
  - exists (String.list_byte_of_string "4242"), 4242.
    repeat split; vm_compute; congruence.
  - exists w'. split; [exact Hrun|]. apply Hgone. reflexivity.
Defined.

(** When os.Remove fails the stale PID file stays, and the query still
    answers Stopped. *)
Example getVfkitState_remove_failure_keeps_pidfile :
  let X := Sample.with_fs_fault
             (fun op _ => match op with
                          | OpRemove => Some (ErrNew "operation not permitted")
                          | _ => None
                          end) Sample.calm in
  let w := Sample.world Sample.stale_fs ∅ (Sample.helper_in state.Stopped) in
  returned (getVfkitState X Sample.d_nat w) = Some (state.Stopped, None) /\
  files (final_world (getVfkitState X Sample.d_nat w)) !! Sample.pidfile
    = Some (String.list_byte_of_string "4242").
Proof. split; vm_compute; reflexivity. Qed.

(** C1, as stated, fails: with a stale PID file and a running network
    helper, GetState returns Running, not Stopped. *)
Lemma GetState_stale_pidfile_helper_running :
  let w := Sample.world Sample.stale_fs ∅ (Sample.helper_in state.Running) in
  stale_pidfile Sample.calm Sample.d_shared w /\
  returned (GetState Sample.calm Sample.d_shared w) = Some (state.Running, None) /\
  returned (GetState Sample.calm Sample.d_shared w) <> Some (state.Stopped, None).
Proof.
  split; [|split].
  - exists (String.list_byte_of_string "4242"), 4242.
    repeat split; vm_compute; congruence.
  - vm_compute. reflexivity.
  - vm_compute. congruence.
Qed.

(** C9, as amended.  Running dominates among the answers that are not
    errors: GetState returns Running when the hypervisor query reports
    Running, and when that query reports another state without error while
    the network helper reports Running.  When the hypervisor query fails,
    GetState returns Error with that error and the helper is not asked. *)
Theorem GetState_running_dominates (X : Externals) (d : Driver) (w : World) :
  (forall w1,
     getVfkitState X d w = Ret (state.Running, None) w1 ->
     GetState X d w = Ret (state.Running, None) w1) /\
  (forall st w1 h,
     getVfkitState X d w = Ret (st, None) w1 ->
     VmnetHelper d = Some h ->
     helper_state (helper w) = state.Running ->
     helper_query_err (helper w) = None ->
     exists w', GetState X d w = Ret (state.Running, None) w') /\
  (forall st err w1,
     getVfkitState X d w = Ret (st, Some err) w1 ->
     GetState X d w = Ret (state.Error, Some err) w1 /\
     ~ In EvHelperGetState (new_events w1 (final_world (GetState X d w)))).
Proof.
  split; [|split].
  - intros w1 H. unfold GetState, bind. rewrite H. reflexivity.
  - intros st w1 h H Hh Hst Hq. unfold GetState, bind. rewrite H.
    pose proof (getVfkitState_helper X d w) as Hhelper.
    rewrite H in Hhelper. cbn in Hhelper.
    destruct (bool_decide (st = state.Running)); [eexists; reflexivity|].
    unfold getVmnetHelperState, vmnet_Helper_GetState. rewrite Hh. run.
    rewrite Hhelper, Hq, Hst. eexists; reflexivity.
  - intros st err w1 H. unfold GetState, bind. rewrite H. split; [reflexivity|].
    cbn. unfold new_events. rewrite drop_all. intros [].
Qed.

Lemma GetState_running_dominates_witness :
  exists w',
    GetState Sample.calm Sample.d_shared
      (Sample.world Sample.stale_fs ∅ (Sample.helper_in state.Running))
    = Ret (state.Running, None) w'.
Proof.
  eapply (proj1 (proj2 (GetState_running_dominates Sample.calm Sample.d_shared
            (Sample.world Sample.stale_fs ∅ (Sample.helper_in state.Running))))).
  - vm_compute. reflexivity.
  - reflexivity.
  - reflexivity.
  - reflexivity.
Defined.

(** C9, as stated, fails: the PID file cannot be read, so the hypervisor
    query reports Error, a state other than Running; the helper reports
    Running; GetState returns Error. *)
Lemma GetState_error_beats_running_helper :
  let X := Sample.with_fs_fault
             (fun op _ => match op with
                          | OpRead => Some (ErrNew "permission denied")
                          | _ => None
                          end) Sample.calm in
  let w := Sample.world Sample.stale_fs ∅ (Sample.helper_in state.Running) in
  returned (getVfkitState X Sample.d_shared w)
    = Some (state.Error, Some (ErrNew "permission denied")) /\
  returned (getVmnetHelperState Sample.d_shared w) = Some (state.Running, None) /\
  returned (GetState X Sample.d_shared w)
    = Some (state.Error, Some (ErrNew "permission denied")) /\
  returned (GetState X Sample.d_shared w) <> Some (state.Running, None).
Proof.
  repeat split; vm_compute; congruence.
Qed.

(** ** The control channel *)

(** When the client's call returns a response, SetVFKitState returns nil,
    whatever the status code of the response. *)
Lemma SetVFKitState_answered
    (X : Externals) (d : Driver) (s : string) (w : World) (status : Z) :
  http_Post X (sockfilePath X d) (JObject [("state", s)]) (posts w) = PostResp status ->
  exists w',
    SetVFKitState X d s w = Ret None w' /\
    new_events w w' = [EvPost (sockfilePath X d) "http://_/vm/state" (JObject [("state", s)])].
Proof.
  intros H. unfold http_Post in H.
  unfold SetVFKitState, json_Marshal, http_Client_Post. run.
  cbn [State]. rewrite H.
  eexists. split; [reflexivity|]. trace_eq.
Qed.






(** ** IP resolution *)

Lemma count_event_app (ev : event) (l1 l2 : list event) :
  count_event ev (l1 ++ l2) = (count_event ev l1 + count_event ev l2)%nat.
Proof.
  induction l1 as [|e l1 IH]; cbn; [reflexivity|]. rewrite IH. lia.
Qed.

Lemma failed_attempts_S (mac : string) (n : nat) :
  failed_attempts mac (S n) = failed_attempt mac ++ failed_attempts mac n.
Proof. reflexivity. Qed.

Lemma count_lookups_failed_attempts (mac : string) (n : nat) :
  count_event (EvLookup mac) (failed_attempts mac n) = n.
Proof.
  induction n as [|n IH]; [reflexivity|].
  rewrite failed_attempts_S, count_event_app, IH. cbn.
  rewrite bool_decide_eq_true_2 by reflexivity. reflexivity.
Qed.

Lemma count_sleeps_failed_attempts (mac : string) (n : nat) :
  count_event (EvSleep (2 * time_Second)) (failed_attempts mac n) = n.
Proof.
  induction n as [|n IH]; [reflexivity|].
  rewrite failed_attempts_S, count_event_app, IH. reflexivity.
Qed.

Lemma count_unblock_failed_attempts (mac : string) (n : nat) :
  count_event EvUnblockBootpd (failed_attempts mac n) = O.
Proof.
  induction n as [|n IH]; [reflexivity|].
  rewrite failed_attempts_S, count_event_app, IH. reflexivity.
Qed.

(** The loop when the lookup number [k] is the first to succeed. *)
Lemma setupIP_loop_success (X : Externals) (mac : string) (k : nat) :
  forall (n : nat) (d : Driver) (err : option error) (w : World) (ip : string),
    (k < n)%nat ->
    (forall j, (j < k)%nat -> lookup_fails X mac w j) ->
    GetIPAddressByMACAddress X mac (lookups w + k) = (ip, None) ->
    exists w',
      setupIP_loop X n mac d err w = Ret (set_IPAddress d ip, None) w' /\
      lookups w' = (lookups w + S k)%nat /\
      trace w' = trace w ++ failed_attempts mac k ++ [EvLookup mac] /\
      same_state w w' /\ posts w' = posts w /\ probes w' = probes w.
Proof.
  induction k as [|k IH]; intros n d err w ip Hlt Hfail Hok.
  - destruct n as [|n]; [lia|].
    cbn [setupIP_loop]. unfold getIP. run.
    rewrite Nat.add_0_r in Hok. rewrite Hok. run.
    eexists. split; [reflexivity|]. cbn.
    repeat split; try reflexivity. lia.
  - destruct n as [|n]; [lia|].
    cbn [setupIP_loop]. unfold getIP. run.
    pose proof (Hfail O ltac:(lia)) as H0. unfold lookup_fails in H0.
    rewrite Nat.add_0_r in H0.
    destruct (GetIPAddressByMACAddress X mac (lookups w)) as [ip0 [e|]] eqn:E;
      [|cbn in H0; congruence].
    run.
    match goal with
    | |- context [setupIP_loop X n mac ?d' ?err' ?w'] =>
        destruct (IH n d' err' w' ip) as (w2 & Hrun & Hl & Ht & Hs & Hp & Hq)
    end.
    + lia.
    + intros j Hj. unfold lookup_fails. cbn [lookups logged].
      replace (S (lookups w) + j)%nat with (lookups w + S j)%nat by lia.
      apply Hfail. lia.
    + cbn [lookups logged]. replace (S (lookups w) + k)%nat with (lookups w + S k)%nat by lia.
      exact Hok.
    + exists w2. split; [exact Hrun|]. cbn in Hl, Ht, Hp, Hq.
      destruct Hs as (Hs1 & Hs2 & Hs3). cbn in Hs1, Hs2, Hs3.
      repeat split; try assumption.
      * lia.
      * rewrite Ht, failed_attempts_S. unfold failed_attempt.
        repeat rewrite <- app_assoc. reflexivity.
Qed.

(** The loop when every lookup of its [S m] iterations fails. *)
Lemma setupIP_loop_exhausted (X : Externals) (mac : string) (m : nat) :
  forall (d : Driver) (err : option error) (w : World),
    (forall j, (j <= m)%nat -> lookup_fails X mac w j) ->
    exists ip e w',
      GetIPAddressByMACAddress X mac (lookups w + m) = (ip, Some e) /\
      setupIP_loop X (S m) mac d err w
        = Ret (set_IPAddress d ip, Some (ErrWrap "failed to get IP address" e)) w' /\
      lookups w' = (lookups w + S m)%nat /\
      trace w' = trace w ++ failed_attempts mac (S m) /\
      same_state w w' /\ posts w' = posts w /\ probes w' = probes w.
Proof.
  induction m as [|m IH]; intros d err w Hfail.
  - pose proof (Hfail O ltac:(lia)) as H0. unfold lookup_fails in H0.
    rewrite Nat.add_0_r in *.
    destruct (GetIPAddressByMACAddress X mac (lookups w)) as [ip0 [e|]] eqn:E;
      [|cbn in H0; congruence].
    exists ip0, e. cbn [setupIP_loop]. unfold getIP. run. rewrite E. run.
    eexists. split; [reflexivity|]. split; [reflexivity|]. cbn.
    repeat split; try reflexivity. lia.
    rewrite <- app_assoc. reflexivity.
  - pose proof (Hfail O ltac:(lia)) as H0. unfold lookup_fails in H0.
    rewrite Nat.add_0_r in H0.
    destruct (GetIPAddressByMACAddress X mac (lookups w)) as [ip0 [e0|]] eqn:E;
      [|cbn in H0; congruence].
    remember (S m) as n eqn:Hn.
    cbn [setupIP_loop]. unfold getIP. run. rewrite E. run. subst n.
    match goal with
    | |- context [setupIP_loop X (S m) mac ?d' ?err' ?w'] =>
        destruct (IH d' err' w') as (ip & e & w2 & Hlast & Hrun & Hl & Ht & Hs & Hp & Hq)
    end.
    + intros j Hj. unfold lookup_fails. cbn [lookups logged].
      replace (S (lookups w) + j)%nat with (lookups w + S j)%nat by lia.
      apply Hfail. lia.
    + cbn [lookups logged] in Hlast.
      replace (S (lookups w) + m)%nat with (lookups w + S m)%nat in Hlast by lia.
      exists ip, e, w2. split; [exact Hlast|]. split; [exact Hrun|].
      cbn in Hl, Ht, Hp, Hq. destruct Hs as (Hs1 & Hs2 & Hs3). cbn in Hs1, Hs2, Hs3.
      repeat split; try assumption.
      * lia.
      * rewrite Ht. rewrite (failed_attempts_S mac (S m)). unfold failed_attempt.
        repeat rewrite <- app_assoc. reflexivity.
Qed.

(** Among the first [n] lookups either one is the first to succeed, or all
    fail. *)
Lemma first_success_or_all_fail (X : Externals) (mac : string) (w : World) (n : nat) :
  (exists k, (k < n)%nat /\ (forall j, (j < k)%nat -> lookup_fails X mac w j) /\
             snd (GetIPAddressByMACAddress X mac (lookups w + k)) = None) \/
  (forall j, (j < n)%nat -> lookup_fails X mac w j).
Proof.
  induction n as [|n [(k & Hk & Hf & Hok)|Hall]].
  - right. intros j Hj. lia.
  - left. exists k. split; [lia|]. split; assumption.
  - destruct (snd (GetIPAddressByMACAddress X mac (lookups w + n))) as [e|] eqn:E.
    + right. intros j Hj. destruct (decide (j = n)) as [->|Hne].
      * unfold lookup_fails. rewrite E. congruence.
      * apply Hall. lia.
    + left. exists n. split; [lia|]. split; assumption.
Qed.

Lemma retry_budget_value (X : Externals) :
  retry_budget X = if detect_NestedVM X then 180%nat else 60%nat.
Proof. unfold retry_budget. destruct (detect_NestedVM X); reflexivity. Qed.

(** A message that contains the signature still contains it behind the
    prefix that errors.Wrap puts in front. *)
Lemma strings_Contains_prepend (p s sub : string) :
  strings_Contains s sub = true -> strings_Contains (p +:+ s) sub = true.
Proof.
  intros H. induction p as [|a p IH]; [exact H|].
  change (String a p +:+ s) with (String a (p +:+ s)).
  cbn [strings_Contains]. rewrite IH.
  destruct (has_prefix sub (String a (p +:+ s))); reflexivity.
Qed.

Lemma isBootpdError_Wrap (e : error) (msg : string) :
  isBootpdError e = true -> isBootpdError (errors_Wrap e msg) = true.
Proof.
  unfold isBootpdError, errors_Wrap. cbn [Error]. intros H.
  apply strings_Contains_prepend. apply (strings_Contains_prepend ": "). exact H.
Qed.

Lemma retry_budget_pos (X : Externals) : exists m, retry_budget X = S m.
Proof.
  rewrite retry_budget_value. destruct (detect_NestedVM X); eexists; reflexivity.
Qed.

(** setupIP when lookup number [k], within the budget, is the first to
    succeed. *)
Lemma setupIP_success (X : Externals) (d : Driver) (mac : string) (w : World)
    (k : nat) (ip : string) :
  (k < retry_budget X)%nat ->
  (forall j, (j < k)%nat -> lookup_fails X mac w j) ->
  GetIPAddressByMACAddress X mac (lookups w + k) = (ip, None) ->
  exists w',
    setupIP X d mac w = Ret (set_IPAddress d ip, None) w' /\
    lookups w' = (lookups w + S k)%nat /\
    trace w' = trace w ++ failed_attempts mac k ++ [EvLookup mac] /\
    same_state w w'.
Proof.
  intros Hk Hfail Hok.
  destruct (setupIP_loop_success X mac k (retry_budget X) d None w ip Hk Hfail Hok)
    as (w' & Hrun & Hl & Ht & Hs & _).
  exists w'. unfold setupIP, bind. fold (retry_budget X). rewrite Hrun. cbn.
  auto.
Qed.

(** setupIP when every lookup of the budget fails: the last error decides
    between the hard failure and the firewall remedy. *)
Lemma setupIP_exhausted (X : Externals) (d : Driver) (mac : string) (w : World) :
  (forall j, (j < retry_budget X)%nat -> lookup_fails X mac w j) ->
  exists ip e w1,
    GetIPAddressByMACAddress X mac (lookups w + (retry_budget X - 1)) = (ip, Some e) /\
    lookups w1 = (lookups w + retry_budget X)%nat /\
    trace w1 = trace w ++ failed_attempts mac (retry_budget X) /\
    same_state w w1 /\
    let err := ErrWrap "failed to get IP address" e in
    setupIP X d mac w =
      if negb (isBootpdError err) then
        Ret (set_IPAddress d ip,
             Some (ErrWrap "IP address never found in dhcp leases file" err)) w1
      else
        match firewall_UnblockBootpd X with
        | Some _ => Exit IfBootpdFirewall "ip not found" err (logged EvUnblockBootpd w1)
        | None => Ret (set_IPAddress d ip, Some (ErrNew ("ip not found: " +:+ Error err)))
                      (logged EvUnblockBootpd w1)
        end.
Proof.
  intros Hfail. destruct (retry_budget_pos X) as (m & Hm).
  destruct (setupIP_loop_exhausted X mac m d None w) as
    (ip & e & w1 & Hlast & Hrun & Hl & Ht & Hs & _).
  { intros j Hj. apply Hfail. lia. }
  exists ip, e, w1. rewrite Hm. replace (S m - 1)%nat with m by lia.
  repeat (split; [assumption|]).
  cbn zeta. unfold setupIP, bind. fold (retry_budget X). rewrite Hm, Hrun.
  cbn [snd fst]. unfold errors_Wrap.
  destruct (isBootpdError (ErrWrap "failed to get IP address" e)); cbn [negb].
  - unfold log_event. destruct (firewall_UnblockBootpd X); reflexivity.
  - reflexivity.
Qed.

(** C3.  setupIP makes at most 60*multiplier lookups, where the multiplier
    is 3 under a nested VM and 1 otherwise, and sleeps two seconds after
    each failed one.  When lookup number k, within the budget, is the first
    to succeed, setupIP stops after exactly k lookups and stores the address
    it returned. *)
Theorem setupIP_retry_budget (X : Externals) (d : Driver) (mac : string) (w : World) :
  let budget := retry_budget X in
  let evs := new_events w (final_world (setupIP X d mac w)) in
  budget = (60 * (if detect_NestedVM X then 3 else 1))%nat /\
  (count_event (EvLookup mac) evs <= budget)%nat /\
  (exists failed rest,
     evs = failed_attempts mac failed ++ rest /\
     ((failed < budget)%nat /\ rest = [EvLookup mac] \/
      failed = budget /\ (rest = [] \/ rest = [EvUnblockBootpd]))) /\
  (forall k ip,
     (1 <= k <= budget)%nat ->
     (forall j, (j < k - 1)%nat -> lookup_fails X mac w j) ->
     GetIPAddressByMACAddress X mac (lookups w + (k - 1)) = (ip, None) ->
     exists w',
       setupIP X d mac w = Ret (set_IPAddress d ip, None) w' /\
       IPAddress (set_IPAddress d ip) = ip /\
       new_events w w' = failed_attempts mac (k - 1) ++ [EvLookup mac] /\
       count_event (EvLookup mac) (new_events w w') = k /\
       lookups w' = (lookups w + k)%nat).
Proof.
  cbn zeta.
  assert (Hshape : exists failed rest,
     new_events w (final_world (setupIP X d mac w)) = failed_attempts mac failed ++ rest /\
     ((failed < retry_budget X)%nat /\ rest = [EvLookup mac] \/
      failed = retry_budget X /\ (rest = [] \/ rest = [EvUnblockBootpd]))).
  { destruct (first_success_or_all_fail X mac w (retry_budget X))
      as [(k & Hk & Hfail & Hok)|Hall].
    - destruct (GetIPAddressByMACAddress X mac (lookups w + k)) as [ip o] eqn:E.
      cbn in Hok. subst o.
      destruct (setupIP_success X d mac w k ip Hk Hfail E) as (w' & Hrun & _ & Ht & _).
      exists k, [EvLookup mac]. rewrite Hrun. cbn [final_world].
      split; [apply new_events_app; exact Ht|]. left. auto.
    - destruct (setupIP_exhausted X d mac w Hall) as (ip & e & w1 & _ & _ & Ht & _ & Hrun).
      cbn zeta in Hrun. rewrite Hrun.
      destruct (negb (isBootpdError (ErrWrap "failed to get IP address" e))).
      + exists (retry_budget X), []. cbn [final_world].
        split; [apply new_events_app; rewrite Ht, app_nil_r; reflexivity|]. right. auto.
      + exists (retry_budget X), [EvUnblockBootpd].
        split; [|right; auto].
        destruct (firewall_UnblockBootpd X); cbn [final_world];
          apply new_events_app; cbn [trace logged]; rewrite Ht, <- app_assoc; reflexivity. }
  split; [|split; [|split; [exact Hshape|]]].
  - rewrite retry_budget_value. destruct (detect_NestedVM X); reflexivity.
  - destruct Hshape as (failed & rest & -> & [[Hlt ->]|[-> [->| ->]]]);
      rewrite count_event_app, count_lookups_failed_attempts; cbn [count_event].
    + rewrite bool_decide_eq_true_2 by reflexivity. lia.
    + lia.
    + rewrite bool_decide_eq_false_2 by discriminate. lia.
  - intros k ip Hk Hfail Hok.
    destruct (setupIP_success X d mac w (k - 1) ip ltac:(lia) Hfail Hok)
      as (w' & Hrun & Hl & Ht & _).
    exists w'. split; [exact Hrun|]. split; [reflexivity|].
    rewrite (new_events_app _ _ _ Ht).
    split; [reflexivity|]. split; [|lia].
    rewrite count_event_app, count_lookups_failed_attempts. cbn [count_event].
    rewrite bool_decide_eq_true_2 by reflexivity. lia.
Qed.

Lemma setupIP_retry_budget_witness :
  let X := Sample.with_lookup
             (fun _ n => if (n <? 2)%nat
                         then ("", Some (ErrNew "could not find an IP address for 5a:94:ef:e4:0c:ee"))
                         else ("192.168.64.5", None)) None Sample.calm in
  let w := Sample.world ∅ ∅ (Sample.helper_in state.Stopped) in
  exists w',
    setupIP X Sample.d_nat "5a:94:ef:e4:0c:ee" w
      = Ret (set_IPAddress Sample.d_nat "192.168.64.5", None) w' /\
    count_event (EvLookup "5a:94:ef:e4:0c:ee") (new_events w w') = 3%nat.
Proof.
  cbn zeta.
  destruct (proj2 (proj2 (proj2 (setupIP_retry_budget
              (Sample.with_lookup
                 (fun _ n => if (n <? 2)%nat
                             then ("", Some (ErrNew "could not find an IP address for 5a:94:ef:e4:0c:ee"))
                             else ("192.168.64.5", None)) None Sample.calm)
              Sample.d_nat "5a:94:ef:e4:0c:ee"
              (Sample.world ∅ ∅ (Sample.helper_in state.Stopped)))))
              3%nat "192.168.64.5")
    as (w' & Hrun & _ & _ & Hcount & _).
  - rewrite retry_budget_value. cbn. lia.
  - intros j Hj. unfold lookup_fails. cbn.
    destruct j as [|[|j]]; cbn; [discriminate|discriminate|lia].
  - reflexivity.
  - exists w'. split; [exact Hrun|exact Hcount].
Defined.

(** ** Exhausted budget *)

(** C4, as amended.  When every lookup of the budget fails, the last error
    decides.  If its message contains the bootpd signature, the firewall
    remedy is invoked exactly once; setupIP then returns the retryable
    "ip not found" error when the remedy succeeded, and the process exits
    with reason IfBootpdFirewall when the remedy failed.  If the message
    does not contain the signature, setupIP returns the error wrapped as
    "IP address never found in dhcp leases file" and never invokes the
    remedy. *)
Theorem setupIP_budget_exhausted (X : Externals) (d : Driver) (mac : string) (w : World) :
  (forall j, (j < retry_budget X)%nat -> lookup_fails X mac w j) ->
  exists ip e,
    GetIPAddressByMACAddress X mac (lookups w + (retry_budget X - 1)) = (ip, Some e) /\
    let err := errors_Wrap e "failed to get IP address" in
    let o := setupIP X d mac w in
    let unblocks := count_event EvUnblockBootpd (new_events w (final_world o)) in
    if isBootpdError err then
      unblocks = 1%nat /\
      match firewall_UnblockBootpd X with
      | None =>
          returned o = Some (set_IPAddress d ip,
                             Some (ErrNew ("ip not found: " +:+ Error err)))
      | Some _ =>
          exists w', o = Exit IfBootpdFirewall "ip not found" err w'
      end
    else
      unblocks = 0%nat /\
      returned o = Some (set_IPAddress d ip,
                         Some (errors_Wrap err "IP address never found in dhcp leases file")).
Proof.
  intros Hall.
  destruct (setupIP_exhausted X d mac w Hall) as (ip & e & w1 & Hlast & _ & Ht & _ & Hrun).
  exists ip, e. split; [exact Hlast|]. cbn zeta in *. unfold errors_Wrap.
  rewrite Hrun.
  destruct (isBootpdError (ErrWrap "failed to get IP address" e)); cbn [negb].
  - split.
    + destruct (firewall_UnblockBootpd X); cbn [final_world];
        (erewrite new_events_app;
         [|cbn [trace logged]; rewrite Ht, <- app_assoc; reflexivity]);
        rewrite count_event_app, count_unblock_failed_attempts; reflexivity.
    + destruct (firewall_UnblockBootpd X); [eexists; reflexivity|reflexivity].
  - split; [|reflexivity]. cbn [final_world].
    erewrite new_events_app; [|rewrite Ht; reflexivity].
    apply count_unblock_failed_attempts.
Qed.

Lemma setupIP_budget_exhausted_witness :
  let X := Sample.with_lookup
             (fun _ _ => ("", Some (ErrNew "could not find an IP address for 5a:94:ef:e4:0c:ee")))
             None Sample.calm in
  let w := Sample.world ∅ ∅ (Sample.helper_in state.Stopped) in
  returned (setupIP X Sample.d_nat "5a:94:ef:e4:0c:ee" w)
    = Some (set_IPAddress Sample.d_nat "",
            Some (ErrNew "ip not found: failed to get IP address: could not find an IP address for 5a:94:ef:e4:0c:ee")).
Proof.
  cbn zeta.
  destruct (setupIP_budget_exhausted
              (Sample.with_lookup
                 (fun _ _ => ("", Some (ErrNew "could not find an IP address for 5a:94:ef:e4:0c:ee")))
                 None Sample.calm)
              Sample.d_nat "5a:94:ef:e4:0c:ee"
              (Sample.world ∅ ∅ (Sample.helper_in state.Stopped)))
    as (ip & e & Hlast & H).
  - intros j Hj. unfold lookup_fails. cbn. discriminate.
  - cbn in Hlast. injection Hlast as <- <-.
    cbn zeta in H.
    change (isBootpdError
              (errors_Wrap (ErrNew "could not find an IP address for 5a:94:ef:e4:0c:ee")
                 "failed to get IP address"))
      with true in H.
    destruct H as [_ H]. exact H.
Defined.

(** C4, as stated, fails: every lookup fails with the bootpd signature and
    the firewall remedy fails too; the remedy was invoked once, and setupIP
    does not return an error, the process exits. *)
Lemma setupIP_unblock_failure_exits :
  let X := Sample.with_lookup
             (fun _ _ => ("", Some (ErrNew "could not find an IP address for 5a:94:ef:e4:0c:ee")))
             (Some (ErrNew "operation not permitted")) Sample.calm in
  let w := Sample.world ∅ ∅ (Sample.helper_in state.Stopped) in
  let o := setupIP X Sample.d_nat "5a:94:ef:e4:0c:ee" w in
  count_event (EvLookup "5a:94:ef:e4:0c:ee") (trace (final_world o)) = 60%nat /\
  count_event EvUnblockBootpd (trace (final_world o)) = 1%nat /\
  returned o = None /\
  exists w',
    o = Exit IfBootpdFirewall "ip not found"
          (ErrWrap "failed to get IP address"
             (ErrNew "could not find an IP address for 5a:94:ef:e4:0c:ee")) w'.
Proof.
  cbn zeta. split; [vm_compute; reflexivity|].
  split; [vm_compute; reflexivity|].
  split; [vm_compute; reflexivity|].
  eexists. vm_compute. reflexivity.
Qed.

(** ** Stop and Kill *)

(** Case analysis along the branches of a computation: simplify, reuse
    what is already known about a scrutinee, else split on it. *)
Ltac split_scrutinee :=
  match goal with
  | H : ?x = _ |- context [match ?x with _ => _ end] => rewrite H
  | |- context [match ?x with _ => _ end] =>
      lazymatch x with
      | context [match _ with _ => _ end] => fail
      | _ => destruct x eqn:?
      end
  end.

Ltac branches := repeat (run; try split_scrutinee).

Ltac vfkit_shutdown_cases :=
  unfold SetVFKitState, json_Marshal, http_Client_Post, process_ReadPidfile,
         process_Terminate, process_Kill, process_signal, os_Remove,
         fallback_shape, channel_answers, http_Post, pidfile_read, state_request;
  cbn [State]; branches.

(** The hypervisor half of Stop: the request first, the fallback only when
    the request failed. *)
Lemma stopVfkit_trace (X : Externals) (d : Driver) (w : World) :
  exists r w1 fallback,
    stopVfkit X d w = Ret r w1 /\
    trace w1 = trace w ++ state_request X d "Stop" :: fallback /\
    helper w1 = helper w /\
    fallback_shape X d "Stop" w EvTerminate fallback.
Proof.
  unfold stopVfkit. vfkit_shutdown_cases.
  all: do 3 eexists; split; [reflexivity|]; cbn [trace helper logged];
    repeat rewrite <- app_assoc; (split; [reflexivity|]); (split; [reflexivity|]).
  all: try reflexivity.
  all: eexists; split; [reflexivity|]; try reflexivity; auto.
Qed.

(** The hypervisor half of Kill. *)
Lemma killVfkit_trace (X : Externals) (d : Driver) (w : World) :
  exists r w1 fallback,
    killVfkit X d w = Ret r w1 /\
    trace w1 = trace w ++ state_request X d "HardStop" :: fallback /\
    helper w1 = helper w /\
    fallback_shape X d "HardStop" w EvKill fallback.
Proof.
  unfold killVfkit. vfkit_shutdown_cases.
  all: do 3 eexists; split; [reflexivity|]; cbn [trace helper logged];
    repeat rewrite <- app_assoc; (split; [reflexivity|]); (split; [reflexivity|]).
  all: try reflexivity.
  all: eexists; split; [reflexivity|]; try reflexivity; auto.
Qed.

Lemma vmnet_Helper_Stop_trace (h : vmnet_Helper) (w : World) :
  exists r w',
    vmnet_Helper_Stop h w = Ret r w' /\ trace w' = trace w ++ [EvHelperStop] /\
    (helper_state (helper w) = state.Stopped -> r = None /\ same_state w w').
Proof.
  unfold vmnet_Helper_Stop, vmnet_Helper_signal, same_state. branches.
  all: do 2 eexists; split; [reflexivity|]; split; [reflexivity|].
  all: intros Hst; cbn [files procs helper logged];
    try (rewrite Hst in *; discriminate); auto.
Qed.

Lemma vmnet_Helper_Kill_trace (h : vmnet_Helper) (w : World) :
  exists r w',
    vmnet_Helper_Kill h w = Ret r w' /\ trace w' = trace w ++ [EvHelperKill] /\
    (helper_state (helper w) = state.Stopped -> r = None /\ same_state w w').
Proof.
  unfold vmnet_Helper_Kill, vmnet_Helper_signal, same_state. branches.
  all: do 2 eexists; split; [reflexivity|]; split; [reflexivity|].
  all: intros Hst; cbn [files procs helper logged];
    try (rewrite Hst in *; discriminate); auto.
Qed.

(** C5.  Stop first posts the state "Stop" on the control channel; only
    when that request fails does it read the hypervisor PID file and send
    Terminate.  Kill does the same with "HardStop" and Kill.  In both, the
    call to the network helper, made only when the driver has a helper and
    the hypervisor half returned nil, comes after every call for the
    hypervisor. *)
Theorem Stop_Kill_order (X : Externals) (d : Driver) (w : World) :
  (exists fallback helper_part,
     new_events w (final_world (Stop X d w))
       = state_request X d "Stop" :: fallback ++ helper_part /\
     fallback_shape X d "Stop" w EvTerminate fallback /\
     helper_part = match VmnetHelper d, returned (stopVfkit X d w) with
                   | Some _, Some None => [EvHelperStop]
                   | _, _ => []
                   end) /\
  (exists fallback helper_part,
     new_events w (final_world (Kill X d w))
       = state_request X d "HardStop" :: fallback ++ helper_part /\
     fallback_shape X d "HardStop" w EvKill fallback /\
     helper_part = match VmnetHelper d, returned (killVfkit X d w) with
                   | Some _, Some None => [EvHelperKill]
                   | _, _ => []
                   end).
Proof.
  split.
  - destruct (stopVfkit_trace X d w) as (r & w1 & fallback & Hrun & Ht & _ & Hshape).
    exists fallback. unfold Stop, bind. rewrite Hrun. cbn [returned].
    destruct r as [err|].
    + exists []. split; [|split; [exact Hshape|destruct (VmnetHelper d); reflexivity]].
      unfold ret. cbn [final_world]. apply new_events_app. rewrite Ht, app_nil_r. reflexivity.
    + unfold stopVmnetHelper. destruct (VmnetHelper d) as [h|].
      * destruct (vmnet_Helper_Stop_trace h w1) as (r2 & w2 & Hrun2 & Ht2 & _).
        exists [EvHelperStop]. rewrite Hrun2. cbn [final_world].
        split; [|split; [exact Hshape|reflexivity]].
        apply new_events_app. rewrite Ht2, Ht, <- app_assoc. reflexivity.
      * exists []. split; [|split; [exact Hshape|reflexivity]].
        unfold ret. cbn [final_world]. apply new_events_app. rewrite Ht, app_nil_r. reflexivity.
  - destruct (killVfkit_trace X d w) as (r & w1 & fallback & Hrun & Ht & _ & Hshape).
    exists fallback. unfold Kill, bind. rewrite Hrun. cbn [returned].
    destruct r as [err|].
    + exists []. split; [|split; [exact Hshape|destruct (VmnetHelper d); reflexivity]].
      unfold ret. cbn [final_world]. apply new_events_app. rewrite Ht, app_nil_r. reflexivity.
    + unfold killVmnetHelper. destruct (VmnetHelper d) as [h|].
      * destruct (vmnet_Helper_Kill_trace h w1) as (r2 & w2 & Hrun2 & Ht2 & _).
        exists [EvHelperKill]. rewrite Hrun2. cbn [final_world].
        split; [|split; [exact Hshape|reflexivity]].
        apply new_events_app. rewrite Ht2, Ht, <- app_assoc. reflexivity.
      * exists []. split; [|split; [exact Hshape|reflexivity]].
        unfold ret. cbn [final_world]. apply new_events_app. rewrite Ht, app_nil_r. reflexivity.
Qed.

(** Without a PID file the hypervisor half of Stop returns nil and changes
    nothing, whether or not the control channel answers. *)
Lemma stopVfkit_no_pidfile (X : Externals) (d : Driver) (w : World) :
  files w !! pidfilePath X d = None ->
  exists w', stopVfkit X d w = Ret None w' /\ same_state w w'.
Proof.
  intros Hf. unfold stopVfkit, same_state. vfkit_shutdown_cases.
  all: try match goal with
           | H : negb (errors_Is_ErrNotExist (ErrNotExist _)) = true |- _ =>
               cbn in H; discriminate H
           end.
  all: eexists; split; [reflexivity|]; cbn [files procs helper logged]; auto.
Qed.

Lemma killVfkit_no_pidfile (X : Externals) (d : Driver) (w : World) :
  files w !! pidfilePath X d = None ->
  exists w', killVfkit X d w = Ret None w' /\ same_state w w'.
Proof.
  intros Hf. unfold killVfkit, same_state. vfkit_shutdown_cases.
  all: try match goal with
           | H : negb (errors_Is_ErrNotExist (ErrNotExist _)) = true |- _ =>
               cbn in H; discriminate H
           end.
  all: eexists; split; [reflexivity|]; cbn [files procs helper logged]; auto.
Qed.

Lemma same_state_trans (w1 w2 w3 : World) :
  same_state w1 w2 -> same_state w2 w3 -> same_state w1 w3.
Proof.
  unfold same_state. intros (? & ? & ?) (? & ? & ?). repeat split; congruence.
Qed.

(** One Stop or Kill on a machine that is already stopped. *)
Lemma shutdown_call_stopped (X : Externals) (d : Driver) (c : shutdown) (w : World) :
  files w !! pidfilePath X d = None ->
  VmnetHelper d = None \/ helper_state (helper w) = state.Stopped ->
  exists w', shutdown_call X d c w = Ret None w' /\ same_state w w'.
Proof.
  intros Hf Hh. destruct c; cbn [shutdown_call].
  - destruct (stopVfkit_no_pidfile X d w Hf) as (w1 & Hrun & Hs).
    unfold Stop, bind. rewrite Hrun. unfold stopVmnetHelper.
    destruct (VmnetHelper d) as [h|]; [|exists w1; auto].
    destruct Hh as [Hh|Hh]; [discriminate|].
    destruct (vmnet_Helper_Stop_trace h w1) as (r & w2 & Hrun2 & _ & Hstopped).
    destruct Hstopped as [-> Hs2].
    { destruct Hs as (_ & _ & <-). exact Hh. }
    exists w2. split; [exact Hrun2|]. eapply same_state_trans; eassumption.
  - destruct (killVfkit_no_pidfile X d w Hf) as (w1 & Hrun & Hs).
    unfold Kill, bind. rewrite Hrun. unfold killVmnetHelper.
    destruct (VmnetHelper d) as [h|]; [|exists w1; auto].
    destruct Hh as [Hh|Hh]; [discriminate|].
    destruct (vmnet_Helper_Kill_trace h w1) as (r & w2 & Hrun2 & _ & Hstopped).
    destruct Hstopped as [-> Hs2].
    { destruct Hs as (_ & _ & <-). exact Hh. }
    exists w2. split; [exact Hrun2|]. eapply same_state_trans; eassumption.
Qed.

(** Without a PID file, what GetState returns is decided by the helper. *)
Lemma GetState_no_pidfile (X : Externals) (d : Driver) (w : World) :
  files w !! pidfilePath X d = None ->
  returned (GetState X d w) =
    Some match VmnetHelper d with
         | None => (state.Stopped, None)
         | Some _ =>
             match helper_query_err (helper w) with
             | Some e => (state.Error, Some e)
             | None => (helper_state (helper w), None)
             end
         end.
Proof.
  intros Hf. unfold GetState, getVfkitState, process_ReadPidfile,
    getVmnetHelperState, vmnet_Helper_GetState.
  run. rewrite Hf. run. cbn [errors_Is_ErrNotExist negb]. run.
  rewrite bool_decide_eq_false_2 by discriminate.
  destruct (VmnetHelper d); run; [|reflexivity].
  destruct (helper_query_err (helper w)); reflexivity.
Qed.

(** C2.  On a driver whose hypervisor PID file is absent and whose network
    helper is absent or already stopped, every sequence of Stop and Kill
    calls returns nil at each call and leaves files, processes and helper as
    they were; GetState answers after the calls what it answered before. *)
Theorem Stop_Kill_idempotent (X : Externals) (d : Driver) (cs : list shutdown) (w : World) :
  files w !! pidfilePath X d = None ->
  VmnetHelper d = None \/ helper_state (helper w) = state.Stopped ->
  exists w',
    shutdown_calls X d cs w = Some w' /\
    same_state w w' /\
    returned (GetState X d w') = returned (GetState X d w).
Proof.
  revert w. induction cs as [|c cs IH]; intros w Hf Hh.
  - exists w. unfold same_state. auto.
  - destruct (shutdown_call_stopped X d c w Hf Hh) as (w1 & Hrun & Hs).
    pose proof Hs as (Hs1 & Hs2 & Hs3).
    destruct (IH w1) as (w' & Hcalls & Hs' & Hobs).
    + rewrite <- Hs1. exact Hf.
    + rewrite <- Hs3. exact Hh.
    + exists w'. cbn [shutdown_calls]. rewrite Hrun.
      split; [exact Hcalls|]. split; [eapply same_state_trans; eassumption|].
      rewrite Hobs, !GetState_no_pidfile by (rewrite <- ?Hs1; exact Hf).
      rewrite Hs3. reflexivity.
Qed.

Lemma Stop_Kill_idempotent_witness :
  exists w',
    shutdown_calls Sample.calm Sample.d_shared [CallStop; CallKill; CallStop; CallStop]
      (Sample.world ∅ ∅ (Sample.helper_in state.Stopped)) = Some w' /\
    returned (GetState Sample.calm Sample.d_shared w') = Some (state.Stopped, None).
Proof.
  destruct (Stop_Kill_idempotent Sample.calm Sample.d_shared
              [CallStop; CallKill; CallStop; CallStop]
              (Sample.world ∅ ∅ (Sample.helper_in state.Stopped)))
    as (w' & Hcalls & _ & Hobs).
  - reflexivity.
  - right. reflexivity.
  - exists w'. split; [exact Hcalls|]. rewrite Hobs. reflexivity.
Defined.

(** Stop on a stale PID file with a running helper: request, fallback,
    removal of the PID file, then the helper. *)
Example Stop_sample_trace :
  new_events (Sample.world Sample.stale_fs ∅ (Sample.helper_in state.Running))
    (final_world (Stop Sample.calm Sample.d_shared
       (Sample.world Sample.stale_fs ∅ (Sample.helper_in state.Running))))
  = [state_request Sample.calm Sample.d_shared "Stop";
     EvReadPidfile Sample.pidfile; EvTerminate 4242 "vfkit"; EvRemove Sample.pidfile;
     EvHelperStop].
Proof. vm_compute. reflexivity. Qed.

(** ** Waiting for the SSH endpoint *)

Lemma probes_run_deferred (n : nat) (addr : string) (w : World) :
  probes (run_deferred n addr w) = probes w.
Proof.
  revert w. induction n as [|n IH]; intros w; [reflexivity|].
  cbn [run_deferred]. rewrite IH. reflexivity.
Qed.

(** While no probe succeeds the loop goes on, whatever the fuel. *)
Lemma WaitForTCPWithDelay_loop_never (X : Externals) (addr : string) (duration : Z) :
  forall (fuel deferred : nat) (w : World),
    (forall j, probe_fails X addr w j) ->
    WaitForTCPWithDelay_loop X fuel addr duration deferred w = None.
Proof.
  induction fuel as [|fuel IH]; intros deferred w Hfail; [reflexivity|].
  cbn [WaitForTCPWithDelay_loop].
  pose proof (Hfail O) as H0. unfold probe_fails in H0. rewrite Nat.add_0_r in H0.
  destruct (net_probe X addr (probes w)); try discriminate H0;
    apply IH; intros j; unfold probe_fails; cbn [probes logged probed];
    replace (S (probes w) + j)%nat with (probes w + S j)%nat by lia; apply Hfail.
Qed.

Lemma same_state_run_deferred (n : nat) (addr : string) (w : World) :
  same_state w (run_deferred n addr w).
Proof.
  revert w. induction n as [|n IH]; intros w; [unfold same_state; auto|].
  cbn [run_deferred]. destruct (IH (logged (EvConnClose addr) w)) as (H1 & H2 & H3).
  repeat split; [rewrite <- H1|rewrite <- H2|rewrite <- H3]; reflexivity.
Qed.

(** When probe number [k] is the first to succeed, the loop returns after
    exactly [k + 1] probes, and not with less fuel than that. *)
Lemma WaitForTCPWithDelay_loop_first (X : Externals) (addr : string) (duration : Z) :
  forall (k fuel deferred : nat) (w : World),
    (forall j, (j < k)%nat -> probe_fails X addr w j) ->
    probe_succeeds (net_probe X addr (probes w + k)) = true ->
    ((fuel <= k)%nat -> WaitForTCPWithDelay_loop X fuel addr duration deferred w = None) /\
    ((k < fuel)%nat ->
       exists w', WaitForTCPWithDelay_loop X fuel addr duration deferred w = Some (None, w') /\
                  probes w' = (probes w + S k)%nat /\ same_state w w').
Proof.
  induction k as [|k IH]; intros fuel deferred w Hfail Hok.
  - rewrite Nat.add_0_r in Hok. split; intros Hfuel.
    + replace fuel with O by lia. reflexivity.
    + destruct fuel as [|fuel]; [lia|]. cbn [WaitForTCPWithDelay_loop].
      destruct (net_probe X addr (probes w)); try discriminate Hok.
      all: eexists; split; [reflexivity|]; rewrite probes_run_deferred;
        cbn [probes logged probed]; split; [lia|].
      all: eapply same_state_trans; [|apply same_state_run_deferred].
      all: unfold same_state; cbn [files procs helper logged probed]; auto.
  - pose proof (Hfail O ltac:(lia)) as H0. unfold probe_fails in H0.
    rewrite Nat.add_0_r in H0.
    assert (Hstep : forall w1 deferred',
               probes w1 = S (probes w) -> same_state w w1 ->
               ((fuel <= S k)%nat ->
                  match fuel with
                  | O => None
                  | S fuel' => WaitForTCPWithDelay_loop X fuel' addr duration deferred' w1
                  end = None) /\
               ((S k < fuel)%nat ->
                  exists w',
                    match fuel with
                    | O => None
                    | S fuel' => WaitForTCPWithDelay_loop X fuel' addr duration deferred' w1
                    end = Some (None, w') /\
                    probes w' = (probes w + S (S k))%nat /\ same_state w w')).
    { intros w1 deferred' Hp Hs. destruct fuel as [|fuel].
      - split; [reflexivity|lia].
      - destruct (IH fuel deferred' w1) as [Hnone Hsome].
        + intros j Hj. unfold probe_fails. rewrite Hp.
          replace (S (probes w) + j)%nat with (probes w + S j)%nat by lia.
          apply Hfail. lia.
        + rewrite Hp. replace (S (probes w) + k)%nat with (probes w + S k)%nat by lia.
          exact Hok.
        + split; intros Hfuel.
          * apply Hnone. lia.
          * destruct (Hsome ltac:(lia)) as (w' & Hrun & Hpr & Hs').
            exists w'. split; [exact Hrun|]. split; [lia|].
            eapply same_state_trans; eassumption. }
    destruct fuel as [|fuel]; [split; [reflexivity|lia]|].
    cbn [WaitForTCPWithDelay_loop].
    destruct (net_probe X addr (probes w)); try discriminate H0.
    + apply (Hstep _ deferred); [reflexivity|].
      unfold same_state; cbn [files procs helper logged probed]; auto.
    + apply (Hstep _ (S deferred)); [reflexivity|].
      unfold same_state; cbn [files procs helper logged probed]; auto.
Qed.

(** C8, as amended.  The loop of WaitForTCPWithDelay has no iteration
    bound: it ends exactly when a probe succeeds.  When probe number k+1 is
    the first to succeed it returns nil after exactly k+1 probes; while
    every probe fails it does not return, however many iterations it is
    given. *)
Theorem WaitForTCPWithDelay_until_reachable
    (X : Externals) (addr : string) (duration : Z) (w : World) :
  ((forall j, probe_fails X addr w j) ->
   forall fuel, WaitForTCPWithDelay X fuel addr duration w = None) /\
  (forall k,
     (forall j, (j < k)%nat -> probe_fails X addr w j) ->
     probe_succeeds (net_probe X addr (probes w + k)) = true ->
     forall fuel,
       ((fuel <= k)%nat -> WaitForTCPWithDelay X fuel addr duration w = None) /\
       ((k < fuel)%nat ->
          exists w', WaitForTCPWithDelay X fuel addr duration w = Some (None, w') /\
                     probes w' = (probes w + S k)%nat)).
Proof.
  unfold WaitForTCPWithDelay. split.
  - intros Hfail fuel. apply WaitForTCPWithDelay_loop_never. exact Hfail.
  - intros k Hfail Hok fuel.
    destruct (WaitForTCPWithDelay_loop_first X addr duration k fuel O w Hfail Hok)
      as [Hnone Hsome].
    split; [exact Hnone|]. intros Hfuel.
    destruct (Hsome Hfuel) as (w' & Hrun & Hp & _). exists w'. auto.
Qed.

Lemma WaitForTCPWithDelay_until_reachable_witness :
  let X := Sample.with_probe
             (fun _ n => if (n <? 2)%nat then DialFails (ErrNew "connection refused")
                         else ReadEOF) Sample.calm in
  let w := Sample.world ∅ ∅ (Sample.helper_in state.Stopped) in
  WaitForTCPWithDelay X 2 "192.168.64.2:22" time_Second w = None /\
  exists w', WaitForTCPWithDelay X 3 "192.168.64.2:22" time_Second w = Some (None, w') /\
             probes w' = 3%nat.
Proof.
  cbn zeta.
  pose proof (proj2 (WaitForTCPWithDelay_until_reachable
                (Sample.with_probe
                   (fun _ n => if (n <? 2)%nat then DialFails (ErrNew "connection refused")
                               else ReadEOF) Sample.calm)
                "192.168.64.2:22" time_Second
                (Sample.world ∅ ∅ (Sample.helper_in state.Stopped))) 2%nat) as H.
  assert (Hfail : forall j, (j < 2)%nat ->
            probe_fails (Sample.with_probe
                   (fun _ n => if (n <? 2)%nat then DialFails (ErrNew "connection refused")
                               else ReadEOF) Sample.calm) "192.168.64.2:22"
              (Sample.world ∅ ∅ (Sample.helper_in state.Stopped)) j).
  { intros j Hj. unfold probe_fails. cbn.
    destruct j as [|[|j]]; [reflexivity|reflexivity|lia]. }
  split.
  - apply (H Hfail eq_refl 2%nat). lia.
  - apply (H Hfail eq_refl 3%nat). lia.
Defined.

(** C8, as stated, fails: against an endpoint that never accepts a
    connection, no number of iterations lets the loop return. *)
Lemma WaitForTCPWithDelay_unreachable_never_returns :
  let X := Sample.with_probe (fun _ _ => DialFails (ErrNew "connection refused"))
             Sample.calm in
  let w := Sample.world ∅ ∅ (Sample.helper_in state.Stopped) in
  ~ exists fuel r, WaitForTCPWithDelay X fuel "192.168.64.2:22" time_Second w = Some r.
Proof.
  cbn zeta. intros (fuel & r & H).
  unfold WaitForTCPWithDelay in H.
  rewrite WaitForTCPWithDelay_loop_never in H; [discriminate H|].
  intros j. reflexivity.
Qed.

(** ** The disk image *)

Lemma int64_small (z : Z) : - 2 ^ 63 <= z < 2 ^ 63 -> int64 z = z.
Proof.
  intros H. unfold int64. rewrite Z.mod_small; lia.
Qed.

Lemma length_truncated (size : Z) (data : list byte) :
  0 <= size -> Z.of_nat (length (truncated size data)) = size.
Proof.
  intros H. unfold truncated.
  rewrite length_app, length_take, length_replicate. lia.
Qed.

Lemma truncated_fits (size : Z) (data : list byte) :
  Z.of_nat (length data) <= size ->
  truncated size data = data ++ replicate (Z.to_nat size - length data) x00.
Proof.
  intros H. unfold truncated. rewrite take_ge by lia. reflexivity.
Qed.

(** One header on a writer that owes no content. *)
Lemma tar_WriteHeader_ok (X : Externals) (tw : tar_Writer) (hdr : tar.Header)
    (blk : list byte) :
  tw_err tw = None -> tw_nb tw <= 0 ->
  tar_block X (tar_promote hdr) = Ok blk ->
  tar_WriteHeader X tw hdr =
    (let size := if tar_isHeaderOnlyType (tar.Typeflag (tar_promote hdr)) then 0
                 else tar.Size (tar_promote hdr) in
     {| tw_buf := (tw_buf tw ++ replicate (Z.to_nat (tw_pad tw)) x00) ++ blk;
        tw_nb := size; tw_pad := tar_blockPadding size; tw_err := None |}, None).
Proof.
  intros Herr Hnb Hblk. unfold tar_WriteHeader, tar_Flush. rewrite Herr.
  destruct (0 <? tw_nb tw)%Z eqn:E; [apply Z.ltb_lt in E; lia|].
  cbn [tw_buf]. rewrite Hblk. reflexivity.
Qed.

(** Writing exactly the bytes the header announced. *)
Lemma tar_Write_exact (tw : tar_Writer) (data : list byte) :
  tw_err tw = None -> tw_nb tw = Z.of_nat (length data) ->
  tar_Write tw data =
    ({| tw_buf := tw_buf tw ++ data; tw_nb := 0; tw_pad := tw_pad tw;
        tw_err := None |}, None).
Proof.
  intros Herr Hnb. unfold tar_Write. rewrite Herr, Hnb, Z.ltb_irrefl, Z.sub_diag.
  reflexivity.
Qed.

Lemma tar_Close_ok (tw : tar_Writer) :
  tw_err tw = None -> tw_nb tw <= 0 ->
  tar_Close tw =
    ({| tw_buf := (tw_buf tw ++ replicate (Z.to_nat (tw_pad tw)) x00)
                    ++ replicate 1024 x00;
        tw_nb := tw_nb tw; tw_pad := 0;
        tw_err := Some tar_ErrWriteAfterClose |}, None).
Proof.
  intros Herr Hnb. unfold tar_Close, tar_Flush. rewrite Herr.
  destruct (0 <? tw_nb tw)%Z eqn:E; [apply Z.ltb_lt in E; lia|]. reflexivity.
Qed.

(** generateDiskImage up to the point where the image is written: with a
    readable public key and headers that can be encoded, the buffer holds
    the archive of the four entries. *)
Lemma generateDiskImage_archive (X : Externals) (d : Driver) (size : Z) (w : World)
    (pubKey b1 b2 b3 b4 : list byte) :
  files w !! publicSSHKeyPath X d = Some pubKey ->
  fs_fault X OpRead (publicSSHKeyPath X d) = None ->
  tar_block X sentinel_header = Ok b1 ->
  tar_block X ssh_dir_header = Ok b2 ->
  tar_block X (authorized_keys_header ".ssh/authorized_keys" pubKey) = Ok b3 ->
  tar_block X (authorized_keys_header ".ssh/authorized_keys2" pubKey) = Ok b4 ->
  generateDiskImage X d size w =
    (e <- os_WriteFile X (diskPath X d)
            (tar_archive [(b1, String.list_byte_of_string magicString); (b2, []);
                          (b3, pubKey); (b4, pubKey)]) ;;
     match e with
     | Some _ => ret None
     | None =>
         e <- os_Truncate X (diskPath X d) (int64 (int64 size * int64 (1024 * 1024))) ;;
         match e with
         | Some _ => ret None
         | None => ret None
         end
     end)%go (logged (EvReadFile (publicSSHKeyPath X d)) w).
Proof.
  intros Hkey Hread H1 H2 H3 H4.
  unfold generateDiskImage.
  rewrite (tar_WriteHeader_ok X _ _ b1) by (try exact H1; cbn; (reflexivity || lia)).
  cbn [or_return]. rewrite tar_Write_exact by reflexivity.
  cbn [or_return]. rewrite (tar_WriteHeader_ok X _ _ b2) by (try exact H2; cbn; (reflexivity || lia)).
  cbn [or_return]. unfold os_ReadFile at 1. run. rewrite Hkey, Hread. run.
  rewrite (tar_WriteHeader_ok X _ _ b3) by (try exact H3; cbn; (reflexivity || lia)).
  cbn [or_return]. rewrite tar_Write_exact by reflexivity.
  cbn [or_return]. rewrite (tar_WriteHeader_ok X _ _ b4) by (try exact H4; cbn; (reflexivity || lia)).
  cbn [or_return]. rewrite tar_Write_exact by reflexivity.
  cbn [or_return]. rewrite tar_Close_ok by (cbn; (reflexivity || lia)).
  cbn [or_return tw_buf tw_pad tw_nb].
  match goal with
  | |- context [os_WriteFile X _ ?buf] =>
      replace buf with
        (tar_archive [(b1, String.list_byte_of_string magicString); (b2, []);
                      (b3, pubKey); (b4, pubKey)])
  end; [reflexivity|].
  unfold tar_archive, tar_entry. cbn [map concat fst snd].
  change (tw_buf tar_NewWriter ++ replicate (Z.to_nat (tw_pad tar_NewWriter)) x00)
    with (@nil byte).
  rewrite <- !app_assoc, ?app_nil_r. cbn [app]. reflexivity.
Qed.

(** C6, as amended.  When the public key can be read, the four headers can
    be encoded, the image file can be written and truncated, and size is
    not negative with size * 1,048,576 within int64, generateDiskImage
    leaves at the disk path the first size * 1,048,576 bytes of the tar
    archive extended with zero bytes: the file has exactly that length, and
    whenever the archive is no longer than that, the file is the archive (the
    sentinel entry named by and holding the sentinel string, the `.ssh`
    directory with mode 0700, `.ssh/authorized_keys` and
    `.ssh/authorized_keys2` holding the key bytes, in this order) followed
    by zero bytes. *)
Theorem generateDiskImage_image (X : Externals) (d : Driver) (size : Z) (w : World)
    (pubKey b1 b2 b3 b4 : list byte) :
  files w !! publicSSHKeyPath X d = Some pubKey ->
  fs_fault X OpRead (publicSSHKeyPath X d) = None ->
  tar_block X sentinel_header = Ok b1 ->
  tar_block X ssh_dir_header = Ok b2 ->
  tar_block X (authorized_keys_header ".ssh/authorized_keys" pubKey) = Ok b3 ->
  tar_block X (authorized_keys_header ".ssh/authorized_keys2" pubKey) = Ok b4 ->
  fs_fault X OpWrite (diskPath X d) = None ->
  fs_fault X OpTruncate (diskPath X d) = None ->
  0 <= size -> size * 1048576 < 2 ^ 63 ->
  let archive := tar_archive [(b1, String.list_byte_of_string magicString); (b2, []);
                              (b3, pubKey); (b4, pubKey)] in
  exists w' image,
    generateDiskImage X d size w = Ret None w' /\
    files w' !! diskPath X d = Some image /\
    image = truncated (size * 1048576) archive /\
    Z.of_nat (length image) = size * 1048576 /\
    (Z.of_nat (length archive) <= size * 1048576 ->
     image = archive ++ replicate (Z.to_nat (size * 1048576) - length archive) x00).
Proof.
  intros Hkey Hread H1 H2 H3 H4 Hwrite Htrunc Hsize Hmax archive.
  rewrite (generateDiskImage_archive X d size w pubKey b1 b2 b3 b4) by assumption.
  fold archive. unfold os_WriteFile, os_Truncate. run.
  rewrite Hwrite. run. rewrite Htrunc. run.
  rewrite (int64_small size) by lia.
  rewrite (int64_small (1024 * 1024)) by lia.
  change (1024 * 1024) with 1048576.
  rewrite (int64_small (size * 1048576)) by lia.
  destruct (size * 1048576 <? 0)%Z eqn:E; [apply Z.ltb_lt in E; lia|]. run.
  rewrite lookup_insert_eq. run.
  eexists. exists (truncated (size * 1048576) archive).
  split; [reflexivity|]. cbn [files].
  split; [apply lookup_insert_eq|]. split; [reflexivity|].
  split; [apply length_truncated; lia|].
  intros Hfits. apply truncated_fits. exact Hfits.
Qed.

Lemma generateDiskImage_image_witness :
  exists w' image,
    generateDiskImage Sample.calm Sample.d_nat 1
      (Sample.world Sample.key_fs ∅ (Sample.helper_in state.Stopped)) = Ret None w' /\
    files w' !! Sample.disk = Some image /\
    Z.of_nat (length image) = 1048576.
Proof.
  edestruct (generateDiskImage_image Sample.calm Sample.d_nat 1
               (Sample.world Sample.key_fs ∅ (Sample.helper_in state.Stopped)))
    as (w' & image & Hrun & Hfile & _ & Hlen & _).
  - vm_compute. reflexivity.
  - reflexivity.
  - vm_compute. reflexivity.
  - vm_compute. reflexivity.
  - vm_compute. reflexivity.
  - vm_compute. reflexivity.
  - reflexivity.
  - reflexivity.
  - lia.
  - lia.
  - exists w', image. split; [exact Hrun|]. split; [exact Hfile|exact Hlen].
Defined.

(** C6, as stated, fails: for size 0 every call succeeds and the image is
    the empty file, which holds no entry of the archive. *)
Lemma generateDiskImage_size_zero_is_empty :
  exists w',
    generateDiskImage Sample.calm Sample.d_nat 0
      (Sample.world Sample.key_fs ∅ (Sample.helper_in state.Stopped)) = Ret None w' /\
    files w' !! Sample.disk = Some [].
Proof.
  eexists. split; [vm_compute; reflexivity|]. vm_compute. reflexivity.
Qed.

(** An unreadable public key is reported as an error, whatever else holds. *)
Lemma generateDiskImage_unreadable_key (X : Externals) (d : Driver) (size : Z) (w : World) :
  files w !! publicSSHKeyPath X d = None \/
  fs_fault X OpRead (publicSSHKeyPath X d) <> None ->
  exists err w', generateDiskImage X d size w = Ret (Some err) w'.
Proof.
  intros Hkey. unfold generateDiskImage.
  destruct (tar_WriteHeader X tar_NewWriter _) as [tw1 [e1|]]; cbn [or_return];
    [do 2 eexists; reflexivity|].
  destruct (tar_Write tw1 _) as [tw2 [e2|]]; cbn [or_return];
    [do 2 eexists; reflexivity|].
  destruct (tar_WriteHeader X tw2 _) as [tw3 [e3|]]; cbn [or_return];
    [do 2 eexists; reflexivity|].
  unfold os_ReadFile. run.
  destruct (files w !! publicSSHKeyPath X d) as [data|]; run;
    [|do 2 eexists; reflexivity].
  destruct Hkey as [Hkey|Hkey]; [discriminate Hkey|].
  destruct (fs_fault X OpRead (publicSSHKeyPath X d)); [|congruence].
  run. do 2 eexists; reflexivity.
Qed.

(** An error of os.WriteFile is answered with [return nil]: the call
    reports success, and the disk path is as the failed write left it: as
    before when the file could not be opened, otherwise created or emptied
    and holding the bytes of the archive written before the failure. *)
Lemma generateDiskImage_drops_write_errors (X : Externals) (d : Driver) (size : Z)
    (w : World) (pubKey b1 b2 b3 b4 : list byte) (e : error) :
  files w !! publicSSHKeyPath X d = Some pubKey ->
  fs_fault X OpRead (publicSSHKeyPath X d) = None ->
  tar_block X sentinel_header = Ok b1 ->
  tar_block X ssh_dir_header = Ok b2 ->
  tar_block X (authorized_keys_header ".ssh/authorized_keys" pubKey) = Ok b3 ->
  tar_block X (authorized_keys_header ".ssh/authorized_keys2" pubKey) = Ok b4 ->
  fs_fault X OpWrite (diskPath X d) = Some e ->
  exists w',
    generateDiskImage X d size w = Ret None w' /\
    ~ In (EvTruncate (diskPath X d) (int64 (int64 size * int64 (1024 * 1024))))
         (new_events w w') /\
    files w' =
      match write_progress X (diskPath X d) with
      | None => files w
      | Some n =>
          <[diskPath X d :=
              take n (tar_archive [(b1, String.list_byte_of_string magicString); (b2, []);
                                   (b3, pubKey); (b4, pubKey)])]> (files w)
      end.
Proof.
  intros Hkey Hread H1 H2 H3 H4 Hwrite.
  rewrite (generateDiskImage_archive X d size w pubKey b1 b2 b3 b4) by assumption.
  unfold os_WriteFile. run. rewrite Hwrite.
  destruct (write_progress X (diskPath X d)) as [n|]; run.
  all: eexists; split; [reflexivity|]; split; [|reflexivity].
  all: erewrite new_events_app
    by (cbn [trace logged]; rewrite <- app_assoc; reflexivity).
  all: cbn; intros [H|[H|[]]]; discriminate H.
Qed.

(** C7 at a failing input: the disk image is created but cannot be filled
    ("no space left on device"), and generateDiskImage returns nil, with an
    empty file where the image should be. *)
Theorem generateDiskImage_write_failure_returns_nil :
  let X := Sample.with_write_progress (fun _ => Some 0%nat)
             (Sample.with_fs_fault
                (fun op _ => match op with
                             | OpWrite => Some (ErrNew "no space left on device")
                             | _ => None
                             end) Sample.calm) in
  let w := Sample.world Sample.key_fs ∅ (Sample.helper_in state.Stopped) in
  exists w',
    generateDiskImage X Sample.d_nat 20000 w = Ret None w' /\
    In (EvWriteFile Sample.disk) (trace w') /\
    files w' !! Sample.disk = Some [].
Proof.
  cbn zeta. eexists. split; [vm_compute; reflexivity|].
  split; [vm_compute; tauto|vm_compute; reflexivity].
Qed.

(** The same when the image cannot even be created ("permission denied"):
    generateDiskImage returns nil and there is no image on disk. *)
Example generateDiskImage_open_failure_returns_nil :
  let X := Sample.with_fs_fault
             (fun op _ => match op with
                          | OpWrite => Some (ErrNew "permission denied")
                          | _ => None
                          end) Sample.calm in
  let w := Sample.world Sample.key_fs ∅ (Sample.helper_in state.Stopped) in
  exists w',
    generateDiskImage X Sample.d_nat 20000 w = Ret None w' /\
    In (EvWriteFile Sample.disk) (trace w') /\
    files w' !! Sample.disk = None.
Proof.
  cbn zeta. eexists. split; [vm_compute; reflexivity|].
  split; [vm_compute; tauto|vm_compute; reflexivity].
Qed.

(** The same for a failing truncation: the image keeps the length of the
    archive, and generateDiskImage returns nil. *)
Example generateDiskImage_truncate_failure_returns_nil :
  let X := Sample.with_fs_fault
             (fun op _ => match op with
                          | OpTruncate => Some (ErrNew "file too large")
                          | _ => None
                          end) Sample.calm in
  let w := Sample.world Sample.key_fs ∅ (Sample.helper_in state.Stopped) in
  exists w' image,
    generateDiskImage X Sample.d_nat 20000 w = Ret None w' /\
    files w' !! Sample.disk = Some image /\
    length image = 4608%nat.
Proof.
  cbn zeta. do 2 eexists. split; [vm_compute; reflexivity|].
  split; vm_compute; reflexivity.
Qed.

(** ** More on the state queries *)

Ltac state_query_cases :=
  unfold GetState, getVfkitState, getVmnetHelperState, vmnet_Helper_GetState,
         process_ReadPidfile, process_Exists, os_Remove;
  branches.

(** X1.  GetState reports Running without error only when the PID file
    names a live process called vfkit, or the driver has a network helper
    and that helper reports Running. *)
Theorem GetState_Running_sound (X : Externals) (d : Driver) (w w' : World) :
  GetState X d w = Ret (state.Running, None) w' ->
  (exists data pid,
     files w !! pidfilePath X d = Some data /\
     parse_pid X data = Ok pid /\
     procs w !! pid = Some "vfkit") \/
  (VmnetHelper d <> None /\ helper_state (helper w) = state.Running).
Proof.
  state_query_cases.
  all: intros H; try discriminate H.
  all: repeat match goal with
         | Hb : bool_decide (_ = _) = true |- _ => apply bool_decide_eq_true in Hb
         | Hb : bool_decide (_ = _) = false |- _ => apply bool_decide_eq_false in Hb
         end;
       try discriminate; subst.
  all: try (left; do 2 eexists; repeat split; eassumption).
  all: inversion H; subst; cbn [helper logged] in *.
  all: try congruence.
  all: try (right; split; [discriminate|congruence]).
  apply negb_false_iff, bool_decide_eq_true in Heqb. subst.
  left. exists l, a. auto.
Qed.

Lemma GetState_Running_sound_witness :
  procs (Sample.world Sample.stale_fs {[ 4242 := "vfkit" ]} (Sample.helper_in state.Stopped))
    !! 4242 = Some "vfkit".
Proof.
  destruct (GetState_Running_sound Sample.calm Sample.d_nat
              (Sample.world Sample.stale_fs {[ 4242 := "vfkit" ]}
                 (Sample.helper_in state.Stopped))
              (final_world (GetState Sample.calm Sample.d_nat
                 (Sample.world Sample.stale_fs {[ 4242 := "vfkit" ]}
                    (Sample.helper_in state.Stopped)))))
    as [(data & pid & Hf & Hp & Hproc)|[Hh _]].
  - vm_compute. reflexivity.
  - vm_compute in Hf. injection Hf as <-. vm_compute in Hp. injection Hp as <-.
    exact Hproc.
  - exfalso. apply Hh. reflexivity.
Defined.

(** What GetState leaves behind: processes, helper and counters as they
    were, and the files as they were or without the PID file. *)
Lemma GetState_effects (X : Externals) (d : Driver) (w : World) :
  let w' := final_world (GetState X d w) in
  procs w' = procs w /\ helper w' = helper w /\
  posts w' = posts w /\ lookups w' = lookups w /\ probes w' = probes w /\
  (files w' = files w \/
   stale_pidfile X d w /\ fs_fault X OpRemove (pidfilePath X d) = None /\
   files w' = delete (pidfilePath X d) (files w)).
Proof.
  cbn zeta. unfold stale_pidfile. state_query_cases.
  all: cbn [procs helper posts lookups probes files logged].
  all: repeat (split; [reflexivity|]).
  all: try (left; reflexivity).
  all: right; split; [|split; reflexivity].
  all: do 2 eexists; repeat split; try eassumption; try reflexivity.
  all: try congruence.
  all: apply negb_true_iff, bool_decide_eq_false in Heqb; congruence.
Qed.

(** The answer of GetState depends on the PID file, the processes and the
    helper only. *)
Lemma GetState_answer_ext (X : Externals) (d : Driver) (w1 w2 : World) :
  files w1 !! pidfilePath X d = files w2 !! pidfilePath X d ->
  procs w1 = procs w2 -> helper w1 = helper w2 ->
  returned (GetState X d w1) = returned (GetState X d w2).
Proof.
  intros Hf Hp Hh.
  unfold GetState, getVfkitState, getVmnetHelperState, vmnet_Helper_GetState,
         process_ReadPidfile, process_Exists, os_Remove.
  destruct w1 as [f1 p1 h1 n1 l1 q1 t1], w2 as [f2 p2 h2 n2 l2 q2 t2].
  cbn [files procs helper] in Hf, Hp, Hh. subst.
  branches; cbn [returned]; try reflexivity; try congruence.
Qed.

Lemma returned_getVmnetHelperState (d : Driver) (w : World) :
  returned (getVmnetHelperState d w) =
    Some match VmnetHelper d with
         | None => (state.Stopped, None)
         | Some _ =>
             match helper_query_err (helper w) with
             | Some e => (state.Error, Some e)
             | None => (helper_state (helper w), None)
             end
         end.
Proof.
  unfold getVmnetHelperState, vmnet_Helper_GetState.
  destruct (VmnetHelper d); run; [|reflexivity].
  destruct (helper_query_err (helper w)); reflexivity.
Qed.

(** X2.  GetState touches nothing but the hypervisor PID file: processes,
    helper and every other file are as before, and the PID file is either
    as before or gone, the latter only when it was stale. *)
Theorem GetState_only_removes_pidfile (X : Externals) (d : Driver) (w : World) :
  let w' := final_world (GetState X d w) in
  procs w' = procs w /\ helper w' = helper w /\
  (forall path, path <> pidfilePath X d -> files w' !! path = files w !! path) /\
  (files w' !! pidfilePath X d = files w !! pidfilePath X d \/
   files w' !! pidfilePath X d = None /\ stale_pidfile X d w).
Proof.
  destruct (GetState_effects X d w) as (Hp & Hh & _ & _ & _ & [Hf|(Hs & Hrm & Hf)]);
    cbn zeta; rewrite Hf; repeat split; auto.
  - intros path Hne. apply lookup_delete_ne. congruence.
  - right. split; [apply lookup_delete_eq|exact Hs].
Qed.

(** X3.  Asking GetState twice in a row gives the same answer twice: the
    cleanup done by the first query never changes what the second one
    reports. *)
Theorem GetState_idempotent (X : Externals) (d : Driver) (w : World) :
  returned (GetState X d (final_world (GetState X d w))) = returned (GetState X d w).
Proof.
  destruct (GetState_effects X d w) as (Hp & Hh & _ & _ & _ & [Hf|(Hs & Hrm & Hf)]).
  - apply GetState_answer_ext; [rewrite Hf; reflexivity|exact Hp|exact Hh].
  - rewrite GetState_no_pidfile by (rewrite Hf; apply lookup_delete_eq).
    rewrite Hh.
    destruct (getVfkitState_stale X d w Hs) as (w1 & Hrun & _ & Hh1 & _).
    unfold GetState at 1. unfold bind. rewrite Hrun.
    rewrite bool_decide_eq_false_2 by discriminate.
    rewrite returned_getVmnetHelperState, Hh1. reflexivity.
Qed.

(** ** More on IP resolution *)

Lemma has_prefix_spec (p s : string) :
  has_prefix p s = true <-> exists q, s = p +:+ q.
Proof.
  revert s. induction p as [|a p IH]; intros s.
  - split; [intros _; exists s; reflexivity|reflexivity].
  - destruct s as [|b s].
    + split; [discriminate|]. intros (q & Hq). discriminate Hq.
    + cbn [has_prefix]. destruct (Ascii.eqb_spec a b) as [->|Hne].
      * rewrite IH. split; intros (q & Hq); exists q.
        -- rewrite Hq. reflexivity.
        -- change (String b p +:+ q) with (String b (p +:+ q)) in Hq.
           congruence.
      * split; [discriminate|]. intros (q & Hq).
        change (String a p +:+ q) with (String a (p +:+ q)) in Hq. congruence.
Qed.

(** The embedding of strings.Contains finds exactly the contiguous
    substrings. *)
Lemma strings_Contains_spec (s sub : string) :
  strings_Contains s sub = true <-> exists p q, s = p +:+ sub +:+ q.
Proof.
  induction s as [|a s IH].
  - cbn [strings_Contains]. destruct (has_prefix sub "") eqn:E.
    + split; [intros _|reflexivity].
      apply has_prefix_spec in E as (q & Hq). exists "", q. exact Hq.
    + split; [discriminate|]. intros (p & q & Hpq).
      destruct p as [|b p]; [|discriminate Hpq].
      assert (has_prefix sub "" = true) by (apply has_prefix_spec; exists q; exact Hpq).
      congruence.
  - cbn [strings_Contains]. destruct (has_prefix sub (String a s)) eqn:E.
    + split; [intros _|reflexivity].
      apply has_prefix_spec in E as (q & Hq). exists "", q. exact Hq.
    + rewrite IH. split.
      * intros (p & q & ->). exists (String a p), q. reflexivity.
      * intros (p & q & Hpq). destruct p as [|b p].
        -- assert (has_prefix sub (String a s) = true)
             by (apply has_prefix_spec; exists q; exact Hpq).
           congruence.
        -- change (String b p +:+ sub +:+ q) with (String b (p +:+ sub +:+ q)) in Hpq.
           injection Hpq as _ ->. exists p, q. reflexivity.
Qed.

(** X4.  isBootpdError holds exactly for the errors whose message has
    "could not find an IP address" as a contiguous part. *)
Theorem isBootpdError_spec (err : error) :
  isBootpdError err = true <->
  exists before after,
    Error err = before +:+ "could not find an IP address" +:+ after.
Proof. apply strings_Contains_spec. Qed.

(** X5.  The prefix that getIP puts in front of a lookup error neither hides
    nor fakes the bootpd signature: the error that setupIP classifies is a
    bootpd error exactly when the lookup's own error is. *)
Theorem isBootpdError_getIP_wrap (err : error) :
  isBootpdError (errors_Wrap err "failed to get IP address") = isBootpdError err.
Proof.
  unfold isBootpdError, errors_Wrap. cbn [Error].
  generalize (Error err) as m. intros m.
  lazy beta iota delta [String.append]. cbn. reflexivity.
Qed.

(** What setupIP changes, and where a stored address comes from. *)
Lemma setupIP_effects (X : Externals) (d : Driver) (mac : string) (w : World) :
  let o := setupIP X d mac w in
  same_state w (final_world o) /\
  posts (final_world o) = posts w /\ probes (final_world o) = probes w /\
  forall d' r,
    returned o = Some (d', r) ->
    exists ip,
      d' = set_IPAddress d ip /\
      (r = None ->
       exists k, (k < retry_budget X)%nat /\
                 GetIPAddressByMACAddress X mac (lookups w + k) = (ip, None)).
Proof.
  cbn zeta.
  destruct (first_success_or_all_fail X mac w (retry_budget X))
    as [(k & Hk & Hfail & Hok)|Hall].
  - destruct (GetIPAddressByMACAddress X mac (lookups w + k)) as [ip o] eqn:E.
    cbn in Hok. subst o.
    destruct (setupIP_loop_success X mac k (retry_budget X) d None w ip Hk Hfail E)
      as (w' & Hrun & _ & _ & Hs & Hp & Hq).
    unfold setupIP, bind. fold (retry_budget X). rewrite Hrun.
    cbn [snd fst ret final_world returned]. unfold ret. cbn [final_world returned].
    repeat (split; [assumption|]).
    intros d' r [= <- <-]. exists ip. split; [reflexivity|].
    intros _. exists k. auto.
  - destruct (retry_budget_pos X) as (m & Hm).
    destruct (setupIP_loop_exhausted X mac m d None w) as
      (ip & e & w1 & _ & Hrun & _ & _ & Hs & Hp & Hq).
    { intros j Hj. apply Hall. lia. }
    unfold setupIP, bind. fold (retry_budget X). rewrite Hm, Hrun.
    cbn [snd fst]. unfold ret, log_event, exit_Error.
    destruct (negb (isBootpdError (ErrWrap "failed to get IP address" e)));
      [|destruct (firewall_UnblockBootpd X)];
      cbn [final_world returned files procs helper posts probes logged].
    all: unfold same_state in *; cbn [files procs helper logged].
    all: repeat (split; [tauto|]).
    all: intros d' r Hr; try discriminate Hr; injection Hr as <- <-.
    all: exists ip; split; [reflexivity|discriminate].
Qed.

(** X6.  setupIP changes neither files nor processes nor the helper, and of
    the driver only the stored IP address; when it returns nil, that address
    is the one a lookup within the budget returned without error. *)
Theorem setupIP_only_sets_IPAddress (X : Externals) (d : Driver) (mac : string) (w : World) :
  let o := setupIP X d mac w in
  same_state w (final_world o) /\
  posts (final_world o) = posts w /\ probes (final_world o) = probes w /\
  forall d' r,
    returned o = Some (d', r) ->
    exists ip,
      d' = set_IPAddress d ip /\
      (r = None ->
       exists k, (k < retry_budget X)%nat /\
                 GetIPAddressByMACAddress X mac (lookups w + k) = (ip, None)).
Proof. exact (setupIP_effects X d mac w). Qed.

(** ** More on Stop and Kill *)

(** The calls of a whole Stop. *)
Lemma Stop_events (X : Externals) (d : Driver) (w : World) :
  exists fallback helper_part,
    new_events w (final_world (Stop X d w))
      = state_request X d "Stop" :: fallback ++ helper_part /\
    fallback_shape X d "Stop" w EvTerminate fallback /\
    (helper_part = [] \/ helper_part = [EvHelperStop]).
Proof.
  destruct (stopVfkit_trace X d w) as (r & w1 & fallback & Hrun & Ht & _ & Hshape).
  exists fallback. unfold Stop, bind. rewrite Hrun.
  destruct r as [err|].
  - exists []. split; [|split; [exact Hshape|left; reflexivity]].
    unfold ret. cbn [final_world]. apply new_events_app.
    rewrite Ht, app_nil_r. reflexivity.
  - unfold stopVmnetHelper. destruct (VmnetHelper d) as [h|].
    + destruct (vmnet_Helper_Stop_trace h w1) as (r2 & w2 & Hrun2 & Ht2 & _).
      exists [EvHelperStop]. rewrite Hrun2. cbn [final_world].
      split; [|split; [exact Hshape|right; reflexivity]].
      apply new_events_app. rewrite Ht2, Ht, <- app_assoc. reflexivity.
    + exists []. split; [|split; [exact Hshape|left; reflexivity]].
      unfold ret. cbn [final_world]. apply new_events_app.
      rewrite Ht, app_nil_r. reflexivity.
Qed.

Lemma Kill_events (X : Externals) (d : Driver) (w : World) :
  exists fallback helper_part,
    new_events w (final_world (Kill X d w))
      = state_request X d "HardStop" :: fallback ++ helper_part /\
    fallback_shape X d "HardStop" w EvKill fallback /\
    (helper_part = [] \/ helper_part = [EvHelperKill]).
Proof.
  destruct (killVfkit_trace X d w) as (r & w1 & fallback & Hrun & Ht & _ & Hshape).
  exists fallback. unfold Kill, bind. rewrite Hrun.
  destruct r as [err|].
  - exists []. split; [|split; [exact Hshape|left; reflexivity]].
    unfold ret. cbn [final_world]. apply new_events_app.
    rewrite Ht, app_nil_r. reflexivity.
  - unfold killVmnetHelper. destruct (VmnetHelper d) as [h|].
    + destruct (vmnet_Helper_Kill_trace h w1) as (r2 & w2 & Hrun2 & Ht2 & _).
      exists [EvHelperKill]. rewrite Hrun2. cbn [final_world].
      split; [|split; [exact Hshape|right; reflexivity]].
      apply new_events_app. rewrite Ht2, Ht, <- app_assoc. reflexivity.
    + exists []. split; [|split; [exact Hshape|left; reflexivity]].
      unfold ret. cbn [final_world]. apply new_events_app.
      rewrite Ht, app_nil_r. reflexivity.
Qed.

(** X7.  Stop never escalates: none of its calls is a HardStop request, a
    Kill signal or a kill of the helper.  Kill never asks gracefully: none of
    its calls is a Stop request, a Terminate signal or a stop of the helper. *)
Theorem Stop_never_forces_Kill_never_asks (X : Externals) (d : Driver) (w : World) :
  Forall (fun ev => forced_only ev = false) (new_events w (final_world (Stop X d w))) /\
  Forall (fun ev => graceful_only ev = false) (new_events w (final_world (Kill X d w))).
Proof.
  split.
  - destruct (Stop_events X d w) as (fallback & hp & -> & Hshape & Hhp).
    unfold fallback_shape in Hshape.
    apply Forall_cons. split; [reflexivity|]. apply Forall_app. split.
    + destruct (channel_answers X d "Stop" w); [subst; constructor|].
      destruct Hshape as (rest & -> & Hrest).
      apply Forall_cons. split; [reflexivity|].
      destruct (pidfile_read X d w); [destruct Hrest as [-> | ->]|subst];
        repeat constructor.
    + destruct Hhp as [-> | ->]; repeat constructor.
  - destruct (Kill_events X d w) as (fallback & hp & -> & Hshape & Hhp).
    unfold fallback_shape in Hshape.
    apply Forall_cons. split; [reflexivity|]. apply Forall_app. split.
    + destruct (channel_answers X d "HardStop" w); [subst; constructor|].
      destruct Hshape as (rest & -> & Hrest).
      apply Forall_cons. split; [reflexivity|].
      destruct (pidfile_read X d w); [destruct Hrest as [-> | ->]|subst];
        repeat constructor.
    + destruct Hhp as [-> | ->]; repeat constructor.
Qed.

(** X8.  With the control channel down and a PID file whose process is
    gone, the hypervisor half of Stop and of Kill returns nil, leaves the
    processes alone and removes the stale PID file, unless the removal
    fails. *)
Theorem shutdown_vfkit_stale_pidfile (X : Externals) (d : Driver) (c : shutdown)
    (w : World) (data : list byte) (pid : Z) :
  channel_answers X d (shutdown_target c) w = false ->
  files w !! pidfilePath X d = Some data ->
  fs_fault X OpRead (pidfilePath X d) = None ->
  parse_pid X data = Ok pid ->
  ps_fault X (shutdown_signal c) pid = None ->
  procs w !! pid <> Some "vfkit" ->
  exists w',
    shutdown_vfkit X d c w = Ret None w' /\
    procs w' = procs w /\ helper w' = helper w /\
    In (EvRemove (pidfilePath X d)) (new_events w w') /\
    files w' = match fs_fault X OpRemove (pidfilePath X d) with
               | Some _ => files w
               | None => delete (pidfilePath X d) (files w)
               end.
Proof.
  intros Hch Hf Hr Hp Hs Hn.
  unfold channel_answers, http_Post in Hch.
  destruct c; cbn [shutdown_vfkit shutdown_target shutdown_signal] in *.
  - unfold stopVfkit. vfkit_shutdown_cases.
    all: try discriminate.
    all: try match goal with
           | B : bool_decide (_ = "vfkit") = true |- _ =>
               apply bool_decide_eq_true in B; subst; congruence
           end.
    all: eexists; split; [reflexivity|]; cbn [procs helper files logged].
    all: repeat (split; [reflexivity|]).
    all: (split; [|reflexivity]).
    all: erewrite new_events_app by (cbn [trace logged]; rewrite <- !app_assoc; reflexivity).
    all: cbn; tauto.
  - unfold killVfkit. vfkit_shutdown_cases.
    all: try discriminate.
    all: try match goal with
           | B : bool_decide (_ = "vfkit") = true |- _ =>
               apply bool_decide_eq_true in B; subst; congruence
           end.
    all: eexists; split; [reflexivity|]; cbn [procs helper files logged].
    all: repeat (split; [reflexivity|]).
    all: (split; [|reflexivity]).
    all: erewrite new_events_app by (cbn [trace logged]; rewrite <- !app_assoc; reflexivity).
    all: cbn; tauto.
Qed.

Lemma shutdown_vfkit_stale_pidfile_witness :
  exists w',
    shutdown_vfkit Sample.calm Sample.d_nat CallKill
      (Sample.world Sample.stale_fs ∅ (Sample.helper_in state.Stopped)) = Ret None w' /\
    files w' = delete Sample.pidfile Sample.stale_fs.
Proof.
  destruct (shutdown_vfkit_stale_pidfile Sample.calm Sample.d_nat CallKill
              (Sample.world Sample.stale_fs ∅ (Sample.helper_in state.Stopped))
              (String.list_byte_of_string "4242") 4242)
    as (w' & Hrun & _ & _ & _ & Hfiles); try reflexivity.
  - vm_compute. congruence.
  - exists w'. split; [exact Hrun|exact Hfiles].
Defined.

(** X9.  With the control channel down and the PID file naming a live vfkit
    process, Stop (and Kill) on a driver whose helper is absent or stopped
    returns nil after signalling the process, and leaves the PID file in
    place; the GetState that follows finds the file stale, answers Stopped
    and removes it. *)
Theorem shutdown_then_GetState (X : Externals) (d : Driver) (c : shutdown)
    (w : World) (data : list byte) (pid : Z) :
  channel_answers X d (shutdown_target c) w = false ->
  files w !! pidfilePath X d = Some data ->
  fs_fault X OpRead (pidfilePath X d) = None ->
  parse_pid X data = Ok pid ->
  ps_fault X (shutdown_signal c) pid = None ->
  ps_fault X PsQuery pid = None ->
  procs w !! pid = Some "vfkit" ->
  VmnetHelper d = None \/
    (helper_state (helper w) = state.Stopped /\ helper_query_err (helper w) = None) ->
  exists w1 w2,
    shutdown_call X d c w = Ret None w1 /\
    procs w1 = delete pid (procs w) /\
    files w1 = files w /\
    GetState X d w1 = Ret (state.Stopped, None) w2 /\
    (fs_fault X OpRemove (pidfilePath X d) = None ->
     files w2 !! pidfilePath X d = None).
Proof.
  intros Hch Hf Hr Hp Hs Hq Hlive Hh.
  assert (Hhalf : exists w0,
            shutdown_vfkit X d c w = Ret None w0 /\
            procs w0 = delete pid (procs w) /\ files w0 = files w /\
            helper w0 = helper w).
  { unfold channel_answers, http_Post in Hch.
    destruct c; cbn [shutdown_vfkit shutdown_target shutdown_signal] in *.
    - unfold stopVfkit. vfkit_shutdown_cases; try discriminate.
      all: try match goal with
             | B : bool_decide (_ = "vfkit") = false |- _ =>
                 apply bool_decide_eq_false in B; congruence
             end.
      all: try congruence.
      all: eexists; split; [reflexivity|]; cbn [procs files helper logged]; auto.
    - unfold killVfkit. vfkit_shutdown_cases; try discriminate.
      all: try match goal with
             | B : bool_decide (_ = "vfkit") = false |- _ =>
                 apply bool_decide_eq_false in B; congruence
             end.
      all: try congruence.
      all: eexists; split; [reflexivity|]; cbn [procs files helper logged]; auto. }
  destruct Hhalf as (w0 & Hrun0 & Hp0 & Hf0 & Hh0).
  assert (Hcall : exists w1,
            shutdown_call X d c w = Ret None w1 /\
            procs w1 = procs w0 /\ files w1 = files w0 /\ helper w1 = helper w0).
  { destruct c; cbn [shutdown_call shutdown_vfkit] in *.
    - unfold Stop, bind. rewrite Hrun0. unfold stopVmnetHelper.
      destruct (VmnetHelper d) as [h|] eqn:Eh; [|exists w0; auto].
      destruct Hh as [Hh|[Hst _]]; [discriminate|].
      destruct (vmnet_Helper_Stop_trace h w0) as (r & w1 & Hrun1 & _ & Hstopped).
      destruct Hstopped as [-> (H1 & H2 & H3)]; [congruence|].
      exists w1. auto.
    - unfold Kill, bind. rewrite Hrun0. unfold killVmnetHelper.
      destruct (VmnetHelper d) as [h|] eqn:Eh; [|exists w0; auto].
      destruct Hh as [Hh|[Hst _]]; [discriminate|].
      destruct (vmnet_Helper_Kill_trace h w0) as (r & w1 & Hrun1 & _ & Hstopped).
      destruct Hstopped as [-> (H1 & H2 & H3)]; [congruence|].
      exists w1. auto. }
  destruct Hcall as (w1 & Hrun1 & Hp1 & Hf1 & Hh1).
  assert (Hstale : stale_pidfile X d w1).
  { exists data, pid. rewrite Hf1, Hf0, Hp1, Hp0, lookup_delete_eq.
    repeat split; auto; discriminate. }
  destruct (getVfkitState_stale X d w1 Hstale) as (w2 & Hrun2 & _ & Hh2 & Hfiles2 & _).
  assert (Hquery : exists w3, getVmnetHelperState d w2 = Ret (state.Stopped, None) w3 /\
                              files w3 = files w2).
  { unfold getVmnetHelperState, vmnet_Helper_GetState.
    destruct (VmnetHelper d) as [h|]; [|exists w2; auto].
    destruct Hh as [Hh|[Hst Hqe]]; [discriminate|].
    run. rewrite Hh2, Hh1, Hh0, Hqe, Hst. eexists. split; reflexivity. }
  destruct Hquery as (w3 & Hrun3 & Hf3).
  exists w1, w3. repeat (split; [congruence|]).
  split.
  - unfold GetState, bind. rewrite Hrun2.
    rewrite bool_decide_eq_false_2 by discriminate. exact Hrun3.
  - intros Hrm. rewrite Hf3, Hfiles2, Hrm. apply lookup_delete_eq.
Qed.

Lemma shutdown_then_GetState_witness :
  exists w1 w2,
    Stop Sample.calm Sample.d_nat
      (Sample.world Sample.stale_fs {[ 4242 := "vfkit" ]} (Sample.helper_in state.Stopped))
    = Ret None w1 /\
    GetState Sample.calm Sample.d_nat w1 = Ret (state.Stopped, None) w2 /\
    files w2 !! Sample.pidfile = None.
Proof.
  destruct (shutdown_then_GetState Sample.calm Sample.d_nat CallStop
              (Sample.world Sample.stale_fs {[ 4242 := "vfkit" ]}
                 (Sample.helper_in state.Stopped))
              (String.list_byte_of_string "4242") 4242)
    as (w1 & w2 & Hstop & _ & _ & Hget & Hgone); try reflexivity.
  - left. reflexivity.
  - exists w1, w2. split; [exact Hstop|]. split; [exact Hget|].
    apply Hgone. reflexivity.
Defined.

(** X10.  When the control channel is down and the fallback fails, because
    the PID file cannot be read (for a reason other than its absence) or
    because the signal cannot be sent (for a reason other than the process
    being gone), Stop and Kill return that very error, change nothing, and
    do not go on to the network helper. *)
Theorem shutdown_fallback_error (X : Externals) (d : Driver) (c : shutdown)
    (w : World) (e : error) :
  channel_answers X d (shutdown_target c) w = false ->
  (pidfile_read X d w = Err e /\ errors_Is_ErrNotExist e = false) \/
  (exists pid, pidfile_read X d w = Ok pid /\
               ps_fault X (shutdown_signal c) pid = Some e /\
               is_ErrProcessDone e = false) ->
  exists w',
    shutdown_call X d c w = Ret (Some e) w' /\
    same_state w w' /\
    Forall (fun ev => ev <> EvHelperStop /\ ev <> EvHelperKill) (new_events w w').
Proof.
  intros Hch Hfail. unfold channel_answers, http_Post, pidfile_read, same_state in *.
  destruct c; cbn [shutdown_call shutdown_target shutdown_signal] in *.
  - unfold Stop, stopVfkit. vfkit_shutdown_cases; try discriminate.
    all: destruct Hfail as [[Hread Hne]|(pid & Hread & Hsig & Hdone)];
      try discriminate; try congruence.
    all: try (injection Hread as <-); try congruence.
    all: try (rewrite Hsig in *; discriminate).
    all: try match goal with
           | H1 : ps_fault _ _ ?p = Some ?a, H2 : ps_fault _ _ ?p = Some ?b |- _ =>
               assert (a = b) by congruence; subst
           end; try congruence.
    all: try match goal with
           | Hn : ?b = false, Hb : negb ?b = false |- _ =>
               rewrite Hn in Hb; discriminate Hb
           end.
    all: eexists; split; [reflexivity|]; cbn [files procs helper logged].
    all: split; [auto|].
    all: erewrite new_events_app by (cbn [trace logged]; rewrite <- !app_assoc; reflexivity).
    all: repeat constructor; discriminate.
  - unfold Kill, killVfkit. vfkit_shutdown_cases; try discriminate.
    all: destruct Hfail as [[Hread Hne]|(pid & Hread & Hsig & Hdone)];
      try discriminate; try congruence.
    all: try (injection Hread as <-); try congruence.
    all: try (rewrite Hsig in *; discriminate).
    all: try match goal with
           | H1 : ps_fault _ _ ?p = Some ?a, H2 : ps_fault _ _ ?p = Some ?b |- _ =>
               assert (a = b) by congruence; subst
           end; try congruence.
    all: try match goal with
           | Hn : ?b = false, Hb : negb ?b = false |- _ =>
               rewrite Hn in Hb; discriminate Hb
           end.
    all: eexists; split; [reflexivity|]; cbn [files procs helper logged].
    all: split; [auto|].
    all: erewrite new_events_app by (cbn [trace logged]; rewrite <- !app_assoc; reflexivity).
    all: repeat constructor; discriminate.
Qed.

Lemma shutdown_fallback_error_witness :
  exists w',
    Stop (Sample.with_fs_fault
            (fun op _ => match op with
                         | OpRead => Some (ErrNew "permission denied")
                         | _ => None
                         end) Sample.calm)
      Sample.d_shared
      (Sample.world Sample.stale_fs ∅ (Sample.helper_in state.Running))
    = Ret (Some (ErrNew "permission denied")) w' /\
    helper w' = Sample.helper_in state.Running.
Proof.
  destruct (shutdown_fallback_error
              (Sample.with_fs_fault
                 (fun op _ => match op with
                              | OpRead => Some (ErrNew "permission denied")
                              | _ => None
                              end) Sample.calm)
              Sample.d_shared CallStop
              (Sample.world Sample.stale_fs ∅ (Sample.helper_in state.Running))
              (ErrNew "permission denied"))
    as (w' & Hrun & (_ & _ & Hh) & _).
  - reflexivity.
  - left. split; [vm_compute; reflexivity|reflexivity].
  - exists w'. split; [exact Hrun|]. rewrite <- Hh. reflexivity.
Defined.

(** ** Remove *)

(** X11.  Remove on a machine that is not running (no PID file, helper
    absent or reporting Stopped) returns nil without any shutdown call: no
    request on the control channel, no signal, no call to stop or kill the
    helper, and nothing changed. *)
Theorem Remove_stopped (X : Externals) (d : Driver) (w : World) :
  files w !! pidfilePath X d = None ->
  VmnetHelper d = None \/
    (helper_state (helper w) = state.Stopped /\ helper_query_err (helper w) = None) ->
  exists w',
    Remove X d w = Ret None w' /\
    same_state w w' /\ posts w' = posts w /\
    Forall (fun ev => forced_only ev = false /\ graceful_only ev = false)
      (new_events w w').
Proof.
  intros Hf Hh. unfold Remove, GetState, getVfkitState, process_ReadPidfile,
    getVmnetHelperState, vmnet_Helper_GetState, same_state.
  run. rewrite Hf. run. cbn [errors_Is_ErrNotExist negb]. run.
  rewrite bool_decide_eq_false_2 by discriminate.
  destruct (VmnetHelper d) as [h|]; run.
  - destruct Hh as [Hh|[Hst Hq]]; [discriminate|]. rewrite Hq, Hst. run.
    rewrite bool_decide_eq_false_2 by discriminate.
    eexists. split; [reflexivity|]. cbn [files procs helper posts logged].
    repeat (split; [reflexivity|]).
    erewrite new_events_app by (cbn [trace logged]; rewrite <- !app_assoc; reflexivity).
    repeat constructor.
  - rewrite bool_decide_eq_false_2 by discriminate.
    eexists. split; [reflexivity|]. cbn [files procs helper posts logged].
    repeat (split; [reflexivity|]).
    erewrite new_events_app by (cbn [trace logged]; reflexivity).
    repeat constructor.
Qed.

Lemma Remove_stopped_witness :
  exists w',
    Remove Sample.calm (NewDriver "minikube" "/home/u/.minikube")
      (Sample.world Sample.key_fs ∅ (Sample.helper_in state.Stopped)) = Ret None w' /\
    posts w' = 0%nat.
Proof.
  destruct (Remove_stopped Sample.calm (NewDriver "minikube" "/home/u/.minikube")
              (Sample.world Sample.key_fs ∅ (Sample.helper_in state.Stopped)))
    as (w' & Hrun & _ & Hposts & _).
  - reflexivity.
  - left. reflexivity.
  - exists w'. split; [exact Hrun|exact Hposts].
Defined.

(** X12.  When the state query fails, Remove returns its error wrapped as
    "get state", still recognisable by errors.Is, and makes no shutdown
    call. *)
Theorem Remove_state_error (X : Externals) (d : Driver) (w : World)
    (st : state.State) (err : error) (w1 : World) :
  GetState X d w = Ret (st, Some err) w1 ->
  Remove X d w = Ret (Some (ErrWrap "get state" err)) w1 /\
  Error (ErrWrap "get state" err) = "get state: " +:+ Error err /\
  errors_Is_ErrNotExist (ErrWrap "get state" err) = errors_Is_ErrNotExist err /\
  posts w1 = posts w /\ procs w1 = procs w /\ helper w1 = helper w.
Proof.
  intros H. split; [unfold Remove, bind; rewrite H; reflexivity|].
  split; [reflexivity|]. split; [reflexivity|].
  pose proof (GetState_effects X d w) as He. cbn zeta in He. rewrite H in He.
  cbn [final_world] in He. tauto.
Qed.

Lemma Remove_state_error_witness :
  exists w1,
    Remove (Sample.with_fs_fault
              (fun op _ => match op with
                           | OpRead => Some (ErrNew "permission denied")
                           | _ => None
                           end) Sample.calm)
      Sample.d_nat (Sample.world Sample.stale_fs ∅ (Sample.helper_in state.Stopped))
    = Ret (Some (ErrWrap "get state" (ErrNew "permission denied"))) w1.
Proof.
  eexists.
  apply (Remove_state_error
           (Sample.with_fs_fault
              (fun op _ => match op with
                           | OpRead => Some (ErrNew "permission denied")
                           | _ => None
                           end) Sample.calm)
           Sample.d_nat (Sample.world Sample.stale_fs ∅ (Sample.helper_in state.Stopped))
           state.Error).
  vm_compute. reflexivity.
Defined.

(** X13.  Remove on a running machine kills it: with the PID file naming a
    live vfkit process, no helper and the control channel down, Remove
    returns nil and the process is gone. *)
Theorem Remove_running_kills (X : Externals) (d : Driver) (w : World)
    (data : list byte) (pid : Z) :
  files w !! pidfilePath X d = Some data ->
  fs_fault X OpRead (pidfilePath X d) = None ->
  parse_pid X data = Ok pid ->
  ps_fault X PsQuery pid = None ->
  ps_fault X PsKill pid = None ->
  procs w !! pid = Some "vfkit" ->
  VmnetHelper d = None ->
  channel_answers X d "HardStop" w = false ->
  exists w',
    Remove X d w = Ret None w' /\
    procs w' = delete pid (procs w) /\
    In (EvKill pid "vfkit") (new_events w w').
Proof.
  intros Hf Hr Hp Hq Hk Hlive Hh Hch. unfold channel_answers, http_Post in Hch.
  unfold Remove, GetState, getVfkitState, process_Exists, Kill, killVfkit,
    killVmnetHelper.
  rewrite Hh. vfkit_shutdown_cases; try discriminate; try congruence.
  all: try match goal with
         | B : bool_decide (_ = "vfkit") = false |- _ =>
             apply bool_decide_eq_false in B; congruence
         end.
  all: try match goal with
         | B : negb (bool_decide (?s = "vfkit")) = true |- _ =>
             apply negb_true_iff, bool_decide_eq_false in B; congruence
         end.
  all: try match goal with
         | B : bool_decide (state.Running = state.Running) = false |- _ =>
             apply bool_decide_eq_false in B; congruence
         end.
  all: eexists; split; [reflexivity|]; cbn [procs logged]; split; [reflexivity|].
  all: erewrite new_events_app by (cbn [trace logged]; rewrite <- !app_assoc; reflexivity).
  all: cbn; tauto.
Qed.

Lemma Remove_running_kills_witness :
  exists w',
    Remove Sample.calm Sample.d_nat
      (Sample.world Sample.stale_fs {[ 4242 := "vfkit" ]} (Sample.helper_in state.Stopped))
    = Ret None w' /\
    procs w' = delete 4242 {[ 4242 := "vfkit" ]}.
Proof.
  destruct (Remove_running_kills Sample.calm Sample.d_nat
              (Sample.world Sample.stale_fs {[ 4242 := "vfkit" ]}
                 (Sample.helper_in state.Stopped))
              (String.list_byte_of_string "4242") 4242)
    as (w' & Hrun & Hprocs & _); try reflexivity.
  exists w'. split; [exact Hrun|exact Hprocs].
Defined.

(** ** More on the disk image *)

Lemma length_tar_entry (blk data : list byte) :
  Z.of_nat (length (tar_entry blk data)) =
    Z.of_nat (length blk) + 512 * ((Z.of_nat (length data) + 511) / 512).
Proof.
  unfold tar_entry, tar_blockPadding.
  rewrite !length_app, length_replicate.
  assert (H : 0 <= (- Z.of_nat (length data)) mod 512 < 512)
    by (apply Z.mod_pos_bound; lia).
  rewrite !Nat2Z.inj_add, Z2Nat.id by lia.
  generalize (Z.of_nat (length data)) (Nat2Z.is_nonneg (length data)) H.
  intros n Hn Hm. Z.div_mod_to_equations. lia.
Qed.

(** The length of the archive of the four entries when each header takes
    one 512-byte block. *)
Lemma length_image_archive (pubKey b1 b2 b3 b4 : list byte) :
  length b1 = 512%nat -> length b2 = 512%nat ->
  length b3 = 512%nat -> length b4 = 512%nat ->
  Z.of_nat (length (tar_archive [(b1, String.list_byte_of_string magicString);
                                 (b2, []); (b3, pubKey); (b4, pubKey)])) =
    3584 + 2 * (512 * ((Z.of_nat (length pubKey) + 511) / 512)).
Proof.
  intros H1 H2 H3 H4. unfold tar_archive. cbn [map concat fst snd].
  rewrite !length_app, length_replicate, !Nat2Z.inj_add, !length_tar_entry.
  rewrite H1, H2, H3, H4. cbn [length]. 
  change (Z.of_nat (length (String.list_byte_of_string magicString))) with 29.
  change (Z.of_nat 0) with 0. change (Z.of_nat 512) with 512.
  change (Z.of_nat 1024) with 1024.
  change ((29 + 511) / 512) with 1. change ((0 + 511) / 512) with 0.
  lia.
Qed.

(** X14.  With headers of one 512-byte block each, the archive takes
    3584 + 1024 * ceil(len(pubKey) / 512) bytes, and whenever that is within
    size * 1,048,576 the image on disk is the whole archive followed by zero
    bytes up to exactly that size. *)
Theorem generateDiskImage_whole_archive (X : Externals) (d : Driver) (size : Z)
    (w : World) (pubKey b1 b2 b3 b4 : list byte) :
  files w !! publicSSHKeyPath X d = Some pubKey ->
  fs_fault X OpRead (publicSSHKeyPath X d) = None ->
  tar_block X sentinel_header = Ok b1 ->
  tar_block X ssh_dir_header = Ok b2 ->
  tar_block X (authorized_keys_header ".ssh/authorized_keys" pubKey) = Ok b3 ->
  tar_block X (authorized_keys_header ".ssh/authorized_keys2" pubKey) = Ok b4 ->
  length b1 = 512%nat -> length b2 = 512%nat ->
  length b3 = 512%nat -> length b4 = 512%nat ->
  fs_fault X OpWrite (diskPath X d) = None ->
  fs_fault X OpTruncate (diskPath X d) = None ->
  size * 1048576 < 2 ^ 63 ->
  3584 + 1024 * ((Z.of_nat (length pubKey) + 511) / 512) <= size * 1048576 ->
  let archive := tar_archive [(b1, String.list_byte_of_string magicString); (b2, []);
                              (b3, pubKey); (b4, pubKey)] in
  Z.of_nat (length archive) = 3584 + 1024 * ((Z.of_nat (length pubKey) + 511) / 512) /\
  exists w',
    generateDiskImage X d size w = Ret None w' /\
    files w' !! diskPath X d =
      Some (archive ++
            replicate (Z.to_nat (size * 1048576
                                 - (3584 + 1024 * ((Z.of_nat (length pubKey) + 511) / 512))))
              x00).
Proof.
  intros Hkey Hread H1 H2 H3 H4 L1 L2 L3 L4 Hwrite Htrunc Hmax Hfits archive.
  assert (Hlen : Z.of_nat (length archive) =
                 3584 + 1024 * ((Z.of_nat (length pubKey) + 511) / 512)).
  { unfold archive. rewrite length_image_archive by assumption. lia. }
  split; [exact Hlen|].
  assert (Hq : 0 <= (Z.of_nat (length pubKey) + 511) / 512)
    by (apply Z.div_pos; lia).
  assert (Hsize : 0 <= size) by lia.
  rewrite (generateDiskImage_archive X d size w pubKey b1 b2 b3 b4) by assumption.
  fold archive. unfold os_WriteFile, os_Truncate. run.
  rewrite Hwrite. run. rewrite Htrunc. run.
  rewrite (int64_small size) by lia.
  rewrite (int64_small (1024 * 1024)) by lia.
  change (1024 * 1024) with 1048576.
  rewrite (int64_small (size * 1048576)) by lia.
  destruct (size * 1048576 <? 0)%Z eqn:E; [apply Z.ltb_lt in E; lia|]. run.
  rewrite lookup_insert_eq. run.
  eexists. split; [reflexivity|]. cbn [files]. rewrite lookup_insert_eq.
  f_equal. rewrite truncated_fits by lia. f_equal. f_equal. lia.
Qed.

Lemma generateDiskImage_whole_archive_witness :
  exists w' archive,
    generateDiskImage Sample.calm Sample.d_nat 1
      (Sample.world Sample.key_fs ∅ (Sample.helper_in state.Stopped)) = Ret None w' /\
    files w' !! Sample.disk = Some (archive ++ replicate (Z.to_nat 1043968) x00) /\
    length archive = 4608%nat.
Proof.
  edestruct (generateDiskImage_whole_archive Sample.calm Sample.d_nat 1
               (Sample.world Sample.key_fs ∅ (Sample.helper_in state.Stopped)))
    as (Hlen & w' & Hrun & Hfile).
  - vm_compute. reflexivity.
  - reflexivity.
  - vm_compute. reflexivity.
  - vm_compute. reflexivity.
  - vm_compute. reflexivity.
  - vm_compute. reflexivity.
  - reflexivity.
  - reflexivity.
  - reflexivity.
  - reflexivity.
  - reflexivity.
  - reflexivity.
  - lia.
  - vm_compute. discriminate.
  - eexists w', _. split; [exact Hrun|]. split; [exact Hfile|].
    apply Nat2Z.inj. rewrite Hlen. reflexivity.
Defined.

(** X15.  generateDiskImage touches no process, not the helper and no file
    other than the disk image; and when it returns an error, it has written
    nothing at all. *)
Theorem generateDiskImage_only_writes_image (X : Externals) (d : Driver) (size : Z)
    (w : World) :
  let o := generateDiskImage X d size w in
  procs (final_world o) = procs w /\ helper (final_world o) = helper w /\
  (forall path, path <> diskPath X d -> files (final_world o) !! path = files w !! path) /\
  (forall err, returned o = Some (Some err) -> files (final_world o) = files w).
Proof.
  cbn zeta. unfold generateDiskImage.
  destruct (tar_WriteHeader X tar_NewWriter _) as [tw1 [e1|]]; cbn [or_return];
    [unfold ret; cbn; auto|].
  destruct (tar_Write tw1 _) as [tw2 [e2|]]; cbn [or_return];
    [unfold ret; cbn; auto|].
  destruct (tar_WriteHeader X tw2 _) as [tw3 [e3|]]; cbn [or_return];
    [unfold ret; cbn; auto|].
  unfold os_ReadFile. run.
  destruct (files w !! publicSSHKeyPath X d) as [pubKey|]; run;
    [|cbn; auto].
  destruct (fs_fault X OpRead (publicSSHKeyPath X d)); run; [cbn; auto|].
  destruct (tar_WriteHeader X tw3 _) as [tw4 [e4|]]; cbn [or_return];
    [unfold ret; cbn; auto|].
  destruct (tar_Write tw4 _) as [tw5 [e5|]]; cbn [or_return];
    [unfold ret; cbn; auto|].
  destruct (tar_WriteHeader X tw5 _) as [tw6 [e6|]]; cbn [or_return];
    [unfold ret; cbn; auto|].
  destruct (tar_Write tw6 _) as [tw7 [e7|]]; cbn [or_return];
    [unfold ret; cbn; auto|].
  destruct (tar_Close tw7) as [tw8 [e8|]]; cbn [or_return];
    [unfold ret; cbn; auto|].
  unfold os_WriteFile, os_Truncate. branches.
  all: cbn [final_world returned procs helper files logged].
  all: repeat match goal with |- _ /\ _ => split end; try reflexivity.
  all: try (intros err Herr; discriminate Herr).
  all: intros path Hne; rewrite ?lookup_insert_ne by congruence; reflexivity.
Qed.

(** X16.  A negative size is not refused: the archive is written, the
    truncation to a negative length fails, and generateDiskImage returns nil
    with the untruncated archive on disk. *)
Theorem generateDiskImage_negative_size (X : Externals) (d : Driver) (size : Z)
    (w : World) (pubKey b1 b2 b3 b4 : list byte) :
  files w !! publicSSHKeyPath X d = Some pubKey ->
  fs_fault X OpRead (publicSSHKeyPath X d) = None ->
  tar_block X sentinel_header = Ok b1 ->
  tar_block X ssh_dir_header = Ok b2 ->
  tar_block X (authorized_keys_header ".ssh/authorized_keys" pubKey) = Ok b3 ->
  tar_block X (authorized_keys_header ".ssh/authorized_keys2" pubKey) = Ok b4 ->
  fs_fault X OpWrite (diskPath X d) = None ->
  - 2 ^ 43 <= size < 0 ->
  exists w',
    generateDiskImage X d size w = Ret None w' /\
    files w' !! diskPath X d =
      Some (tar_archive [(b1, String.list_byte_of_string magicString); (b2, []);
                         (b3, pubKey); (b4, pubKey)]).
Proof.
  intros Hkey Hread H1 H2 H3 H4 Hwrite Hsize.
  rewrite (generateDiskImage_archive X d size w pubKey b1 b2 b3 b4) by assumption.
  unfold os_WriteFile, os_Truncate. run. rewrite Hwrite. run.
  rewrite (int64_small size) by lia.
  rewrite (int64_small (1024 * 1024)) by lia.
  change (1024 * 1024) with 1048576.
  rewrite (int64_small (size * 1048576)) by lia.
  destruct (size * 1048576 <? 0)%Z eqn:E; [|apply Z.ltb_ge in E; lia].
  destruct (fs_fault X OpTruncate (diskPath X d)); run;
    (eexists; split; [reflexivity|]; cbn [files logged]; apply lookup_insert_eq).
Qed.

Lemma generateDiskImage_negative_size_witness :
  exists w' image,
    generateDiskImage Sample.calm Sample.d_nat (-1)
      (Sample.world Sample.key_fs ∅ (Sample.helper_in state.Stopped)) = Ret None w' /\
    files w' !! Sample.disk = Some image /\ length image = 4608%nat.
Proof.
  edestruct (generateDiskImage_negative_size Sample.calm Sample.d_nat (-1)
               (Sample.world Sample.key_fs ∅ (Sample.helper_in state.Stopped)))
    as (w' & Hrun & Hfile).
  - vm_compute. reflexivity.
  - reflexivity.
  - vm_compute. reflexivity.
  - vm_compute. reflexivity.
  - vm_compute. reflexivity.
  - vm_compute. reflexivity.
  - reflexivity.
  - lia.
  - eexists w', _. split; [exact Hrun|]. split; [exact Hfile|].
    vm_compute. reflexivity.
Defined.

(** ** More on waiting for the SSH endpoint *)

Lemma trace_run_deferred (n : nat) (addr : string) (w : World) :
  trace (run_deferred n addr w) = trace w ++ replicate n (EvConnClose addr).
Proof.
  revert w. induction n as [|n IH]; intros w.
  - cbn. rewrite app_nil_r. reflexivity.
  - cbn [run_deferred]. rewrite IH. cbn [trace logged replicate].
    rewrite <- app_assoc. reflexivity.
Qed.

Lemma count_event_replicate (ev ev' : event) (n : nat) :
  count_event ev (replicate n ev') = if bool_decide (ev' = ev) then n else O.
Proof.
  induction n as [|n IH]; cbn [replicate count_event].
  - destruct (bool_decide (ev' = ev)); reflexivity.
  - rewrite IH. destruct (bool_decide (ev' = ev)); reflexivity.
Qed.

Ltac count_events :=
  cbn [count_event]; rewrite ?count_event_replicate;
  repeat case_bool_decide; try congruence; lia.

(** What the loop has done when it returns, started with [deferred] pending
    closes. *)
Lemma WaitForTCPWithDelay_loop_returns (X : Externals) (addr : string) (duration : Z) :
  forall (fuel deferred : nat) (w : World) (r : option error) (w' : World),
    WaitForTCPWithDelay_loop X fuel addr duration deferred w = Some (r, w') ->
    r = None /\
    exists evs,
      trace w' = trace w ++ evs /\
      count_event (EvConnClose addr) evs
        = (deferred + count_event (EvConnRead addr) evs)%nat /\
      S (count_event (EvSleep duration) evs) = count_event (EvConnRead addr) evs /\
      count_event (EvDial addr) evs = (probes w' - probes w)%nat /\
      (probes w < probes w')%nat /\
      (count_event (EvConnRead addr) evs <= count_event (EvDial addr) evs)%nat.
Proof.
  induction fuel as [|fuel IH]; intros deferred w r w' H; [discriminate H|].
  cbn [WaitForTCPWithDelay_loop] in H.
  destruct (net_probe X addr (probes w)).
  - apply IH in H as (-> & evs & Ht & Hc & Hs & Hd & Hp & Hle).
    split; [reflexivity|]. exists (EvDial addr :: evs).
    cbn [trace logged probed probes] in *.
    split; [rewrite Ht, <- app_assoc; reflexivity|].
    count_events.
  - apply IH in H as (-> & evs & Ht & Hc & Hs & Hd & Hp & Hle).
    split; [reflexivity|].
    exists (EvDial addr :: EvConnRead addr :: EvSleep duration :: evs).
    cbn [trace logged probed probes] in *.
    split; [rewrite Ht, <- !app_assoc; reflexivity|].
    count_events.
  - injection H as <- <-. split; [reflexivity|].
    exists (EvDial addr :: EvConnRead addr :: replicate (S deferred) (EvConnClose addr)).
    rewrite trace_run_deferred, probes_run_deferred.
    cbn [trace logged probed probes].
    split; [rewrite <- !app_assoc; reflexivity|].
    count_events.
  - injection H as <- <-. split; [reflexivity|].
    exists (EvDial addr :: EvConnRead addr :: replicate (S deferred) (EvConnClose addr)).
    rewrite trace_run_deferred, probes_run_deferred.
    cbn [trace logged probed probes].
    split; [rewrite <- !app_assoc; reflexivity|].
    count_events.
Qed.

(** X17.  Whenever WaitForTCPWithDelay returns, it returns nil, it has
    closed every connection it opened, and it has slept once after every
    failed read and never after a failed dial: with n connections opened
    there are n closes and n - 1 sleeps, however many dials failed. *)
Theorem WaitForTCPWithDelay_returns (X : Externals) (fuel : nat) (addr : string)
    (duration : Z) (w : World) (r : option error) (w' : World) :
  WaitForTCPWithDelay X fuel addr duration w = Some (r, w') ->
  let evs := new_events w w' in
  r = None /\
  count_event (EvConnClose addr) evs = count_event (EvConnRead addr) evs /\
  S (count_event (EvSleep duration) evs) = count_event (EvConnRead addr) evs /\
  count_event (EvDial addr) evs = (probes w' - probes w)%nat /\
  (count_event (EvConnRead addr) evs <= count_event (EvDial addr) evs)%nat.
Proof.
  intros H. unfold WaitForTCPWithDelay in H.
  apply WaitForTCPWithDelay_loop_returns in H as (-> & evs & Ht & Hc & Hs & Hd & Hp & Hle).
  cbn zeta. rewrite (new_events_app _ _ _ Ht).
  repeat split; assumption.
Qed.

Lemma WaitForTCPWithDelay_returns_witness :
  let X := Sample.with_probe
             (fun _ n => if (n <? 2)%nat then DialFails (ErrNew "connection refused")
                         else ReadEOF) Sample.calm in
  let w := Sample.world ∅ ∅ (Sample.helper_in state.Stopped) in
  exists w',
    WaitForTCPWithDelay X 3 "192.168.64.2:22" time_Second w = Some (None, w') /\
    count_event (EvSleep time_Second) (new_events w w') = 0%nat /\
    count_event (EvDial "192.168.64.2:22") (new_events w w') = 3%nat.
Proof.
  cbn zeta.
  destruct (WaitForTCPWithDelay
              (Sample.with_probe
                 (fun _ n => if (n <? 2)%nat then DialFails (ErrNew "connection refused")
                             else ReadEOF) Sample.calm)
              3 "192.168.64.2:22" time_Second
              (Sample.world ∅ ∅ (Sample.helper_in state.Stopped)))
    as [[r w']|] eqn:E; [|vm_compute in E; discriminate E].
  destruct (WaitForTCPWithDelay_returns _ _ _ _ _ _ _ E) as (-> & Hc & Hs & Hd & _).
  exists w'. split; [reflexivity|].
  vm_compute in E. injection E as <-. split; vm_compute; reflexivity.
Defined.

(** ** Accessors *)

(** X18.  GetSSHPort never returns port 0: an unset port becomes 22, a set
    port is returned as it is; the port returned is stored in the driver, so
    that a second call changes nothing and returns the same. *)
Theorem GetSSHPort_default (d : Driver) :
  let d' := fst (GetSSHPort d) in
  let port := fst (snd (GetSSHPort d)) in
  port <> 0 /\ snd (snd (GetSSHPort d)) = None /\
  SSHPort d' = port /\
  (SSHPort d = 0 -> port = 22) /\
  (SSHPort d <> 0 -> port = SSHPort d /\ d' = d) /\
  GetSSHPort d' = (d', (port, None)).
Proof.
  unfold GetSSHPort. destruct (SSHPort d =? 0)%Z eqn:E; cbn.
  - apply Z.eqb_eq in E. repeat split; try discriminate; try reflexivity; congruence.
  - rewrite E. apply Z.eqb_neq in E. cbn. repeat split; auto; congruence.
Qed.

(** X19.  GetURL never returns an error and changes nothing.  The URL is
    "tcp://<IP>:2376" when the PID file can be stat'ed and the stored IP
    address is not empty, and the empty string in every other case. *)
Theorem GetURL_answer (X : Externals) (stat_fault : string -> option error)
    (d : Driver) (w : World) :
  exists url,
    GetURL X stat_fault d w = Ret (url, None) w /\
    url = (if bool_decide (is_Some (files w !! pidfilePath X d)
                           /\ stat_fault (pidfilePath X d) = None
                           /\ IPAddress d <> "")
           then "tcp://" +:+ IPAddress d +:+ ":2376" else "").
Proof.
  unfold GetURL, os_Stat, GetIP. run.
  destruct (files w !! pidfilePath X d) as [data|]; run.
  - destruct (stat_fault (pidfilePath X d)); run.
    + eexists. split; [reflexivity|].
      rewrite bool_decide_eq_false_2; [reflexivity|]. intros (_ & H & _). discriminate H.
    + destruct (String.eqb_spec (IPAddress d) "") as [Hip|Hip].
      * eexists. split; [reflexivity|].
        rewrite bool_decide_eq_false_2; [reflexivity|]. intros (_ & _ & H). congruence.
      * eexists. split; [reflexivity|].
        rewrite bool_decide_eq_true_2; [reflexivity|]. repeat split; eauto.
  - eexists. split; [reflexivity|].
    rewrite bool_decide_eq_false_2; [reflexivity|]. intros ([x Hx] & _). discriminate Hx.
Qed.

(** ** The vfkit command line *)

Lemma extra_disk_args_views (ExtraDiskPath : Driver -> Z -> string) (d : Driver)
    (rest : list string) (n : nat) :
  forall i,
    length (extra_disk_args ExtraDiskPath d n i ++ rest) = (2 * n + length rest)%nat /\
    evens (extra_disk_args ExtraDiskPath d n i ++ rest)
      = replicate n "--device" ++ evens rest /\
    odds (extra_disk_args ExtraDiskPath d n i ++ rest)
      = map (String.append "virtio-blk,path=") (extra_disk_paths ExtraDiskPath d n i)
          ++ odds rest.
Proof.
  induction n as [|n IH]; intros i.
  - cbn. auto.
  - destruct (IH (i + 1)) as (Hl & He & Ho).
    cbn [extra_disk_args extra_disk_paths app evens odds map replicate length].
    rewrite Hl, He, Ho. repeat split; try reflexivity. lia.
Qed.

(** X20.  The arguments built by startVfkit come in flag/value pairs: five
    option flags followed by one "--device" per device, 5 + ExtraDisks of
    them (ExtraDisks counted as 0 when negative), 20 + 2 * ExtraDisks
    arguments in all.  The devices are, in this order: the network device,
    the random number generator, the ISO, the root disk, the extra disks
    0 .. ExtraDisks-1, and the serial log. *)
Theorem startCmd_pairs (X : Externals) (GOARCH : string)
    (ExtraDiskPath : Driver -> Z -> string) (d : Driver) (socketPath : string) :
  let cmd := startCmd X GOARCH ExtraDiskPath d socketPath in
  let n := Z.to_nat (ExtraDisks d) in
  length cmd = (20 + 2 * n)%nat /\
  evens cmd = ["--memory"; "--cpus"; "--restful-uri"; "--log-level"; "--bootloader"]
                ++ replicate (5 + n) "--device" /\
  exists net,
    drop 5 (odds cmd) =
      [net; "virtio-rng";
       "virtio-blk,path=" +:+ filepath_Join X
          [filepath_Join X [StorePath d; "machines"; MachineName d]; isoFilename];
       "virtio-blk,path=" +:+ diskPath X d]
      ++ map (String.append "virtio-blk,path=") (extra_disk_paths ExtraDiskPath d n 0)
      ++ ["virtio-serial,logFilePath=" +:+ ResolveStorePath X d serialFileName] /\
    net = (if String.eqb socketPath "" then "virtio-net,nat,mac=" +:+ MACAddress d
           else "virtio-net,unixSocketPath=" +:+ socketPath +:+ ",mac=" +:+ MACAddress d).
Proof.
  cbn zeta. unfold startCmd, GetMachineName.
  destruct (extra_disk_args_views ExtraDiskPath d
              ["--device"; "virtio-serial,logFilePath=" +:+ ResolveStorePath X d serialFileName]
              (Z.to_nat (ExtraDisks d)) 0) as (Hl & He & Ho).
  destruct (String.eqb socketPath ""); cbn [negb].
  all: rewrite <- !app_assoc; cbn [app length evens odds drop].
  all: rewrite Hl, He, Ho; cbn [length evens odds].
  all: split; [lia|]; split.
  all: try (eexists; split; reflexivity).
  all: replace (5 + Z.to_nat (ExtraDisks d))%nat with (S (S (S (S (Z.to_nat (ExtraDisks d) + 1)))))
         by lia; cbn [replicate]; rewrite replicate_add; reflexivity.
Qed.

(** The command line of the sample machine on arm64 with NAT networking. *)
Example startCmd_sample :
  startCmd Sample.calm "arm64" (fun d i => "extra-" +:+ fmt_d i) Sample.d_nat ""
  = ["--memory"; "2048"; "--cpus"; "2";
     "--restful-uri"; "unix:///home/u/.minikube/machines/minikube/vfkit.sock";
     "--log-level"; "debug";
     "--bootloader";
     "linux,kernel=/home/u/.minikube/machines/minikube/bzimage"
       +:+ ",initrd=/home/u/.minikube/machines/minikube/initrd,cmdline="
       +:+ dquote +:+ "console=hvc0" +:+ dquote;
     "--device"; "virtio-net,nat,mac=5a:94:ef:e4:0c:ee";
     "--device"; "virtio-rng";
     "--device"; "virtio-blk,path=/home/u/.minikube/machines/minikube/boot2docker.iso";
     "--device"; "virtio-blk,path=/home/u/.minikube/machines/minikube/disk.img";
     "--device"; "virtio-serial,logFilePath=/home/u/.minikube/machines/minikube/serial.log"].
Proof. vm_compute. reflexivity. Qed.

(** ** Facts about the launch *)

Section LaunchFacts.

Variable X : Externals.
Variable GOARCH : string.
Variable ExtraDiskPath : Driver -> Z -> string.
Variable exec_Start : string -> list string -> World -> result Z.
Variable format_pid : Z -> list byte.
Variable helper_SocketPath : vmnet_Helper -> string.
Variable helper_Start_err : vmnet_Helper -> string -> World -> option error.
Variable helper_MACAddress : vmnet_Helper -> World -> string.

Local Abbreviation startVfkit' := (startVfkit X GOARCH ExtraDiskPath exec_Start format_pid).
Local Abbreviation startCmd' := (startCmd X GOARCH ExtraDiskPath).
Local Abbreviation Start_launch' :=
  (Start_launch X GOARCH ExtraDiskPath exec_Start format_pid
     helper_SocketPath helper_Start_err helper_MACAddress).
Local Abbreviation Start' :=
  (Start X GOARCH ExtraDiskPath exec_Start format_pid
     helper_SocketPath helper_Start_err helper_MACAddress).
Local Abbreviation Restart' :=
  (Restart X GOARCH ExtraDiskPath exec_Start format_pid
     helper_SocketPath helper_Start_err helper_MACAddress).

Ltac launch_cases :=
  unfold startVfkit, os_Remove, openLogfile, exec_Cmd_Start, process_WritePidfile;
  branches.

(** What startVfkit does in each of its outcomes. *)
Lemma startVfkit_effects (d : Driver) (socketPath : string) (w : World) :
  exists r w',
    startVfkit' d socketPath w = Ret r w' /\
    helper w' = helper w /\ posts w' = posts w /\
    lookups w' = lookups w /\ probes w' = probes w /\
    (r = None ->
     exists pid, (exists w1, exec_Start "vfkit" (startCmd' d socketPath) w1 = Ok pid) /\
                 procs w' !! pid = Some "vfkit" /\
                 files w' !! pidfilePath X d = Some (format_pid pid)).
Proof.
  launch_cases.
  all: do 2 eexists; split; [reflexivity|]; cbn [helper posts lookups probes procs files logged].
  all: repeat (split; [reflexivity|]).
  all: intros Hr; try discriminate Hr.
  all: eexists; split; [eexists; eassumption|]; split; apply lookup_insert_eq.
Qed.

(** X21.  A successful startVfkit leaves a live vfkit process and its PID in
    the PID file, so that, when the PID file reads back as written and the
    process query works, the GetState that follows reports Running. *)
Theorem startVfkit_then_GetState (d : Driver) (socketPath : string) (w w' : World) :
  startVfkit' d socketPath w = Ret None w' ->
  (forall pid w1,
     exec_Start "vfkit" (startCmd' d socketPath) w1 = Ok pid ->
     parse_pid X (format_pid pid) = Ok pid /\ ps_fault X PsQuery pid = None) ->
  fs_fault X OpRead (pidfilePath X d) = None ->
  exists pid w'',
    procs w' !! pid = Some "vfkit" /\
    files w' !! pidfilePath X d = Some (format_pid pid) /\
    GetState X d w' = Ret (state.Running, None) w''.
Proof.
  intros Hrun Hpid Hread.
  destruct (startVfkit_effects d socketPath w) as (r & w1 & Hrun1 & _ & _ & _ & _ & Hok).
  rewrite Hrun in Hrun1. injection Hrun1 as <- <-.
  destruct (Hok eq_refl) as (pid & (w0 & Hexec) & Hproc & Hfile).
  destruct (Hpid pid w0 Hexec) as (Hparse & Hquery).
  exists pid. unfold GetState, getVfkitState, process_ReadPidfile, process_Exists.
  run. rewrite Hfile, Hread. run. rewrite Hparse. run. rewrite Hquery. run.
  rewrite Hproc. run. rewrite bool_decide_eq_true_2 by reflexivity. run.
  rewrite bool_decide_eq_true_2 by reflexivity.
  eexists. repeat split; try assumption.
Qed.

(** X22.  When the log file cannot be opened or the command cannot be
    started, startVfkit returns the error (the first wrapped as "failed to
    open vfkit logfile"), no process is launched and no PID file is
    written. *)
Theorem startVfkit_launch_failure (d : Driver) (socketPath : string) (w : World)
    (e : error) :
  fs_fault X OpWrite (ResolveStorePath X d logFileName) = Some e \/
  (fs_fault X OpWrite (ResolveStorePath X d logFileName) = None /\
   forall w1, exec_Start "vfkit" (startCmd' d socketPath) w1 = Err e) ->
  exists w',
    startVfkit' d socketPath w
      = Ret (Some (match fs_fault X OpWrite (ResolveStorePath X d logFileName) with
                   | Some _ => ErrWrap "failed to open vfkit logfile" e
                   | None => e
                   end)) w' /\
    procs w' = procs w /\
    ~ In (EvWriteFile (pidfilePath X d)) (new_events w w').
Proof.
  intros [Hlog|[Hlog Hexec]]; rewrite Hlog.
  - launch_cases; try congruence.
    all: try match goal with H : Some _ = Some _ |- _ => injection H as -> end.
    all: eexists; split; [reflexivity|]; cbn [procs logged]; split; [reflexivity|].
    all: erewrite new_events_app by (cbn [trace logged]; reflexivity).
    all: cbn; intros [H|[]]; discriminate H.
  - launch_cases; try congruence.
    all: try match goal with
           | H : exec_Start _ _ ?w1 = Ok _ |- _ => rewrite Hexec in H; discriminate H
           end.
    all: match goal with
         | H : exec_Start _ _ ?w1 = Err _ |- _ => rewrite Hexec in H; injection H as <-
         end.
    all: eexists; split; [reflexivity|]; cbn [procs logged]; split; [reflexivity|].
    all: erewrite new_events_app by (cbn [trace logged]; reflexivity).
    all: cbn; intros [H|[]]; discriminate H.
Qed.

(** X23.  When the process starts but its PID cannot be written,
    startVfkit returns the write error and leaves the new vfkit process
    running: nothing stops it, and it is not recorded in the PID file. *)
Theorem startVfkit_unrecorded_process (d : Driver) (socketPath : string) (w : World)
    (pid : Z) (e : error) :
  fs_fault X OpWrite (ResolveStorePath X d logFileName) = None ->
  (forall w1, exec_Start "vfkit" (startCmd' d socketPath) w1 = Ok pid) ->
  fs_fault X OpWrite (pidfilePath X d) = Some e ->
  pidfilePath X d <> ResolveStorePath X d logFileName ->
  files w !! pidfilePath X d = None ->
  exists w',
    startVfkit' d socketPath w = Ret (Some e) w' /\
    procs w' !! pid = Some "vfkit" /\
    files w' !! pidfilePath X d = None.
Proof.
  intros Hlog Hexec Hwrite Hne Hf.
  launch_cases; try congruence.
  all: try match goal with
         | H : exec_Start _ _ ?w1 = _ |- _ => rewrite Hexec in H; try discriminate H;
                                             injection H as ->
         end.
  all: try congruence.
  all: try match goal with H : Some _ = Some _ |- _ => injection H as -> end.
  all: eexists; split; [reflexivity|]; cbn [procs files logged].
  all: split; [apply lookup_insert_eq|].
  all: rewrite lookup_insert_ne by congruence.
  all: try (rewrite lookup_delete_ne by congruence); try assumption.
  all: destruct (decide (sockfilePath X d = pidfilePath X d)) as [->|Hn];
    [apply lookup_delete_eq|rewrite lookup_delete_ne by congruence; assumption].
Qed.

(** When the wait loop returns, the probe it made last succeeded. *)
Lemma WaitForTCPWithDelay_loop_reached (addr : string) (duration : Z) :
  forall (fuel deferred : nat) (w : World) (r : option error) (w' : World),
    WaitForTCPWithDelay_loop X fuel addr duration deferred w = Some (r, w') ->
    same_state w w' /\ lookups w' = lookups w /\
    exists j, probe_succeeds (net_probe X addr j) = true.
Proof.
  induction fuel as [|fuel IH]; intros deferred w r w' H; [discriminate H|].
  cbn [WaitForTCPWithDelay_loop] in H.
  destruct (net_probe X addr (probes w)) eqn:E.
  - apply IH in H as ((H1 & H2 & H3) & Hl & Hj). repeat split; assumption.
  - apply IH in H as ((H1 & H2 & H3) & Hl & Hj). repeat split; assumption.
  - injection H as <- <-.
    destruct (same_state_run_deferred (S deferred) addr
                (logged (EvConnRead addr) (probed (logged (EvDial addr) w))))
      as (H1 & H2 & H3).
    assert (Hl : forall n v, lookups (run_deferred n addr v) = lookups v)
      by (induction n as [|n IHn]; intros v; [reflexivity|cbn [run_deferred]; rewrite IHn; reflexivity]).
    rewrite Hl. repeat split; try assumption.
    exists (probes w). rewrite E. reflexivity.
  - injection H as <- <-.
    destruct (same_state_run_deferred (S deferred) addr
                (logged (EvConnRead addr) (probed (logged (EvDial addr) w))))
      as (H1 & H2 & H3).
    assert (Hl : forall n v, lookups (run_deferred n addr v) = lookups v)
      by (induction n as [|n IHn]; intros v; [reflexivity|cbn [run_deferred]; rewrite IHn; reflexivity]).
    rewrite Hl. repeat split; try assumption.
    exists (probes w). rewrite E. reflexivity.
Qed.

(** What holds when the launch part of Start succeeds. *)
Lemma Start_launch_nil (d d' : Driver) (w w' : World) :
  Start_launch' d w = Ret (d', None) w' ->
  pidfilePath X d' = pidfilePath X d /\ SSHPort d' = SSHPort d /\
  (VmnetHelper d = None -> MACAddress d' = MACAddress d) /\
  (VmnetHelper d <> None -> helper_state (helper w') = state.Running) /\
  (exists pid, procs w' !! pid = Some "vfkit" /\
               files w' !! pidfilePath X d = Some (format_pid pid)) /\
  (exists k, GetIPAddressByMACAddress X (MACAddress d') k = (IPAddress d', None)).
Proof.
  unfold Start_launch, vmnet_Helper_Start, vmnet_Helper_GetMACAddress.
  destruct (VmnetHelper d) as [h|] eqn:Eh; run.
  - destruct (helper_Start_err h (helper_SocketPath h) w); run; [discriminate|].
    match goal with
    | |- context [startVfkit' ?d1 ?sp ?w1] =>
        destruct (startVfkit_effects d1 sp w1) as (r & w2 & Hrun & Hh & _ & Hlk & _ & Hok);
        rewrite Hrun
    end.
    destruct r as [e|]; [discriminate|].
    destruct (Hok eq_refl) as (pid & _ & Hproc & Hfile).
    match goal with
    | |- context [setupIP X ?d1 ?mac w2] =>
        destruct (setupIP_effects X d1 mac w2) as ((Hs1 & Hs2 & Hs3) & _ & _ & Hret);
        destruct (setupIP X d1 mac w2) as [[d2 r2] w3|] eqn:Hip; [|discriminate]
    end.
    cbn [final_world returned] in *.
    intros [= -> -> ->].
    destruct (Hret _ _ eq_refl) as (ip & -> & Hlook).
    destruct (Hlook eq_refl) as (k & _ & Hk).
    cbn [helper] in Hh.
    repeat split; try reflexivity.
    + intros Hn. discriminate Hn.
    + intros _. rewrite <- Hs3, Hh. reflexivity.
    + exists pid. rewrite <- Hs1, <- Hs2. auto.
    + eexists. exact Hk.
  - match goal with
    | |- context [startVfkit' ?d1 ?sp ?w1] =>
        destruct (startVfkit_effects d1 sp w1) as (r & w2 & Hrun & Hh & _ & Hlk & _ & Hok);
        rewrite Hrun
    end.
    destruct r as [e|]; [discriminate|].
    destruct (Hok eq_refl) as (pid & _ & Hproc & Hfile).
    destruct (setupIP_effects X d (MACAddress d) w2) as ((Hs1 & Hs2 & Hs3) & _ & _ & Hret).
    destruct (setupIP X d (MACAddress d) w2) as [[d2 r2] w3|] eqn:Hip; [|discriminate].
    cbn [final_world returned] in *.
    intros [= -> -> ->].
    destruct (Hret _ _ eq_refl) as (ip & -> & Hlook).
    destruct (Hlook eq_refl) as (k & _ & Hk).
    repeat split; try reflexivity.
    + intros Hn. congruence.
    + exists pid. rewrite <- Hs1, <- Hs2. auto.
    + eexists. exact Hk.
Qed.

(** What holds when Start returns nil. *)
Lemma Start_nil_up (fuel : nat) (d d' : Driver) (w w' : World) :
  Start' fuel d w = Some (Ret (d', None) w') ->
  (exists pid, procs w' !! pid = Some "vfkit" /\
               files w' !! pidfilePath X d' = Some (format_pid pid)) /\
  (exists k, GetIPAddressByMACAddress X (MACAddress d') k = (IPAddress d', None)) /\
  (exists j, probe_succeeds
               (net_probe X (IPAddress d' +:+ ":" +:+ fmt_d (SSHPort d')) j) = true) /\
  (VmnetHelper d <> None -> helper_state (helper w') = state.Running).
Proof.
  unfold Start.
  destruct (Start_launch' d w) as [[d1 [e|]] w1|] eqn:Hl; try discriminate.
  destruct (WaitForTCPWithDelay X fuel _ time_Second w1) as [[r w2]|] eqn:Hw;
    [|discriminate].
  intros [= -> -> ->].
  apply Start_launch_nil in Hl as (Hpath & _ & _ & Hhelper & (pid & Hproc & Hfile) & Hip).
  unfold WaitForTCPWithDelay in Hw.
  apply WaitForTCPWithDelay_loop_reached in Hw as ((H1 & H2 & H3) & _ & Hj).
  split; [exists pid; rewrite Hpath, <- H1, <- H2; auto|].
  split; [exact Hip|]. split; [exact Hj|].
  intros Hn. rewrite <- H3. apply Hhelper. exact Hn.
Qed.


(** X24.  Start returns nil only for a machine that is up: a vfkit process
    is alive and recorded in the PID file, the stored IP address is one the
    lease lookup returned for the machine's MAC address, a probe of the SSH
    endpoint at that address succeeded, and a configured network helper is
    running. *)
Theorem Start_nil_sound (fuel : nat) (d d' : Driver) (w w' : World) :
  Start' fuel d w = Some (Ret (d', None) w') ->
  (exists pid, procs w' !! pid = Some "vfkit" /\
               files w' !! pidfilePath X d' = Some (format_pid pid)) /\
  (exists k, GetIPAddressByMACAddress X (MACAddress d') k = (IPAddress d', None)) /\
  (exists j, probe_succeeds
               (net_probe X (IPAddress d' +:+ ":" +:+ fmt_d (SSHPort d')) j) = true) /\
  (VmnetHelper d <> None -> helper_state (helper w') = state.Running).
Proof. exact (Start_nil_up fuel d d' w w'). Qed.

(** X25.  Restart returns nil only for a machine that is up, in the same
    sense: whatever the state before, a nil from Restart means a vfkit
    process alive and recorded, an IP address obtained from the lease
    lookup, a successful probe of the SSH endpoint and a running helper if
    one is configured. *)
Theorem Restart_nil_sound (fuel : nat) (d d' : Driver) (w w' : World) :
  Restart' fuel d w = Some (Ret (d', None) w') ->
  (exists pid, procs w' !! pid = Some "vfkit" /\
               files w' !! pidfilePath X d' = Some (format_pid pid)) /\
  (exists k, GetIPAddressByMACAddress X (MACAddress d') k = (IPAddress d', None)) /\
  (exists j, probe_succeeds
               (net_probe X (IPAddress d' +:+ ":" +:+ fmt_d (SSHPort d')) j) = true) /\
  (VmnetHelper d <> None -> helper_state (helper w') = state.Running).
Proof.
  unfold Restart.
  destruct (GetState X d w) as [[s [e|]] w1|]; try discriminate.
  destruct (bool_decide (s = state.Running)).
  - destruct (Stop X d w1) as [[e|] w2|]; try discriminate.
    apply Start_nil_up.
  - apply Start_nil_up.
Qed.

(** X26.  A failing step stops Start.  When the network helper cannot be
    started, Start returns its error and nothing has happened.  Whenever
    Start returns an error it has not probed the SSH endpoint; and if it got
    as far as looking up the IP address, the vfkit process it launched is
    left running, recorded in the PID file. *)
Theorem Start_failure (fuel : nat) (d : Driver) (w : World) :
  (forall h e,
     VmnetHelper d = Some h ->
     helper_Start_err h (helper_SocketPath h) w = Some e ->
     Start' fuel d w = Some (Ret (d, Some e) w)) /\
  (forall d' err w',
     Start' fuel d w = Some (Ret (d', Some err) w') ->
     probes w' = probes w /\
     (lookups w' <> lookups w ->
      exists pid, procs w' !! pid = Some "vfkit" /\
                  files w' !! pidfilePath X d = Some (format_pid pid))).
Proof.
  split.
  - intros h e Hh He. unfold Start, Start_launch, vmnet_Helper_Start.
    rewrite Hh. run. rewrite He. reflexivity.
  - intros d' err w'. unfold Start.
    destruct (Start_launch' d w) as [[d1 [e0|]] w1|] eqn:Hl; try discriminate.
    2:{ destruct (WaitForTCPWithDelay X fuel _ time_Second w1) as [[r w2]|] eqn:Hw;
          [|discriminate].
        intros [= -> Hr ->]. unfold WaitForTCPWithDelay in Hw.
        apply WaitForTCPWithDelay_loop_returns in Hw as (-> & _). discriminate Hr. }
    intros [= <- <- <-]. revert Hl.
    unfold Start_launch, vmnet_Helper_Start, vmnet_Helper_GetMACAddress.
    destruct (VmnetHelper d) as [h|]; run.
    + destruct (helper_Start_err h (helper_SocketPath h) w); run.
      { intros Heq; injection Heq as ? ? ?; subst. split; [reflexivity|]. intros Hn. congruence. }
      match goal with
      | |- context [startVfkit' ?d1 ?sp ?w1] =>
          destruct (startVfkit_effects d1 sp w1)
            as (r & w2 & Hrun & Hh & _ & Hlk & Hpr & Hok);
          rewrite Hrun
      end.
      cbn [lookups probes] in Hlk, Hpr.
      destruct r as [e1|].
      { intros Heq; injection Heq as ? ? ?; subst. split; [exact Hpr|]. intros Hn. congruence. }
      destruct (Hok eq_refl) as (pid & _ & Hproc & Hfile).
      match goal with
      | |- context [setupIP X ?d1 ?mac w2] =>
          destruct (setupIP_effects X d1 mac w2) as ((Hs1 & Hs2 & Hs3) & _ & Hp2 & _);
          destruct (setupIP X d1 mac w2) as [[d2 r2] w3|] eqn:Hip; [|discriminate]
      end.
      cbn [final_world] in *. intros Heq; injection Heq as ? ? ?; subst.
      split; [congruence|]. intros _. exists pid. rewrite <- Hs1, <- Hs2. auto.
    + match goal with
      | |- context [startVfkit' ?d1 ?sp ?w1] =>
          destruct (startVfkit_effects d1 sp w1)
            as (r & w2 & Hrun & Hh & _ & Hlk & Hpr & Hok);
          rewrite Hrun
      end.
      destruct r as [e1|].
      { intros Heq; injection Heq as ? ? ?; subst. split; [exact Hpr|]. intros Hn. congruence. }
      destruct (Hok eq_refl) as (pid & _ & Hproc & Hfile).
      destruct (setupIP_effects X d (MACAddress d) w2) as ((Hs1 & Hs2 & Hs3) & _ & Hp2 & _).
      destruct (setupIP X d (MACAddress d) w2) as [[d2 r2] w3|] eqn:Hip; [|discriminate].
      cbn [final_world] in *. intros Heq; injection Heq as ? ? ?; subst.
      split; [congruence|]. intros _. exists pid. rewrite <- Hs1, <- Hs2. auto.
Qed.

End LaunchFacts.

Lemma startVfkit_then_GetState_witness :
  exists w' w'',
    startVfkit Sample.calm Host.GOARCH Host.ExtraDiskPath Host.exec_Start Host.format_pid
      Sample.d_nat "" (Sample.world ∅ ∅ (Sample.helper_in state.Stopped)) = Ret None w' /\
    procs w' !! 4242 = Some "vfkit" /\
    GetState Sample.calm Sample.d_nat w' = Ret (state.Running, None) w''.
Proof.
  destruct (startVfkit Sample.calm Host.GOARCH Host.ExtraDiskPath Host.exec_Start
              Host.format_pid Sample.d_nat ""
              (Sample.world ∅ ∅ (Sample.helper_in state.Stopped)))
    as [[e|] w'|] eqn:E; try (vm_compute in E; discriminate E).
  destruct (startVfkit_then_GetState Sample.calm Host.GOARCH Host.ExtraDiskPath
              Host.exec_Start Host.format_pid Sample.d_nat ""
              (Sample.world ∅ ∅ (Sample.helper_in state.Stopped)) w' E)
    as (pid & w'' & _ & _ & Hget).
  - intros pid w1 H. injection H as <-. split; vm_compute; reflexivity.
  - reflexivity.
  - exists w', w''. split; [reflexivity|]. split; [|exact Hget].
    vm_compute in E. injection E as <-. vm_compute. reflexivity.
Defined.

Lemma startVfkit_launch_failure_witness :
  (exists w',
     startVfkit (Host.read_only Host.logfile) Host.GOARCH Host.ExtraDiskPath
       Host.exec_Start Host.format_pid Sample.d_nat ""
       (Sample.world ∅ ∅ (Sample.helper_in state.Stopped))
     = Ret (Some (ErrWrap "failed to open vfkit logfile" (ErrNew "permission denied"))) w' /\
     procs w' = ∅) /\
  (exists w',
     startVfkit Sample.calm Host.GOARCH Host.ExtraDiskPath
       Host.exec_missing Host.format_pid Sample.d_nat ""
       (Sample.world ∅ ∅ (Sample.helper_in state.Stopped))
     = Ret (Some (ErrNew "exec: vfkit: executable file not found in $PATH")) w' /\
     procs w' = ∅).
Proof.
  split.
  - destruct (startVfkit_launch_failure (Host.read_only Host.logfile) Host.GOARCH
                Host.ExtraDiskPath Host.exec_Start Host.format_pid Sample.d_nat ""
                (Sample.world ∅ ∅ (Sample.helper_in state.Stopped))
                (ErrNew "permission denied"))
      as (w' & Hrun & Hprocs & _).
    + left. reflexivity.
    + exists w'. split; [exact Hrun|exact Hprocs].
  - destruct (startVfkit_launch_failure Sample.calm Host.GOARCH
                Host.ExtraDiskPath Host.exec_missing Host.format_pid Sample.d_nat ""
                (Sample.world ∅ ∅ (Sample.helper_in state.Stopped))
                (ErrNew "exec: vfkit: executable file not found in $PATH"))
      as (w' & Hrun & Hprocs & _).
    + right. split; [reflexivity|]. intros w1. reflexivity.
    + exists w'. split; [exact Hrun|exact Hprocs].
Defined.

Lemma startVfkit_unrecorded_process_witness :
  exists w',
    startVfkit (Host.read_only Sample.pidfile) Host.GOARCH Host.ExtraDiskPath
      Host.exec_Start Host.format_pid Sample.d_nat ""
      (Sample.world ∅ ∅ (Sample.helper_in state.Stopped))
    = Ret (Some (ErrNew "permission denied")) w' /\
    procs w' !! 4242 = Some "vfkit" /\
    files w' !! Sample.pidfile = None.
Proof.
  apply (startVfkit_unrecorded_process (Host.read_only Sample.pidfile) Host.GOARCH
           Host.ExtraDiskPath Host.exec_Start Host.format_pid Sample.d_nat ""
           (Sample.world ∅ ∅ (Sample.helper_in state.Stopped)) 4242
           (ErrNew "permission denied")).
  - reflexivity.
  - intros w1. reflexivity.
  - reflexivity.
  - vm_compute. discriminate.
  - reflexivity.
Defined.

Lemma Start_nil_sound_witness :
  exists d' w',
    Start Sample.calm Host.GOARCH Host.ExtraDiskPath Host.exec_Start Host.format_pid
      Host.helper_SocketPath Host.helper_Start_err Host.helper_MACAddress
      1 Sample.d_shared (Sample.world ∅ ∅ (Sample.helper_in state.Stopped))
    = Some (Ret (d', None) w') /\
    (exists pid, procs w' !! pid = Some "vfkit" /\
                 files w' !! Sample.pidfile = Some (Host.format_pid pid)) /\
    helper_state (helper w') = state.Running.
Proof.
  destruct (Start Sample.calm Host.GOARCH Host.ExtraDiskPath Host.exec_Start
              Host.format_pid Host.helper_SocketPath Host.helper_Start_err
              Host.helper_MACAddress 1 Sample.d_shared
              (Sample.world ∅ ∅ (Sample.helper_in state.Stopped)))
    as [[[d' [e|]] w'|]|] eqn:E; try (vm_compute in E; discriminate E).
  destruct (Start_nil_sound _ _ _ _ _ _ _ _ _ _ _ _ _ E)
    as ((pid & Hproc & Hfile) & _ & _ & Hhelper).
  exists d', w'. split; [reflexivity|]. split.
  - exists pid. split; [exact Hproc|].
    assert (Hd : pidfilePath Sample.calm d' = Sample.pidfile)
      by (vm_compute in E; injection E as <- _; reflexivity).
    rewrite <- Hd. exact Hfile.
  - apply Hhelper. discriminate.
Defined.

Lemma Restart_nil_sound_witness :
  exists d' w',
    Restart Sample.calm Host.GOARCH Host.ExtraDiskPath Host.exec_Start Host.format_pid
      Host.helper_SocketPath Host.helper_Start_err Host.helper_MACAddress
      1 Sample.d_nat
      (Sample.world Sample.stale_fs {[ 4242 := "vfkit" ]} (Sample.helper_in state.Stopped))
    = Some (Ret (d', None) w') /\
    (exists pid, procs w' !! pid = Some "vfkit") /\
    (exists j, probe_succeeds
                 (net_probe Sample.calm (IPAddress d' +:+ ":" +:+ fmt_d (SSHPort d')) j)
               = true).
Proof.
  destruct (Restart Sample.calm Host.GOARCH Host.ExtraDiskPath Host.exec_Start
              Host.format_pid Host.helper_SocketPath Host.helper_Start_err
              Host.helper_MACAddress 1 Sample.d_nat
              (Sample.world Sample.stale_fs {[ 4242 := "vfkit" ]}
                 (Sample.helper_in state.Stopped)))
    as [[[d' [e|]] w'|]|] eqn:E; try (vm_compute in E; discriminate E).
  destruct (Restart_nil_sound _ _ _ _ _ _ _ _ _ _ _ _ _ E)
    as ((pid & Hproc & _) & _ & Hprobe & _).
  exists d', w'. split; [reflexivity|]. split; [exists pid; exact Hproc|exact Hprobe].
Defined.
